(** * AegisPHP / PHALANX: normalization and aggregation of scanner findings

    Shallow embedding of the finding pipeline of [phalanx.py] and of its
    earlier variant [aegisphp.py]: the three adapters [normalize_psalm],
    [normalize_parse], [normalize_progpilot] and the part of [main] that
    concatenates their findings and builds the summary.

    Running the scanners, Docker, argument parsing, logging and writing the
    report file are effects outside the pipeline; the adapters start from the
    values [json.loads] returned. *)

From Stdlib Require Import String Ascii List ZArith Bool Arith Lia DecimalString.
Import ListNotations.
Open Scope string_scope.
Open Scope Z_scope.

(** ** Python values and the builtins the adapters call *)
Module Py.

(** The exceptions the modelled builtins raise.  All of them derive from
    [Exception], which is what the handlers of [phalanx.py] catch. *)
Inductive exn : Type :=
| AttributeError
| TypeError
| ValueError
| OverflowError
| KeyError.

Inductive result (A : Type) : Type :=
| Ok (a : A)
| Raise (e : exn).
Arguments Ok {A} a.
Arguments Raise {A} e.

Definition bind {A B : Type} (m : result A) (k : A -> result B) : result B :=
  match m with
  | Ok a => k a
  | Raise e => Raise e
  end.

Notation "x <- m ;; k" := (bind m (fun x => k))
  (at level 61, m at next level, right associativity).

(** A binary64 float is kept as what the pipeline can observe of it: the text
    [str] gives, the outcome of [int] (which raises on nan and on the
    infinities) and its truth value. *)
Record pyfloat : Type := {
  fl_repr : string;
  fl_int : result Z;
  fl_true : bool
}.

(** What [json.loads] returns, which is also all the adapters build.  A dict
    keeps its items in insertion order; lookup takes the first item of a key.
    A character is a code point below 256. *)
#[warnings="-register-all"]
Inductive pyval : Type :=
| PyNone
| PyBool (b : bool)
| PyInt (z : Z)
| PyFloat (x : pyfloat)
| PyStr (s : string)
| PyList (l : list pyval)
| PyDict (d : list (string * pyval)).

(** *** dict *)
Section Dict.
Context {V : Type}.

Fixpoint dict_find (d : list (string * V)) (k : string) : option V :=
  match d with
  | [] => None
  | (k', v) :: rest => if String.eqb k' k then Some v else dict_find rest k
  end.

(** [d.get(k, default)] *)
Definition dict_get (d : list (string * V)) (k : string) (default : V) : V :=
  match dict_find d k with
  | Some v => v
  | None => default
  end.

(** [d[k] = v] *)
Fixpoint dict_set (d : list (string * V)) (k : string) (v : V)
  : list (string * V) :=
  match d with
  | [] => [(k, v)]
  | (k', v') :: rest =>
      if String.eqb k' k then (k', v) :: rest
      else (k', v') :: dict_set rest k v
  end.

(** [k in d] *)
Definition dict_mem (d : list (string * V)) (k : string) : bool :=
  match dict_find d k with
  | Some _ => true
  | None => false
  end.

(** [d.setdefault(k, v)], for its effect on [d] *)
Definition dict_setdefault (d : list (string * V)) (k : string) (v : V)
  : list (string * V) :=
  if dict_mem d k then d else dict_set d k v.
End Dict.

(** [sum(d.values())] *)
Definition dict_sum (d : list (string * Z)) : Z :=
  fold_left Z.add (map snd d) 0.

(** *** str *)

(** [s[:n]] *)
Definition slice_to (n : nat) (s : string) : string := substring 0 n s.

Definition char_code (c : ascii) : nat := nat_of_ascii c.

Definition between (lo hi n : nat) : bool := (lo <=? n)%nat && (n <=? hi)%nat.

(** [str.isspace] on one character *)
Definition is_space (c : ascii) : bool :=
  let n := char_code c in
  between 9 13 n || between 28 32 n || (n =? 133)%nat || (n =? 160)%nat.

(** [str.lower] on one character: A-Z and the capital letters of Latin-1 *)
Definition lower_char (c : ascii) : ascii :=
  let n := char_code c in
  if between 65 90 n || (between 192 222 n && negb (n =? 215)%nat)
  then ascii_of_nat (n + 32)
  else c.

Fixpoint lower (s : string) : string :=
  match s with
  | EmptyString => EmptyString
  | String c rest => String (lower_char c) (lower rest)
  end.

Fixpoint lstrip (s : string) : string :=
  match s with
  | EmptyString => EmptyString
  | String c rest => if is_space c then lstrip rest else s
  end.

Fixpoint rstrip (s : string) : string :=
  match s with
  | EmptyString => EmptyString
  | String c rest =>
      match rstrip rest with
      | EmptyString => if is_space c then EmptyString else String c EmptyString
      | kept => String c kept
      end
  end.

(** [s.strip()] *)
Definition strip (s : string) : string := rstrip (lstrip s).

Fixpoint contains_char (c : ascii) (s : string) : bool :=
  match s with
  | EmptyString => false
  | String c' rest => Ascii.eqb c c' || contains_char c rest
  end.

Definition hex_digit (n : nat) : ascii :=
  if (n <? 10)%nat then ascii_of_nat (48 + n) else ascii_of_nat (87 + n).

(** [repr] of a character inside a literal delimited by [quote] *)
Definition repr_char (quote : ascii) (c : ascii) : string :=
  let n := char_code c in
  if Ascii.eqb c quote || (n =? 92)%nat then String "\" (String c "")
  else if (n =? 9)%nat then "\t"
  else if (n =? 10)%nat then "\n"
  else if (n =? 13)%nat then "\r"
  else if (n <? 32)%nat || between 127 160 n || (n =? 173)%nat
  then String "\" (String "x"
         (String (hex_digit (n / 16)) (String (hex_digit (n mod 16)) "")))
  else String c "".

Fixpoint repr_chars (quote : ascii) (s : string) : string :=
  match s with
  | EmptyString => EmptyString
  | String c rest => repr_char quote c ++ repr_chars quote rest
  end.

Definition double_quote : ascii := ascii_of_nat 34.

(** [repr(s)]: single quotes, unless [s] has a single quote and no double
    quote *)
Definition repr_str (s : string) : string :=
  let quote :=
    if contains_char "'" s && negb (contains_char double_quote s)
    then double_quote else "'"%char in
  String quote (repr_chars quote s ++ String quote "").

(** [str(z)] *)
Definition str_of_int (z : Z) : string := NilZero.string_of_int (Z.to_int z).

Fixpoint join (sep : string) (parts : list string) : string :=
  match parts with
  | [] => ""
  | [p] => p
  | p :: rest => p ++ sep ++ join sep rest
  end.

Fixpoint py_repr (v : pyval) : string :=
  match v with
  | PyNone => "None"
  | PyBool true => "True"
  | PyBool false => "False"
  | PyInt z => str_of_int z
  | PyFloat x => fl_repr x
  | PyStr s => repr_str s
  | PyList l => "[" ++ join ", " (map py_repr l) ++ "]"
  | PyDict d =>
      "{" ++ join ", "
               (map (fun kv => repr_str (fst kv) ++ ": " ++ py_repr (snd kv)) d)
          ++ "}"
  end.

(** [str(v)] *)
Definition py_str (v : pyval) : string :=
  match v with
  | PyStr s => s
  | _ => py_repr v
  end.

(** *** int *)

Definition digit_val (c : ascii) : option Z :=
  let n := char_code c in
  if between 48 57 n then Some (Z.of_nat (n - 48)) else None.

(** Decimal digits, single underscores allowed between two digits.  Returns
    the value and the number of digits read. *)
Fixpoint read_digits (s : string) (acc : Z) (count : nat) (after_digit : bool)
  : option (Z * nat) :=
  match s with
  | EmptyString => if after_digit then Some (acc, count) else None
  | String c rest =>
      if Ascii.eqb c "_" then
        if after_digit then read_digits rest acc count false else None
      else
        match digit_val c with
        | Some d => read_digits rest (10 * acc + d) (S count) true
        | None => None
        end
  end.

(** The default of [sys.set_int_max_str_digits] (CPython 3.11 and later). *)
Definition int_max_str_digits : nat := 4300.

Definition read_unsigned (s : string) : result Z :=
  match read_digits s 0 0%nat false with
  | Some (z, count) =>
      if (int_max_str_digits <? count)%nat then Raise ValueError else Ok z
  | None => Raise ValueError
  end.

(** White space as [int] skips it: the blanks of C and the two blanks of
    Latin-1 above 127, not the separators U+001C to U+001F, which
    [str.strip] removes and [int] refuses. *)
Definition is_int_space (c : ascii) : bool :=
  let n := char_code c in
  between 9 13 n || (n =? 32)%nat || (n =? 133)%nat || (n =? 160)%nat.

Fixpoint int_lstrip (s : string) : string :=
  match s with
  | EmptyString => EmptyString
  | String c rest => if is_int_space c then int_lstrip rest else s
  end.

Fixpoint int_rstrip (s : string) : string :=
  match s with
  | EmptyString => EmptyString
  | String c rest =>
      match int_rstrip rest with
      | EmptyString =>
          if is_int_space c then EmptyString else String c EmptyString
      | kept => String c kept
      end
  end.

(** [int(s)] for a str: surrounding white space, one optional sign, digits *)
Definition int_of_str (s : string) : result Z :=
  match int_rstrip (int_lstrip s) with
  | String "+" digits => read_unsigned digits
  | String "-" digits => z <- read_unsigned digits ;; Ok (- z)
  | digits => read_unsigned digits
  end.

(** [int(v)] *)
Definition py_int (v : pyval) : result Z :=
  match v with
  | PyInt z => Ok z
  | PyBool b => Ok (if b then 1 else 0)
  | PyFloat x => fl_int x
  | PyStr s => int_of_str s
  | PyNone | PyList _ | PyDict _ => Raise TypeError
  end.

(** *** methods and protocols *)

(** truth value, as [or] tests it *)
Definition py_true (v : pyval) : bool :=
  match v with
  | PyNone => false
  | PyBool b => b
  | PyInt z => negb (z =? 0)
  | PyFloat x => fl_true x
  | PyStr s => negb (String.eqb s "")
  | PyList l => match l with [] => false | _ => true end
  | PyDict d => match d with [] => false | _ => true end
  end.

(** [obj.get(key, default)]: only a dict has the method *)
Definition py_get (obj : pyval) (key : string) (default : pyval)
  : result pyval :=
  match obj with
  | PyDict d => Ok (dict_get d key default)
  | _ => Raise AttributeError
  end.

(** [obj[key]] for a str key *)
Definition py_getitem (obj : pyval) (key : string) : result pyval :=
  match obj with
  | PyDict d =>
      match dict_find d key with
      | Some v => Ok v
      | None => Raise KeyError
      end
  | _ => Raise TypeError
  end.

(** [v.lower()]: only a str has the method *)
Definition py_lower (v : pyval) : result string :=
  match v with
  | PyStr s => Ok (lower s)
  | _ => Raise AttributeError
  end.

(** [v.strip()] *)
Definition py_strip (v : pyval) : result string :=
  match v with
  | PyStr s => Ok (strip s)
  | _ => Raise AttributeError
  end.

Fixpoint chars (s : string) : list pyval :=
  match s with
  | EmptyString => []
  | String c rest => PyStr (String c "") :: chars rest
  end.

(** What [for issue in v] goes through: the items of a list, the keys of a
    dict, the characters of a str; nothing else is iterable. *)
Definition py_iter (v : pyval) : result (list pyval) :=
  match v with
  | PyList l => Ok l
  | PyDict d => Ok (map (fun kv => PyStr (fst kv)) d)
  | PyStr s => Ok (chars s)
  | PyNone | PyBool _ | PyInt _ | PyFloat _ => Raise TypeError
  end.

(** [a or b], where evaluating [b] may raise *)
Definition py_or (a : pyval) (b : result pyval) : result pyval :=
  if py_true a then Ok a else b.

(** The loop [for issue in issues: findings.append(body(issue))]: the list
    [findings] as it stands when the loop ends, and the exception that ended
    it, if one did.  What was appended before an exception stays appended. *)
Fixpoint for_append {F : Type} (body : pyval -> result F)
    (issues : list pyval) (findings : list F) : list F * option exn :=
  match issues with
  | [] => (findings, None)
  | issue :: rest =>
      match body issue with
      | Ok finding => for_append body rest (findings ++ [finding])
      | Raise e => (findings, Some e)
      end
  end.

End Py.

Import Py.

(** ** phalanx.py *)
Module Phalanx.

(** The dict every adapter appends.  [str(...)] and [int(...)] fix the types
    of its values. *)
Record Finding : Type := {
  tool : string;
  title : string;
  file : string;
  line : Z;
  severity : string;
  code : string;
  metadata : list (string * string)
}.

Definition SEV_MAP : list (string * string) :=
  [("info", "low"); ("notice", "low"); ("warning", "medium");
   ("error", "high"); ("critical", "critical")].

(** [sev = raw.lower()] followed by [SEV_MAP.get(sev, "medium")], as every
    adapter does with the severity it reads (lines 164 and 170). *)
Definition normalize_severity (raw : pyval) : result string :=
  sev <- py_lower raw ;;
  Ok (dict_get SEV_MAP sev "medium").

(** Body of the loop of [normalize_psalm], in evaluation order. *)
Definition psalm_finding (issue : pyval) : result Finding :=
  raw_sev <- py_get issue "severity" (PyStr "") ;;
  sev <- normalize_severity raw_sev ;;
  message <- py_get issue "message" (PyStr "") ;;
  file_name <- py_get issue "file_name" (PyStr "") ;;
  line_from <- py_get issue "line_from" (PyInt 0) ;;
  line_no <- py_int line_from ;;
  snippet <- py_get issue "snippet" (PyStr "") ;;
  type <- py_get issue "type" (PyStr "") ;;
  link <- py_get issue "link" (PyStr "") ;;
  Ok {| tool := "psalm";
        title := slice_to 500 (py_str message);
        file := slice_to 1000 (py_str file_name);
        line := line_no;
        severity := sev;
        code := slice_to 1000 (strip (py_str snippet));
        metadata := [("type", slice_to 100 (py_str type));
                     ("link", slice_to 500 (py_str link))] |}.

(** Body of the loop of [normalize_parse]. *)
Definition parse_finding (issue : pyval) : result Finding :=
  raw_sev <- py_get issue "severity" (PyStr "warning") ;;
  sev <- normalize_severity raw_sev ;;
  first <- py_get issue "title" PyNone ;;
  shown <- py_or first (py_get issue "message" (PyStr "")) ;;
  path <- py_get issue "file" (PyStr "") ;;
  raw_line <- py_get issue "line" (PyInt 0) ;;
  line_no <- py_int raw_line ;;
  raw_code <- py_get issue "code" (PyStr "") ;;
  rule <- py_get issue "rule" (PyStr "") ;;
  Ok {| tool := "parse";
        title := slice_to 500 (py_str shown);
        file := slice_to 1000 (py_str path);
        line := line_no;
        severity := sev;
        code := slice_to 1000 (py_str raw_code);
        metadata := [("rule", slice_to 100 (py_str rule))] |}.

(** Body of the loop of [normalize_progpilot]. *)
Definition progpilot_finding (issue : pyval) : result Finding :=
  raw_sev <- py_get issue "severity" (PyStr "medium") ;;
  sev <- normalize_severity raw_sev ;;
  first <- py_get issue "description" PyNone ;;
  shown <- py_or first (py_get issue "message" (PyStr "")) ;;
  path <- py_get issue "file" (PyStr "") ;;
  raw_line <- py_get issue "line" (PyInt 0) ;;
  line_no <- py_int raw_line ;;
  raw_code <- py_get issue "code" (PyStr "") ;;
  rule <- py_get issue "rule_name" (PyStr "") ;;
  Ok {| tool := "progpilot";
        title := slice_to 500 (py_str shown);
        file := slice_to 1000 (py_str path);
        line := line_no;
        severity := sev;
        code := slice_to 1000 (py_str raw_code);
        metadata := [("rule", slice_to 100 (py_str rule))] |}.

(** The shape the three adapters share: [findings = []], then inside one
    [try] the loop over [data.get(key, [])], and [return findings] after
    the handler, which only logs. *)
Definition normalize (key : string) (body : pyval -> result Finding)
    (data : pyval) : list Finding :=
  match (raw <- py_get data key (PyList []) ;; py_iter raw) with
  | Ok issues => fst (for_append body issues [])
  | Raise _ => []
  end.

Definition normalize_psalm : pyval -> list Finding :=
  normalize "issues" psalm_finding.

Definition normalize_parse : pyval -> list Finding :=
  normalize "findings" parse_finding.

Definition normalize_progpilot : pyval -> list Finding :=
  normalize "results" progpilot_finding.

Record Summary : Type := {
  total_findings : Z;
  by_tool : list (string * Z);
  by_severity : list (string * Z);
  scan_timestamp : string;
  phalanx_version : string
}.

Record Report : Type := {
  summary : Summary;
  findings : list Finding
}.

Definition version : string := "0.1.0".

(** [d[k] = d.get(k, 0) + 1] *)
Definition count_one (d : list (string * Z)) (k : string) : list (string * Z) :=
  dict_set d k (dict_get d k 0 + 1).

(** Body of the loop over [all_findings] (lines 341 to 345).  Each finding
    has the keys "tool" and "severity", so the defaults of the two [get]
    calls are not used. *)
Definition count_finding (s : Summary) (finding : Finding) : Summary :=
  {| total_findings := total_findings s;
     by_tool := count_one (by_tool s) (tool finding);
     by_severity := count_one (by_severity s) (severity finding);
     scan_timestamp := scan_timestamp s;
     phalanx_version := phalanx_version s |}.

(** [main] from "Normalize all findings" to the construction of [report]
    (lines 326 to 350); [now] is the text of [datetime.utcnow()]. *)
Definition main (now : string) (psalm_json parse_json prog_json : pyval)
  : Report :=
  let all_findings :=
    (normalize_psalm psalm_json ++ normalize_parse parse_json
       ++ normalize_progpilot prog_json)%list in
  let summary0 :=
    {| total_findings := Z.of_nat (length all_findings);
       by_tool := [];
       by_severity := [("low", 0); ("medium", 0); ("high", 0); ("critical", 0)];
       scan_timestamp := now ++ "Z";
       phalanx_version := version |} in
  {| summary := fold_left count_finding all_findings summary0;
     findings := all_findings |}.

(** The report as the Python value [main] hands to [json.dump]: the dict
    literals of the adapters and of [main], key by key. *)
Definition finding_dict (f : Finding) : pyval :=
  PyDict [("tool", PyStr (tool f));
          ("title", PyStr (title f));
          ("file", PyStr (file f));
          ("line", PyInt (line f));
          ("severity", PyStr (severity f));
          ("code", PyStr (code f));
          ("metadata",
           PyDict (map (fun kv => (fst kv, PyStr (snd kv))) (metadata f)))].

Definition counts_dict (d : list (string * Z)) : pyval :=
  PyDict (map (fun kv => (fst kv, PyInt (snd kv))) d).

Definition report_dict (r : Report) : pyval :=
  PyDict [("summary",
           PyDict [("total_findings", PyInt (total_findings (summary r)));
                   ("by_tool", counts_dict (by_tool (summary r)));
                   ("by_severity", counts_dict (by_severity (summary r)));
                   ("scan_timestamp", PyStr (scan_timestamp (summary r)));
                   ("phalanx_version", PyStr (phalanx_version (summary r)))]);
          ("findings", PyList (map finding_dict (findings r)))].

End Phalanx.

(** ** aegisphp.py *)
Module Aegis.

(** The dict every adapter appends.  Apart from "tool" and "severity" the
    values are the raw ones: nothing converts them. *)
Record Finding : Type := {
  tool : string;
  title : pyval;
  file : pyval;
  line : pyval;
  severity : string;
  code : pyval;
  metadata : list (string * pyval)
}.

Definition SEV_MAP : list (string * string) :=
  [("info", "low"); ("notice", "low");
   ("warning", "medium"); ("error", "high");
   ("critical", "critical")].

(** [sev = raw.lower()] followed by [SEV_MAP.get(sev, "medium")]
    (lines 47 and 53). *)
Definition normalize_severity (raw : pyval) : result string :=
  sev <- py_lower raw ;;
  Ok (dict_get SEV_MAP sev "medium").

(** Body of the loop of [normalize_psalm]. *)
Definition psalm_finding (issue : pyval) : result Finding :=
  raw_sev <- py_get issue "severity" (PyStr "") ;;
  sev <- normalize_severity raw_sev ;;
  message <- py_get issue "message" PyNone ;;
  file_name <- py_get issue "file_name" PyNone ;;
  line_from <- py_get issue "line_from" PyNone ;;
  snippet <- py_get issue "snippet" (PyStr "") ;;
  stripped <- py_strip snippet ;;
  type <- py_get issue "type" PyNone ;;
  link <- py_get issue "link" PyNone ;;
  Ok {| tool := "psalm";
        title := message;
        file := file_name;
        line := line_from;
        severity := sev;
        code := PyStr stripped;
        metadata := [("type", type); ("link", link)] |}.

(** Body of the loop of [normalize_parse]. *)
Definition parse_finding (issue : pyval) : result Finding :=
  raw_sev <- py_get issue "severity" (PyStr "warning") ;;
  sev <- normalize_severity raw_sev ;;
  first <- py_get issue "title" PyNone ;;
  shown <- py_or first (py_get issue "message" PyNone) ;;
  path <- py_get issue "file" PyNone ;;
  raw_line <- py_get issue "line" PyNone ;;
  raw_code <- py_get issue "code" (PyStr "") ;;
  rule <- py_get issue "rule" PyNone ;;
  Ok {| tool := "parse";
        title := shown;
        file := path;
        line := raw_line;
        severity := sev;
        code := raw_code;
        metadata := [("rule", rule)] |}.

(** Body of the loop of [normalize_progpilot]. *)
Definition progpilot_finding (issue : pyval) : result Finding :=
  raw_sev <- py_get issue "severity" (PyStr "medium") ;;
  sev <- normalize_severity raw_sev ;;
  first <- py_get issue "description" PyNone ;;
  shown <- py_or first (py_get issue "message" PyNone) ;;
  path <- py_get issue "file" PyNone ;;
  raw_line <- py_get issue "line" PyNone ;;
  raw_code <- py_get issue "code" (PyStr "") ;;
  rule <- py_get issue "rule_name" PyNone ;;
  Ok {| tool := "progpilot";
        title := shown;
        file := path;
        line := raw_line;
        severity := sev;
        code := raw_code;
        metadata := [("rule", rule)] |}.

(** The shape the three adapters share: the loop over [data.get(key, [])]
    with no handler, so an exception leaves the adapter. *)
Definition normalize (key : string) (body : pyval -> result Finding)
    (data : pyval) : result (list Finding) :=
  raw <- py_get data key (PyList []) ;;
  issues <- py_iter raw ;;
  match for_append body issues [] with
  | (findings, None) => Ok findings
  | (_, Some e) => Raise e
  end.

Definition normalize_psalm : pyval -> result (list Finding) :=
  normalize "issues" psalm_finding.

Definition normalize_parse : pyval -> result (list Finding) :=
  normalize "findings" parse_finding.

Definition normalize_progpilot : pyval -> result (list Finding) :=
  normalize "results" progpilot_finding.

Record Summary : Type := {
  total_findings : Z;
  by_tool : list (string * Z)
}.

Record Report : Type := {
  summary : Summary;
  findings : list Finding
}.

(** [d[k] += 1], which reads [d[k]] first *)
Definition dict_incr (d : list (string * Z)) (k : string)
  : result (list (string * Z)) :=
  match dict_find d k with
  | Some n => Ok (dict_set d k (n + 1))
  | None => Raise KeyError
  end.

(** Body of the loop over [all_findings] (lines 149 and 150). *)
Definition count_finding (s : Summary) (f : Finding) : result Summary :=
  counts <- dict_incr (dict_setdefault (by_tool s) (tool f) 0) (tool f) ;;
  Ok {| total_findings := total_findings s; by_tool := counts |}.

Fixpoint count_all (s : Summary) (all_findings : list Finding)
  : result Summary :=
  match all_findings with
  | [] => Ok s
  | f :: rest => s' <- count_finding s f ;; count_all s' rest
  end.

(** [main] from "3) Normalize" to the construction of [report]
    (lines 140 to 152). *)
Definition main (psalm_json parse_json prog_json : pyval) : result Report :=
  from_psalm <- normalize_psalm psalm_json ;;
  from_parse <- normalize_parse parse_json ;;
  from_progpilot <- normalize_progpilot prog_json ;;
  let all_findings := (from_psalm ++ from_parse ++ from_progpilot)%list in
  s <- count_all {| total_findings := Z.of_nat (length all_findings);
                    by_tool := [] |} all_findings ;;
  Ok {| summary := s; findings := all_findings |}.

(** The report as the Python value [main] hands to [json.dump]. *)
Definition finding_dict (f : Finding) : pyval :=
  PyDict [("tool", PyStr (tool f));
          ("title", title f);
          ("file", file f);
          ("line", line f);
          ("severity", PyStr (severity f));
          ("code", code f);
          ("metadata", PyDict (metadata f))].

Definition counts_dict (d : list (string * Z)) : pyval :=
  PyDict (map (fun kv => (fst kv, PyInt (snd kv))) d).

Definition report_dict (r : Report) : pyval :=
  PyDict [("summary",
           PyDict [("total_findings", PyInt (total_findings (summary r)));
                   ("by_tool", counts_dict (by_tool (summary r)))]);
          ("findings", PyList (map finding_dict (findings r)))].

End Aegis.

(** ** Vocabulary of the properties *)

(** The four levels of the unified scale. *)
Definition levels : list string := ["low"; "medium"; "high"; "critical"].

(** The severity table as the specification words it, on the lower-cased
    text. *)
Definition severity_table (lowered : string) : string :=
  if String.eqb lowered "info" then "low"
  else if String.eqb lowered "notice" then "low"
  else if String.eqb lowered "warning" then "medium"
  else if String.eqb lowered "error" then "high"
  else if String.eqb lowered "critical" then "critical"
  else "medium".

(** The truncation law of a field bounded to [bound] characters. *)
Definition truncation_law (bound : nat) (input output : string) : Prop :=
  (String.length output <= bound)%nat
  /\ prefix output input = true
  /\ ((bound < String.length input)%nat -> String.length output = bound)
  /\ ((String.length input <= bound)%nat -> output = input).

(** The raw issues of a payload, in the order of the tool's output: what the
    loop over [data.get(key, [])] goes through, nothing when that raises. *)
Definition raw_issues (key : string) (data : pyval) : list pyval :=
  match (raw <- py_get data key (PyList []) ;; py_iter raw) with
  | Ok issues => issues
  | Raise _ => []
  end.

(** The payload is a dict that holds a list under [key]. *)
Definition has_list (key : string) (data : pyval) : bool :=
  match data with
  | PyDict d =>
      match dict_find d key with
      | Some (PyList _) => true
      | _ => false
      end
  | _ => false
  end.

Section PerIssue.
Context {F : Type} (body : pyval -> result F).

(** Skipping policy of the specification: the findings of all the issues
    whose processing does not raise. *)
Fixpoint skip_failed (issues : list pyval) : list F :=
  match issues with
  | [] => []
  | issue :: rest =>
      match body issue with
      | Ok finding => finding :: skip_failed rest
      | Raise _ => skip_failed rest
      end
  end.

(** The findings of the issues that come before the first one whose
    processing raises. *)
Fixpoint until_failure (issues : list pyval) : list F :=
  match issues with
  | [] => []
  | issue :: rest =>
      match body issue with
      | Ok finding => finding :: until_failure rest
      | Raise _ => []
      end
  end.

(** The exception of the first issue whose processing raises. *)
Fixpoint first_failure (issues : list pyval) : option exn :=
  match issues with
  | [] => None
  | issue :: rest =>
      match body issue with
      | Ok _ => first_failure rest
      | Raise e => Some e
      end
  end.
End PerIssue.

(** [len(v)] *)
Definition py_len (v : pyval) : result Z :=
  match v with
  | PyList l => Ok (Z.of_nat (length l))
  | PyDict d => Ok (Z.of_nat (length d))
  | PyStr s => Ok (Z.of_nat (String.length s))
  | _ => Raise TypeError
  end.

Fixpoint sum_ints (values : list pyval) (acc : Z) : result Z :=
  match values with
  | [] => Ok acc
  | PyInt z :: rest => sum_ints rest (acc + z)
  | PyBool b :: rest => sum_ints rest (acc + if b then 1 else 0)
  | _ :: _ => Raise TypeError
  end.

(** [sum(v.values())] over int values *)
Definition sum_values (v : pyval) : result Z :=
  match v with
  | PyDict d => sum_ints (map snd d) 0
  | _ => Raise AttributeError
  end.

(** [report["summary"][key]] *)
Definition summary_item (report : pyval) (key : string) : result pyval :=
  s <- py_getitem report "summary" ;;
  py_getitem s key.

(** The cross-check of the counts, on the report value: [len] of the
    findings, [total_findings] and the two sums are one number. *)
Definition counts_agree (report : pyval) : Prop :=
  exists n : Z,
    (fs <- py_getitem report "findings" ;; py_len fs) = Ok n
    /\ summary_item report "total_findings" = Ok (PyInt n)
    /\ (d <- summary_item report "by_tool" ;; sum_values d) = Ok n
    /\ (d <- summary_item report "by_severity" ;; sum_values d) = Ok n.

(** A text of [n] copies of one character. *)
Fixpoint replicate (n : nat) (c : ascii) : string :=
  match n with
  | O => EmptyString
  | S m => String c (replicate m c)
  end.

(** [a or b] over two lookups of one dict, as the title of a parse or
    progpilot finding is chosen. *)
Definition first_true (d : list (string * pyval)) (k1 k2 : string)
    (default : pyval) : pyval :=
  let a := dict_get d k1 PyNone in
  if py_true a then a else dict_get d k2 default.

(** How many times [k] occurs in [ks]. *)
Definition occurrences (k : string) (ks : list string) : Z :=
  Z.of_nat (length (filter (String.eqb k) ks)).

(** Only a dict gets through the first [issue.get] of a loop body. *)
Definition dict_only {F : Type} (body : pyval -> result F) : Prop :=
  forall issue finding, body issue = Ok finding -> exists d, issue = PyDict d.

(** [block] holds one finding per issue of [issues], in the same order, each
    made from its issue by [body] and tagged [name]. *)
Definition block_of {F : Type} (body : pyval -> result F)
    (tool_of : F -> string) (name : string)
    (issues : list pyval) (block : list F) : Prop :=
  Forall2 (fun issue finding => body issue = Ok finding /\ tool_of finding = name)
          issues block.

(** The payload is a dict without [key]. *)
Definition lacks_key (key : string) (data : pyval) : bool :=
  match data with
  | PyDict d => negb (dict_mem d key)
  | _ => false
  end.

(** The three scanners, with what differs from one adapter to the next. *)
Inductive scanner : Type := Psalm | Parse | Progpilot.

Definition tool_name (t : scanner) : string :=
  match t with
  | Psalm => "psalm"
  | Parse => "parse"
  | Progpilot => "progpilot"
  end.

Definition list_key (t : scanner) : string :=
  match t with
  | Psalm => "issues"
  | Parse => "findings"
  | Progpilot => "results"
  end.

Definition line_key (t : scanner) : string :=
  match t with
  | Psalm => "line_from"
  | Parse | Progpilot => "line"
  end.

Definition code_key (t : scanner) : string :=
  match t with
  | Psalm => "snippet"
  | Parse | Progpilot => "code"
  end.

Definition file_key (t : scanner) : string :=
  match t with
  | Psalm => "file_name"
  | Parse | Progpilot => "file"
  end.

Definition default_severity (t : scanner) : string :=
  match t with
  | Psalm => ""
  | Parse => "warning"
  | Progpilot => "medium"
  end.

Definition phalanx_body (t : scanner) : pyval -> result Phalanx.Finding :=
  match t with
  | Psalm => Phalanx.psalm_finding
  | Parse => Phalanx.parse_finding
  | Progpilot => Phalanx.progpilot_finding
  end.

Definition phalanx_adapter (t : scanner) : pyval -> list Phalanx.Finding :=
  match t with
  | Psalm => Phalanx.normalize_psalm
  | Parse => Phalanx.normalize_parse
  | Progpilot => Phalanx.normalize_progpilot
  end.

Definition aegis_body (t : scanner) : pyval -> result Aegis.Finding :=
  match t with
  | Psalm => Aegis.psalm_finding
  | Parse => Aegis.parse_finding
  | Progpilot => Aegis.progpilot_finding
  end.

Definition aegis_adapter (t : scanner) : pyval -> result (list Aegis.Finding) :=
  match t with
  | Psalm => Aegis.normalize_psalm
  | Parse => Aegis.normalize_parse
  | Progpilot => Aegis.normalize_progpilot
  end.

(** The raw value a title is made from. *)
Definition title_source (t : scanner) (d : list (string * pyval))
    (default : pyval) : pyval :=
  match t with
  | Psalm => dict_get d "message" default
  | Parse => first_true d "title" "message" default
  | Progpilot => first_true d "description" "message" default
  end.

(** The text the code field is cut from: only psalm's snippet is stripped. *)
Definition code_text (t : scanner) (d : list (string * pyval)) : string :=
  match t with
  | Psalm => strip (py_str (dict_get d "snippet" (PyStr "")))
  | Parse | Progpilot => py_str (dict_get d "code" (PyStr ""))
  end.

(** The report of a run in which no adapter found anything. *)
Definition empty_report (now : string) : Phalanx.Report :=
  {| Phalanx.summary :=
       {| Phalanx.total_findings := 0;
          Phalanx.by_tool := [];
          Phalanx.by_severity :=
            [("low", 0); ("medium", 0); ("high", 0); ("critical", 0)];
          Phalanx.scan_timestamp := now ++ "Z";
          Phalanx.phalanx_version := "0.1.0" |};
     Phalanx.findings := [] |}.

(** The payload [main] hands to the adapter of scanner [t]. *)
Definition payload_of (t : scanner) (psalm_json parse_json prog_json : pyval)
  : pyval :=
  match t with
  | Psalm => psalm_json
  | Parse => parse_json
  | Progpilot => prog_json
  end.

(** ** Vocabulary of the further properties *)

(** The dict of the non-zero sizes, in the order given. *)
Definition tool_counts (sizes : list (string * nat)) : list (string * Z) :=
  flat_map (fun kn => match snd kn with
                      | O => []
                      | S _ => [(fst kn, Z.of_nat (snd kn))]
                      end) sizes.

(** The payload that holds [issues] under the key of scanner [t]. *)
Definition with_issues (t : scanner) (issues : list pyval) : pyval :=
  PyDict [(list_key t, PyList issues)].

(** The bounds [phalanx.py] puts on the text of a metadata value. *)
Definition metadata_bound (key : string) : nat :=
  if String.eqb key "link" then 500%nat else 100%nat.

(** Every text of a finding is within its bound. *)
Definition bounded_finding (f : Phalanx.Finding) : Prop :=
  (String.length (Phalanx.title f) <= 500)%nat
  /\ (String.length (Phalanx.file f) <= 1000)%nat
  /\ (String.length (Phalanx.code f) <= 1000)%nat
  /\ Forall (fun kv => (String.length (snd kv) <= metadata_bound (fst kv))%nat)
            (Phalanx.metadata f).

(** The keys of the metadata of a finding of scanner [t]. *)
Definition metadata_keys (t : scanner) : list string :=
  match t with
  | Psalm => ["type"; "link"]
  | Parse | Progpilot => ["rule"]
  end.

(** ** The operating system, as the scripts see it *)
Module Sys.

(** How a call of [subprocess] ends. *)
Inductive proc : Type :=
| Exited (returncode : Z) (stdout stderr : string)
| FileNotFound
| TimedOut
| OtherError.

(** How [json.loads] ends: with a value, with JSONDecodeError, or with
    another exception (a nesting too deep, an int of too many digits). *)
Inductive loaded : Type :=
| Loaded (v : pyval)
| DecodeError
| LoadError.

(** How writing the report ends: [open(path, "w")], [json.dump] into the
    file, and the close that ends [with].  The file is whole; or [open]
    raised and the file is as it was; or [json.dump] or the close raised,
    and the file, emptied by [open], holds a part of the document at most.
    [os_error] tells an OSError, which [IOError] names, from an exception
    of another class: the UnicodeEncodeError of a character the encoding of
    the file lacks (a lone surrogate written with [ensure_ascii=False]), the
    ValueError of a path that holds a null character. *)
Inductive written : Type :=
| Complete
| NotOpened (os_error : bool)
| Broken (os_error : bool).

(** What a script prints, call by call; the lines of the summary that ends
    [phalanx.py] count as one. *)
Inductive shown : Type :=
| NotADirectory (target_dir : string)
| Running (tool : string)
| Echo (doc : pyval)
| WrittenTo (out_path : string)
| ScanComplete (doc : pyval) (out_path : string).

(** What the scripts ask of the system.  [spawn] is how the process of a
    command ends (a script starts each of its commands once); [abspath]
    answers [None] when [os.path.abspath] raises; [loads] is [json.loads];
    [utcnow] and [stamp] are the two readings of the clock, as text;
    [dump_report] is how writing a document to a path ends, with the
    arguments the script gives to [open] and [json.dump]; [prints] tells
    whether [print] goes through: it raises on a closed stream, a broken
    pipe, a character the stream cannot encode. *)
Record world : Type := {
  spawn : list string -> proc;
  abspath : string -> option string;
  dirname : string -> string;
  path_exists : string -> bool;
  isdir : string -> bool;
  access_r : string -> bool;
  access_w : string -> bool;
  getcwd : string;
  script_dir : string;
  loads : string -> loaded;
  utcnow : string;
  stamp : string;
  dump_report : string -> pyval -> written;
  prints : shown -> bool
}.

(** What a run leaves behind: the processes it started, the report it
    wrote, whole, or the file it opened for the report and left empty or
    with a part of it.  What it printed is not kept. *)
Inductive event : Type :=
| Spawned (cmd : list string)
| Wrote (path : string) (doc : pyval)
| Spoiled (path : string).

(** How [main] ends: with an exit status, or with an exception nothing
    catches. *)
Inductive outcome : Type :=
| Returned (status : Z)
| Uncaught.


(** A step of a script: from the events so far to a value, or to the end of
    the run, and the events after it. *)
Definition prog (A : Type) : Type :=
  list event -> (A + outcome) * list event.

Definition ret {A : Type} (a : A) : prog A := fun t => (inl a, t).

Definition stop {A : Type} (o : outcome) : prog A := fun t => (inr o, t).

Definition emit (e : event) : prog unit := fun t => (inl tt, (t ++ [e])%list).

Definition pbind {A B : Type} (m : prog A) (k : A -> prog B) : prog B :=
  fun t =>
    match m t with
    | (inl a, t') => k a t'
    | (inr o, t') => (inr o, t')
    end.

Notation "x <~ m ;; k" := (pbind m (fun x => k))
  (at level 61, m at next level, right associativity).

(** A script from its first step: how it ends and what it leaves. *)
Definition run (main : prog Z) : outcome * list event :=
  match main [] with
  | (inl status, t) => (Returned status, t)
  | (inr o, t) => (o, t)
  end.

(** [subprocess.run], [check_output], [check_call] on [cmd] *)
Definition run_process (w : world) (cmd : list string) : prog proc :=
  _ <~ emit (Spawned cmd) ;;
  ret (spawn w cmd).

(** [print(...)] *)
Definition say (w : world) (s : shown) : prog unit :=
  if prints w s then ret tt else stop Uncaught.

(** [with open(path, "w", ...) as fd: json.dump(doc, fd, ...)] *)
Definition write_report (w : world) (path : string) (doc : pyval)
  : prog written :=
  match dump_report w path doc with
  | Complete => _ <~ emit (Wrote path doc) ;; ret Complete
  | NotOpened os_error => ret (NotOpened os_error)
  | Broken os_error => _ <~ emit (Spoiled path) ;; ret (Broken os_error)
  end.

(** [s.endswith(suffix)] *)
Definition ends_with (suffix s : string) : bool :=
  let n := String.length s in
  let m := String.length suffix in
  (m <=? n)%nat && String.eqb (substring (n - m) m s) suffix.

(** [s.startswith(p)] *)
Definition starts_with (p s : string) : bool := prefix p s.

(** [os.path.join(a, b)] on POSIX *)
Definition path_join (a b : string) : string :=
  if starts_with "/" b then b
  else if String.eqb a "" || ends_with "/" a then a ++ b
  else a ++ "/" ++ b.

(** [v or "{}"] for a str *)
Definition or_empty_object (text : string) : string :=
  if String.eqb text "" then "{}" else text.

(** [args] after [parse_args]: the target and the value of [--output]. *)
Record Args : Type := {
  target : string;
  output : option string
}.

(** [args.output], when it is true: neither None nor the empty text. *)
Definition given_output (a : Args) : option string :=
  match output a with
  | Some o => if String.eqb o "" then None else Some o
  | None => None
  end.

End Sys.

Import Sys.

(** ** phalanx.py, the script *)
Module PhalanxScript.

Definition IMAGE_NAME : string := "phalanx".

Definition version_cmd : list string := ["docker"; "--version"].

Definition images_cmd : list string := ["docker"; "images"; "-q"; IMAGE_NAME].

Definition build_cmd (dockerfile_dir : string) : list string :=
  ["docker"; "build"; "-t"; IMAGE_NAME; dockerfile_dir].

Definition psalm_cmd (target_dir : string) : list string :=
  ["docker"; "run"; "--rm";
   "--security-opt=no-new-privileges";
   "--cap-drop=ALL";
   "-v"; target_dir ++ ":/app:ro";
   IMAGE_NAME;
   "psalm"; "--output-format=json"].

Definition parse_cmd (target_dir : string) : list string :=
  ["docker"; "run"; "--rm";
   "--security-opt=no-new-privileges";
   "--cap-drop=ALL";
   "-v"; target_dir ++ ":/app:ro";
   IMAGE_NAME;
   "parse"; "scan"; "/app"; "--format"; "json"].

Definition prog_cmd (target_dir : string) : list string :=
  ["docker"; "run"; "--rm";
   "--security-opt=no-new-privileges";
   "--cap-drop=ALL";
   "-v"; target_dir ++ ":/workspace:ro";
   IMAGE_NAME;
   "php"; "/home/phalanx/progpilot/src/ProgPilot.php";
   "--level"; "high"; "--target"; "/workspace"; "--output=json"].

Section Script.
Context (w : world).

(** [check=True] turns a non-zero status into CalledProcessError, which is
    caught with FileNotFoundError and TimeoutExpired. *)
Definition validate_docker_installed : prog bool :=
  p <~ run_process w version_cmd ;;
  match p with
  | Exited status _ _ => ret (status =? 0)
  | FileNotFound | TimedOut => ret false
  | OtherError => stop Uncaught
  end.

Definition validate_path (path : string) : bool * string :=
  match abspath w path with
  | Some abs_path =>
      if negb (path_exists w abs_path) then (false, "")
      else if negb (isdir w abs_path) then (false, "")
      else if negb (access_r w abs_path) then (false, "")
      else (true, abs_path)
  | None => (false, "")
  end.

Definition sanitize_output_path (output_path : string) : bool * string :=
  match abspath w output_path with
  | Some abs_path =>
      let parent_dir := dirname w abs_path in
      if negb (path_exists w parent_dir) then (false, "")
      else if negb (access_w w parent_dir) then (false, "")
      else (true,
            if negb (ends_with ".json" abs_path) then abs_path ++ ".json"
            else abs_path)
  | None => (false, "")
  end.

(** Only CalledProcessError and TimeoutExpired are caught here. *)
Definition ensure_image (dockerfile_dir : string) : prog bool :=
  listing <~ run_process w images_cmd ;;
  match listing with
  | Exited status stdout _ =>
      if status =? 0 then
        if String.eqb (strip stdout) "" then
          build <~ run_process w (build_cmd dockerfile_dir) ;;
          match build with
          | Exited built _ _ => ret (built =? 0)
          | TimedOut => ret false
          | FileNotFound | OtherError => stop Uncaught
          end
        else ret true
      else ret false
  | TimedOut => ret false
  | FileNotFound | OtherError => stop Uncaught
  end.

(** [check=False]: the status does not matter; every exception is caught. *)
Definition run_tool (cmd : list string) : prog string :=
  p <~ run_process w cmd ;;
  match p with
  | Exited _ stdout _ => ret (or_empty_object stdout)
  | FileNotFound | TimedOut | OtherError => ret "{}"
  end.

(** [json.loads(text)] under [except json.JSONDecodeError] *)
Definition load_json (text : string) : prog pyval :=
  match loads w text with
  | Loaded v => ret v
  | DecodeError => ret (PyDict [])
  | LoadError => stop Uncaught
  end.

Definition default_path : string :=
  path_join (getcwd w) ("PHALANX_output-" ++ stamp w ++ ".json").

(** [main] after [parse_args].  Logging is left out: a handler of [logging]
    keeps the exceptions of its stream.  Only IOError is caught around the
    writing of the report; the prints of the summary are not guarded. *)
Definition main (args : Args) : prog Z :=
  installed <~ validate_docker_installed ;;
  if negb installed then stop (Returned 1) else
  let (is_valid, target_dir) := validate_path (target args) in
  if negb is_valid then stop (Returned 1) else
  image <~ ensure_image (script_dir w) ;;
  if negb image then stop (Returned 1) else
  psalm_out <~ run_tool (psalm_cmd target_dir) ;;
  psalm_json <~ load_json psalm_out ;;
  parse_out <~ run_tool (parse_cmd target_dir) ;;
  parse_json <~ load_json parse_out ;;
  prog_out <~ run_tool (prog_cmd target_dir) ;;
  prog_json <~ load_json prog_out ;;
  let report := Phalanx.main (utcnow w) psalm_json parse_json prog_json in
  out_path <~
    match given_output args with
    | Some o =>
        let (is_valid, out_path) := sanitize_output_path o in
        if negb is_valid then stop (Returned 1) else ret out_path
    | None => ret default_path
    end ;;
  done <~ write_report w out_path (Phalanx.report_dict report) ;;
  match done with
  | Complete =>
      _ <~ say w (ScanComplete (Phalanx.report_dict report) out_path) ;;
      ret 0
  | NotOpened os_error | Broken os_error =>
      if os_error then stop (Returned 1) else stop Uncaught
  end.

End Script.
End PhalanxScript.

(** ** aegisphp.py, the script *)
Module AegisScript.

Definition IMAGE_NAME : string := "aegisphp".

Definition images_cmd : list string := ["docker"; "images"; "-q"; IMAGE_NAME].

Definition build_cmd (dockerfile_dir : string) : list string :=
  ["docker"; "build"; "-t"; IMAGE_NAME; dockerfile_dir].

Definition psalm_cmd (target_dir : string) : list string :=
  ["docker"; "run"; "--rm";
   "-v"; target_dir ++ ":/app:ro";
   IMAGE_NAME;
   "psalm"; "--output-format=json"].

Definition parse_cmd (target_dir : string) : list string :=
  ["docker"; "run"; "--rm";
   "-v"; target_dir ++ ":/app:ro";
   IMAGE_NAME;
   "parse"; "scan"; "/app"; "--format"; "json"].

Definition prog_cmd (target_dir : string) : list string :=
  ["docker"; "run"; "--rm";
   "-v"; target_dir ++ ":/workspace:ro";
   IMAGE_NAME;
   "php"; "/opt/progpilot/src/ProgPilot.php";
   "--level"; "high"; "--target"; "/workspace"; "--output=json"].

Section Script.
Context (w : world).

(** [check_output] raises CalledProcessError on a non-zero status, the one
    exception caught; [check_call] of the build is not guarded.  The line
    printed before the build is left out. *)
Definition ensure_image (dockerfile_dir : string) : prog unit :=
  listing <~ run_process w images_cmd ;;
  existing <~
    match listing with
    | Exited status stdout _ => ret (if status =? 0 then strip stdout else "")
    | FileNotFound | TimedOut | OtherError => stop Uncaught
    end ;;
  if String.eqb existing "" then
    build <~ run_process w (build_cmd dockerfile_dir) ;;
    match build with
    | Exited built _ _ => if built =? 0 then ret tt else stop Uncaught
    | FileNotFound | TimedOut | OtherError => stop Uncaught
    end
  else ret tt.

Definition run_tool (cmd : list string) : prog string :=
  p <~ run_process w cmd ;;
  match p with
  | Exited status stdout _ =>
      ret (if status =? 0 then stdout else or_empty_object stdout)
  | FileNotFound | TimedOut | OtherError => stop Uncaught
  end.

(** [json.loads(out or "{}")], with no handler *)
Definition load_json (out : string) : prog pyval :=
  match loads w (or_empty_object out) with
  | Loaded v => ret v
  | DecodeError | LoadError => stop Uncaught
  end.

Definition default_path : string :=
  path_join (getcwd w) ("AegisPHP_output-" ++ stamp w ++ ".json").

(** [main] after [parse_args]; [sys.exit(1)] ends the run with status 1, the
    end of [main] with status 0.  Nothing is caught: neither what the
    writing of the report raises nor what a [print] raises. *)
Definition main (args : Args) : prog Z :=
  target_dir <~
    match abspath w (target args) with
    | Some d => ret d
    | None => stop Uncaught
    end ;;
  if negb (isdir w target_dir) then
    _ <~ say w (NotADirectory target_dir) ;;
    stop (Returned 1)
  else
  _ <~ ensure_image (script_dir w) ;;
  _ <~ say w (Running "Psalm") ;;
  psalm_out <~ run_tool (psalm_cmd target_dir) ;;
  psalm_json <~ load_json psalm_out ;;
  _ <~ say w (Running "parse") ;;
  parse_out <~ run_tool (parse_cmd target_dir) ;;
  parse_json <~ load_json parse_out ;;
  _ <~ say w (Running "ProgPilot") ;;
  prog_out <~ run_tool (prog_cmd target_dir) ;;
  prog_json <~ load_json prog_out ;;
  match Aegis.main psalm_json parse_json prog_json with
  | Raise _ => stop Uncaught
  | Ok report =>
      let out_path :=
        match given_output args with
        | Some o => o
        | None => default_path
        end in
      done <~ write_report w out_path (Aegis.report_dict report) ;;
      match done with
      | Complete =>
          _ <~ say w (Echo (Aegis.report_dict report)) ;;
          _ <~ say w (WrittenTo out_path) ;;
          ret 0
      | NotOpened _ | Broken _ => stop Uncaught
      end
  end.

End Script.
End AegisScript.

(** ** Vocabulary of the runs *)

(** The text [run_tool] of [phalanx.py] hands over for [cmd]. *)
Definition phalanx_text (w : world) (cmd : list string) : string :=
  match spawn w cmd with
  | Exited _ stdout _ => or_empty_object stdout
  | FileNotFound | TimedOut | OtherError => "{}"
  end.

(** The payload [phalanx.py] normalizes for [cmd]: what [json.loads] makes
    of the text, the empty dict when the text is not JSON; none when
    [json.loads] raises something else. *)
Definition phalanx_payload (w : world) (cmd : list string) : option pyval :=
  match loads w (phalanx_text w cmd) with
  | Loaded v => Some v
  | DecodeError => Some (PyDict [])
  | LoadError => None
  end.

(** The payload [aegisphp.py] normalizes for [cmd]: there is one only when
    the process ran and its text is JSON. *)
Definition aegis_payload (w : world) (cmd : list string) : option pyval :=
  match spawn w cmd with
  | Exited _ stdout _ =>
      match loads w (or_empty_object stdout) with
      | Loaded v => Some v
      | DecodeError | LoadError => None
      end
  | FileNotFound | TimedOut | OtherError => None
  end.

(** [docker --version] ended with status 0. *)
Definition docker_answers (w : world) : Prop :=
  exists stdout stderr,
    spawn w PhalanxScript.version_cmd = Exited 0 stdout stderr.

(** The listing of images ended with status 0 and, of the image, either
    shows it or is followed by a build that ended with status 0. *)
Definition image_ready (w : world) (images build : list string) : Prop :=
  exists stdout stderr,
    spawn w images = Exited 0 stdout stderr
    /\ (strip stdout <> ""
        \/ exists o e, spawn w build = Exited 0 o e).

(** The directory passes the three checks of [validate_path]. *)
Definition readable_dir (w : world) (dir : string) : Prop :=
  path_exists w dir = true /\ isdir w dir = true /\ access_r w dir = true.

(** A command that starts a container. *)
Definition is_docker_run (cmd : list string) : bool :=
  match cmd with
  | docker :: verb :: _ => String.eqb docker "docker" && String.eqb verb "run"
  | _ => false
  end.

(** The container of [cmd] sees [dir] read-only, under [/app] or
    [/workspace], the argument that follows "-v". *)
Fixpoint mounts_read_only (dir : string) (cmd : list string) : bool :=
  match cmd with
  | flag :: ((volume :: _) as rest) =>
      (String.eqb flag "-v"
       && (String.eqb volume (dir ++ ":/app:ro")
           || String.eqb volume (dir ++ ":/workspace:ro")))
      || mounts_read_only dir rest
  | _ => false
  end.

(** No event of [t] is a written report. *)
Definition nothing_written (t : list event) : Prop :=
  forall path doc, ~ In (Wrote path doc) t.

(** Every event of [t] is a process: no file was opened. *)
Definition only_processes (t : list event) : Prop :=
  forall e, In e t -> exists cmd, e = Spawned cmd.

(** How [phalanx.py] ends when the writing of the report raises: an IOError
    is caught and [main] returns 1, an exception of another class is not
    caught. *)
Definition write_failed (os_error : bool) : outcome :=
  if os_error then Returned 1 else Uncaught.

(** The three checks before the scans of [phalanx.py] pass, and [dir] is
    the directory to scan. *)
Definition phalanx_preflight (w : world) (a : Args) (dir : string) : Prop :=
  docker_answers w
  /\ PhalanxScript.validate_path w (target a) = (true, dir)
  /\ image_ready w PhalanxScript.images_cmd
                 (PhalanxScript.build_cmd (script_dir w)).

(** The path [phalanx.py] writes to, when it has one: the sanitized
    [--output], or the default name in the current directory. *)
Definition phalanx_out_path (w : world) (a : Args) : option string :=
  match given_output a with
  | Some o =>
      match PhalanxScript.sanitize_output_path w o with
      | (true, out_path) => Some out_path
      | (false, _) => None
      end
  | None => Some (PhalanxScript.default_path w)
  end.

(** The events of the checks of [phalanx.py], as far as they go. *)
Definition phalanx_checks (w : world) : list (list event) :=
  [[Spawned PhalanxScript.version_cmd];
   [Spawned PhalanxScript.version_cmd; Spawned PhalanxScript.images_cmd];
   [Spawned PhalanxScript.version_cmd; Spawned PhalanxScript.images_cmd;
    Spawned (PhalanxScript.build_cmd (script_dir w))]].

(** The three scans of [dir], in the order [phalanx.py] starts them. *)
Definition phalanx_scans (dir : string) : list event :=
  [Spawned (PhalanxScript.psalm_cmd dir);
   Spawned (PhalanxScript.parse_cmd dir);
   Spawned (PhalanxScript.prog_cmd dir)].

(** The ways a run of [phalanx.py] ends, with what it leaves. *)
Inductive phalanx_ends (w : world) (a : Args) : outcome -> list event -> Prop :=
| stops_in_checks (o : outcome) (t : list event) :
    o = Returned 1 \/ o = Uncaught ->
    (forall dir, ~ phalanx_preflight w a dir) ->
    In t (phalanx_checks w) ->
    phalanx_ends w a o t
| stops_in_scans (dir : string) (checks : list event) (n : nat)
    (cmd : list string) :
    phalanx_preflight w a dir ->
    In checks (tl (phalanx_checks w)) ->
    nth_error (phalanx_scans dir) n = Some (Spawned cmd) ->
    phalanx_payload w cmd = None ->
    phalanx_ends w a Uncaught (checks ++ firstn (S n) (phalanx_scans dir))
| stops_on_output (dir : string) (checks : list event) (p1 p2 p3 : pyval) :
    phalanx_preflight w a dir ->
    In checks (tl (phalanx_checks w)) ->
    phalanx_payload w (PhalanxScript.psalm_cmd dir) = Some p1 ->
    phalanx_payload w (PhalanxScript.parse_cmd dir) = Some p2 ->
    phalanx_payload w (PhalanxScript.prog_cmd dir) = Some p3 ->
    phalanx_out_path w a = None ->
    phalanx_ends w a (Returned 1) (checks ++ phalanx_scans dir)
| cannot_open (dir : string) (checks : list event) (p1 p2 p3 : pyval)
    (path : string) (os_error : bool) :
    phalanx_preflight w a dir ->
    In checks (tl (phalanx_checks w)) ->
    phalanx_payload w (PhalanxScript.psalm_cmd dir) = Some p1 ->
    phalanx_payload w (PhalanxScript.parse_cmd dir) = Some p2 ->
    phalanx_payload w (PhalanxScript.prog_cmd dir) = Some p3 ->
    phalanx_out_path w a = Some path ->
    dump_report w path
      (Phalanx.report_dict (Phalanx.main (utcnow w) p1 p2 p3))
      = NotOpened os_error ->
    phalanx_ends w a (write_failed os_error) (checks ++ phalanx_scans dir)
| spoils_report (dir : string) (checks : list event) (p1 p2 p3 : pyval)
    (path : string) (os_error : bool) :
    phalanx_preflight w a dir ->
    In checks (tl (phalanx_checks w)) ->
    phalanx_payload w (PhalanxScript.psalm_cmd dir) = Some p1 ->
    phalanx_payload w (PhalanxScript.parse_cmd dir) = Some p2 ->
    phalanx_payload w (PhalanxScript.prog_cmd dir) = Some p3 ->
    phalanx_out_path w a = Some path ->
    dump_report w path
      (Phalanx.report_dict (Phalanx.main (utcnow w) p1 p2 p3))
      = Broken os_error ->
    phalanx_ends w a (write_failed os_error)
      (checks ++ phalanx_scans dir ++ [Spoiled path])
| writes_report (dir : string) (checks : list event) (p1 p2 p3 : pyval)
    (path : string) :
    phalanx_preflight w a dir ->
    In checks (tl (phalanx_checks w)) ->
    phalanx_payload w (PhalanxScript.psalm_cmd dir) = Some p1 ->
    phalanx_payload w (PhalanxScript.parse_cmd dir) = Some p2 ->
    phalanx_payload w (PhalanxScript.prog_cmd dir) = Some p3 ->
    phalanx_out_path w a = Some path ->
    dump_report w path
      (Phalanx.report_dict (Phalanx.main (utcnow w) p1 p2 p3))
      = Complete ->
    phalanx_ends w a
      (if prints w (ScanComplete
                      (Phalanx.report_dict (Phalanx.main (utcnow w) p1 p2 p3))
                      path)
       then Returned 0 else Uncaught)
      (checks ++ phalanx_scans dir
         ++ [Wrote path
               (Phalanx.report_dict
                  (Phalanx.main (utcnow w) p1 p2 p3))]).

(** A world to run the scripts in: docker answers and lists the image, the
    psalm scan prints one issue and the two others print nothing, every
    path is there and writable. *)
Definition demo_world : world :=
  {| spawn := fun cmd =>
       if is_docker_run cmd then
         if existsb (String.eqb "psalm") cmd
         then Exited 2 "psalm-output" "" else Exited 0 "" ""
       else Exited 0 "0123456789ab" "";
     abspath := fun p => Some ("/srv/" ++ p);
     dirname := fun _ => "/srv";
     path_exists := fun _ => true;
     isdir := fun _ => true;
     access_r := fun _ => true;
     access_w := fun _ => true;
     getcwd := "/home/dev";
     script_dir := "/opt/tool";
     loads := fun text =>
       if String.eqb text "{}" then Loaded (PyDict [])
       else if String.eqb text "psalm-output" then
         Loaded (PyDict [("issues",
                          PyList [PyDict [("message", PyStr "SQL injection");
                                          ("severity", PyStr "error")]])])
       else DecodeError;
     utcnow := "2024-05-01T10:00:00";
     stamp := "20240501_100000";
     dump_report := fun _ _ => Complete;
     prints := fun _ => true |}.

(** The same world, where the directory of the output is missing. *)
Definition demo_world_no_parent : world :=
  {| spawn := spawn demo_world;
     abspath := abspath demo_world;
     dirname := dirname demo_world;
     path_exists := fun p => negb (String.eqb p "/srv");
     isdir := isdir demo_world;
     access_r := access_r demo_world;
     access_w := access_w demo_world;
     getcwd := getcwd demo_world;
     script_dir := script_dir demo_world;
     loads := loads demo_world;
     utcnow := utcnow demo_world;
     stamp := stamp demo_world;
     dump_report := dump_report demo_world;
     prints := prints demo_world |}.


(** The same world, where the standard output is closed: every [print]
    raises. *)
Definition demo_world_no_stdout : world :=
  {| spawn := spawn demo_world;
     abspath := abspath demo_world;
     dirname := dirname demo_world;
     path_exists := path_exists demo_world;
     isdir := isdir demo_world;
     access_r := access_r demo_world;
     access_w := access_w demo_world;
     getcwd := getcwd demo_world;
     script_dir := script_dir demo_world;
     loads := loads demo_world;
     utcnow := utcnow demo_world;
     stamp := stamp demo_world;
     dump_report := dump_report demo_world;
     prints := fun _ => false |}.

(** The image of [aegisphp.py] is there after [ensure_image]: the listing
    ended, and either shows the image with status 0 or is followed by a
    build that ended with status 0. *)
Definition aegis_image_ready (w : world) (dir : string) : Prop :=
  exists status stdout stderr,
    spawn w AegisScript.images_cmd = Exited status stdout stderr
    /\ ((status = 0 /\ strip stdout <> "")
        \/ exists o e, spawn w (AegisScript.build_cmd dir) = Exited 0 o e).

(** The path [aegisphp.py] writes to: [--output] as given, or the default
    name in the current directory. *)
Definition aegis_out_path (w : world) (a : Args) : string :=
  match given_output a with
  | Some o => o
  | None => AegisScript.default_path w
  end.

(** The events of [ensure_image] of [aegisphp.py], as far as they go. *)
Definition aegis_checks (w : world) : list (list event) :=
  [[Spawned AegisScript.images_cmd];
   [Spawned AegisScript.images_cmd;
    Spawned (AegisScript.build_cmd (script_dir w))]].

(** The three scans of [dir], in the order [aegisphp.py] starts them. *)
Definition aegis_scans (dir : string) : list event :=
  [Spawned (AegisScript.psalm_cmd dir);
   Spawned (AegisScript.parse_cmd dir);
   Spawned (AegisScript.prog_cmd dir)].

(** All that [aegisphp.py] needs to come to the writing of the report [r]
    of [dir]: the image, the three lines it prints before the scans, a
    payload of each scanner, and adapters that do not raise. *)
Definition aegis_reaches_report (w : world) (dir : string)
    (r : Aegis.Report) : Prop :=
  aegis_image_ready w (script_dir w)
  /\ prints w (Running "Psalm") = true
  /\ prints w (Running "parse") = true
  /\ prints w (Running "ProgPilot") = true
  /\ exists p1 p2 p3,
       aegis_payload w (AegisScript.psalm_cmd dir) = Some p1
       /\ aegis_payload w (AegisScript.parse_cmd dir) = Some p2
       /\ aegis_payload w (AegisScript.prog_cmd dir) = Some p3
       /\ Aegis.main p1 p2 p3 = Ok r.

(** The two lines [aegisphp.py] prints after the report is written. *)
Definition aegis_echoes (w : world) (path : string) (doc : pyval) : bool :=
  prints w (Echo doc) && prints w (WrittenTo path).

(** The ways a run of [aegisphp.py] ends, with what it leaves. *)
Inductive aegis_ends (w : world) (a : Args) : outcome -> list event -> Prop :=
| no_absolute_path :
    abspath w (target a) = None ->
    aegis_ends w a Uncaught []
| not_a_directory (dir : string) :
    abspath w (target a) = Some dir ->
    isdir w dir = false ->
    aegis_ends w a
      (if prints w (NotADirectory dir) then Returned 1 else Uncaught) []
| fails_on_the_way (dir : string) (t : list event) :
    abspath w (target a) = Some dir ->
    isdir w dir = true ->
    (forall r, ~ aegis_reaches_report w dir r) ->
    only_processes t ->
    aegis_ends w a Uncaught t
| aegis_cannot_open (dir : string) (r : Aegis.Report) (checks : list event)
    (os_error : bool) :
    abspath w (target a) = Some dir ->
    isdir w dir = true ->
    aegis_reaches_report w dir r ->
    In checks (aegis_checks w) ->
    dump_report w (aegis_out_path w a) (Aegis.report_dict r)
      = NotOpened os_error ->
    aegis_ends w a Uncaught (checks ++ aegis_scans dir)
| aegis_spoils_report (dir : string) (r : Aegis.Report) (checks : list event)
    (os_error : bool) :
    abspath w (target a) = Some dir ->
    isdir w dir = true ->
    aegis_reaches_report w dir r ->
    In checks (aegis_checks w) ->
    dump_report w (aegis_out_path w a) (Aegis.report_dict r)
      = Broken os_error ->
    aegis_ends w a Uncaught
      (checks ++ aegis_scans dir ++ [Spoiled (aegis_out_path w a)])
| writes_all (dir : string) (r : Aegis.Report) (checks : list event) :
    abspath w (target a) = Some dir ->
    isdir w dir = true ->
    aegis_reaches_report w dir r ->
    In checks (aegis_checks w) ->
    dump_report w (aegis_out_path w a) (Aegis.report_dict r) = Complete ->
    aegis_ends w a
      (if aegis_echoes w (aegis_out_path w a) (Aegis.report_dict r)
       then Returned 0 else Uncaught)
      (checks ++ aegis_scans dir
         ++ [Wrote (aegis_out_path w a) (Aegis.report_dict r)]).

(** ** Strings *)

Lemma slice_to_length (n : nat) (s : string) :
  String.length (slice_to n s) = Nat.min n (String.length s).
Proof.
  unfold slice_to. revert n.
  induction s as [|c s IH]; intros [|n]; simpl; auto.
Qed.

Lemma slice_to_prefix (n : nat) (s : string) :
  prefix (slice_to n s) s = true.
Proof.
  unfold slice_to. revert n.
  induction s as [|c s IH]; intros [|n]; simpl; auto.
  destruct (ascii_dec c c) as [_|ne]; [apply IH | now elim ne].
Qed.

Lemma slice_to_all (n : nat) (s : string) :
  (String.length s <= n)%nat -> slice_to n s = s.
Proof.
  unfold slice_to. revert n.
  induction s as [|c s IH]; intros [|n] Hle; simpl in *; auto; try lia.
  f_equal. apply IH. lia.
Qed.

Lemma slice_to_law (bound : nat) (s : string) :
  truncation_law bound s (slice_to bound s).
Proof.
  unfold truncation_law. rewrite slice_to_length.
  repeat split.
  - lia.
  - apply slice_to_prefix.
  - lia.
  - apply slice_to_all.
Qed.

(** ** The severity table *)

Lemma SEV_MAP_table (sev : string) :
  dict_get Phalanx.SEV_MAP sev "medium" = severity_table sev.
Proof.
  unfold dict_get, severity_table, Phalanx.SEV_MAP, dict_find.
  rewrite !(String.eqb_sym _ sev).
  repeat match goal with
         | |- context [String.eqb sev ?k] => destruct (String.eqb sev k)
         end; reflexivity.
Qed.

Lemma Aegis_SEV_MAP_same : Aegis.SEV_MAP = Phalanx.SEV_MAP.
Proof. reflexivity. Qed.

Lemma severity_table_level (sev : string) : In (severity_table sev) levels.
Proof.
  unfold severity_table, levels.
  repeat match goal with
         | |- context [String.eqb sev ?k] => destruct (String.eqb sev k)
         end; simpl; auto.
Qed.

Lemma normalize_severity_str (raw : string) :
  Phalanx.normalize_severity (PyStr raw) = Ok (severity_table (lower raw)).
Proof.
  unfold Phalanx.normalize_severity. cbn [py_lower bind].
  now rewrite SEV_MAP_table.
Qed.

Lemma Aegis_normalize_severity_same (raw : pyval) :
  Aegis.normalize_severity raw = Phalanx.normalize_severity raw.
Proof. reflexivity. Qed.


(** ** dict *)
Section DictFacts.
Context {V : Type}.
Implicit Types (d : list (string * V)) (k : string) (v : V).

Lemma dict_find_set d k v k' :
  dict_find (dict_set d k v) k' =
    if String.eqb k k' then Some v else dict_find d k'.
Proof.
  induction d as [|[k0 v0] d IH]; simpl.
  - rewrite String.eqb_sym. reflexivity.
  - destruct (String.eqb_spec k0 k) as [->|Hne]; simpl.
    + destruct (String.eqb_spec k k'); reflexivity.
    + rewrite IH.
      destruct (String.eqb_spec k0 k') as [->|]; try reflexivity.
      destruct (String.eqb_spec k k'); congruence.
Qed.

Lemma dict_set_set d k v v' :
  dict_set (dict_set d k v) k v' = dict_set d k v'.
Proof.
  induction d as [|[k0 v0] d IH]; simpl.
  - rewrite String.eqb_refl. reflexivity.
  - destruct (String.eqb_spec k0 k) as [->|Hne]; simpl.
    + rewrite String.eqb_refl. reflexivity.
    + destruct (String.eqb_spec k0 k); [contradiction|]. now rewrite IH.
Qed.

Lemma dict_get_cons_other d k k' v default :
  String.eqb k' k = false ->
  dict_get ((k', v) :: d) k default = dict_get d k default.
Proof. intros E. unfold dict_get. simpl. now rewrite E. Qed.

Lemma dict_get_absent d k default :
  dict_mem d k = false -> dict_get d k default = default.
Proof. unfold dict_mem, dict_get. now destruct (dict_find d k). Qed.
End DictFacts.

Lemma fold_add_acc (l : list Z) (a : Z) :
  fold_left Z.add l a = a + fold_left Z.add l 0.
Proof.
  revert a. induction l as [|x l IH]; intros a; simpl; [lia|].
  rewrite (IH (a + x)), (IH x). lia.
Qed.

Lemma dict_sum_cons (k : string) (v : Z) (d : list (string * Z)) :
  dict_sum ((k, v) :: d) = v + dict_sum d.
Proof. unfold dict_sum. simpl. apply fold_add_acc. Qed.

Lemma dict_sum_set (d : list (string * Z)) (k : string) (v : Z) :
  dict_sum (dict_set d k v) = dict_sum d - dict_get d k 0 + v.
Proof.
  induction d as [|[k0 v0] d IH]; simpl.
  - unfold dict_get. simpl. rewrite dict_sum_cons. unfold dict_sum. simpl. lia.
  - unfold dict_get in *. simpl.
    destruct (String.eqb k0 k); rewrite !dict_sum_cons; [lia|].
    rewrite IH. lia.
Qed.

Lemma dict_sum_count_one (d : list (string * Z)) (k : string) :
  dict_sum (Phalanx.count_one d k) = dict_sum d + 1.
Proof. unfold Phalanx.count_one. rewrite dict_sum_set. lia. Qed.

Lemma dict_sum_count_all (ks : list string) (d : list (string * Z)) :
  dict_sum (fold_left Phalanx.count_one ks d) = dict_sum d + Z.of_nat (length ks).
Proof.
  revert d. induction ks as [|k ks IH]; intros d; simpl fold_left.
  - simpl. lia.
  - rewrite IH, dict_sum_count_one. simpl length. lia.
Qed.

Lemma occurrences_cons (k a : string) (ks : list string) :
  occurrences k (a :: ks) =
    (if String.eqb k a then 1 else 0) + occurrences k ks.
Proof.
  unfold occurrences. simpl. destruct (String.eqb k a); simpl length; lia.
Qed.

Lemma occurrences_nonneg (k : string) (ks : list string) : 0 <= occurrences k ks.
Proof. unfold occurrences. lia. Qed.

Lemma occurrences_pos (k : string) (ks : list string) :
  0 < occurrences k ks <-> In k ks.
Proof.
  induction ks as [|a ks IH]; [unfold occurrences; simpl; split; [lia|tauto]|].
  rewrite occurrences_cons. simpl.
  pose proof (occurrences_nonneg k ks).
  destruct (String.eqb_spec k a) as [->|Hne]; split; intros; auto; try lia.
  - right. apply IH. lia.
  - destruct H0 as [E|I]; [congruence|]. apply IH in I. lia.
Qed.

Lemma dict_find_count_all (ks : list string) (d : list (string * Z)) (k : string) :
  dict_find (fold_left Phalanx.count_one ks d) k =
    if occurrences k ks =? 0 then dict_find d k
    else Some (dict_get d k 0 + occurrences k ks).
Proof.
  revert d. induction ks as [|a ks IH]; intros d; simpl fold_left.
  - reflexivity.
  - rewrite IH, occurrences_cons. unfold Phalanx.count_one, dict_get.
    rewrite dict_find_set, (String.eqb_sym a k).
    pose proof (occurrences_nonneg k ks).
    destruct (String.eqb_spec k a) as [->|Hne].
    + destruct (Z.eqb_spec (occurrences a ks) 0) as [E|E];
        destruct (Z.eqb_spec (1 + occurrences a ks) 0); try lia;
        f_equal; lia.
    + simpl Z.add. destruct (occurrences k ks =? 0); reflexivity.
Qed.


(** ** The loop of an adapter *)
Section Loop.
Context {F : Type} (body : pyval -> result F).

Lemma for_append_spec (issues : list pyval) (acc : list F) :
  for_append body issues acc =
    ((acc ++ until_failure body issues)%list, first_failure body issues).
Proof.
  revert acc. induction issues as [|issue rest IH]; intros acc; simpl.
  - now rewrite app_nil_r.
  - destruct (body issue) as [finding|e].
    + rewrite IH, <- app_assoc. reflexivity.
    + now rewrite app_nil_r.
Qed.

Lemma until_failure_in_order (issues : list pyval) :
  exists n : nat,
    Forall2 (fun issue finding => body issue = Ok finding)
            (firstn n issues) (until_failure body issues).
Proof.
  induction issues as [|issue rest [n IH]]; simpl.
  - exists 0%nat. constructor.
  - destruct (body issue) as [finding|e] eqn:E.
    + exists (S n). simpl. constructor; assumption.
    + exists 0%nat. constructor.
Qed.

Lemma no_failure_all (issues : list pyval) :
  first_failure body issues = None ->
  Forall2 (fun issue finding => body issue = Ok finding)
          issues (until_failure body issues)
  /\ until_failure body issues = skip_failed body issues.
Proof.
  induction issues as [|issue rest IH]; simpl; intros H.
  - split; [constructor | reflexivity].
  - destruct (body issue) as [finding|e] eqn:E; [|discriminate].
    destruct (IH H) as [IH1 IH2]. split; [constructor; assumption|].
    now rewrite IH2.
Qed.

Lemma until_failure_stops (before after : list pyval) (bad : pyval)
    (found : list F) (e : exn) :
  Forall2 (fun issue finding => body issue = Ok finding) before found ->
  body bad = Raise e ->
  until_failure body (before ++ bad :: after) = found
  /\ first_failure body (before ++ bad :: after) = Some e.
Proof.
  intros Hok Hbad. induction Hok as [|issue finding before found E _ IH]; simpl.
  - now rewrite Hbad.
  - rewrite E. destruct IH as [-> ->]. auto.
Qed.

Lemma until_failure_all (P : F -> Prop) (issues : list pyval) :
  (forall issue finding, body issue = Ok finding -> P finding) ->
  Forall P (until_failure body issues).
Proof.
  intros HP. induction issues as [|issue rest IH]; simpl; [constructor|].
  destruct (body issue) as [finding|e] eqn:E; [|constructor].
  constructor; eauto.
Qed.

End Loop.

Lemma Phalanx_normalize_spec (key : string) (b : pyval -> result Phalanx.Finding)
      (data : pyval) :
    Phalanx.normalize key b data = until_failure b (raw_issues key data).
  Proof.
    unfold Phalanx.normalize, raw_issues.
    destruct (raw <- py_get data key (PyList []) ;; py_iter raw); [|reflexivity].
    now rewrite for_append_spec.
  Qed.

Lemma Aegis_normalize_spec (key : string) (b : pyval -> result Aegis.Finding)
      (data : pyval) :
    Aegis.normalize key b data =
      issues <- (raw <- py_get data key (PyList []) ;; py_iter raw) ;;
      match first_failure b issues with
      | None => Ok (until_failure b issues)
      | Some e => Raise e
      end.
  Proof.
    unfold Aegis.normalize.
    destruct (py_get data key (PyList [])) as [raw|e]; [|reflexivity].
    cbn [bind]. destruct (py_iter raw) as [issues|e]; [|reflexivity].
    cbn [bind]. now rewrite for_append_spec.
  Qed.

Lemma Aegis_normalize_ok (key : string) (b : pyval -> result Aegis.Finding)
    (data : pyval) (found : list Aegis.Finding) :
  Aegis.normalize key b data = Ok found ->
  found = until_failure b (raw_issues key data)
  /\ first_failure b (raw_issues key data) = None.
Proof.
  rewrite Aegis_normalize_spec. unfold raw_issues.
  destruct (raw <- py_get data key (PyList []) ;; py_iter raw) as [issues|e];
    cbn [bind]; [|discriminate].
  destruct (first_failure b issues); [discriminate|].
  intros [= <-]. auto.
Qed.

(** A payload without a list under the key gives Phalanx nothing to report. *)
Lemma no_list_until_failure (key : string) (b : pyval -> result Phalanx.Finding)
    (data : pyval) :
  (forall issue f, b issue = Ok f -> exists d, issue = PyDict d) ->
  has_list key data = false ->
  until_failure b (raw_issues key data) = [].
Proof.
  intros Hdict Hno. unfold raw_issues.
  destruct data as [| | | | |l|d]; try reflexivity.
  cbn [py_get bind]. unfold has_list, dict_get in *.
  destruct (dict_find d key) as [[| | | |s|l|d']|]; try reflexivity;
    try discriminate; cbn [py_iter].
  - destruct s as [|c s]; [reflexivity|]. simpl.
    destruct (b (PyStr (String c ""))) as [f|] eqn:E; [|reflexivity].
    destruct (Hdict _ _ E) as [? [=]].
  - destruct d' as [|[k v] d']; [reflexivity|]. simpl.
    destruct (b (PyStr k)) as [f|] eqn:E; [|reflexivity].
    destruct (Hdict _ _ E) as [? [=]].
Qed.


(** ** One issue *)

Lemma Phalanx_psalm_finding_dict (d : list (string * pyval)) :
  Phalanx.psalm_finding (PyDict d) =
    sev <- Phalanx.normalize_severity (dict_get d "severity" (PyStr "")) ;;
    line_no <- py_int (dict_get d "line_from" (PyInt 0)) ;;
    Ok {| Phalanx.tool := "psalm";
          Phalanx.title := slice_to 500 (py_str (dict_get d "message" (PyStr "")));
          Phalanx.file := slice_to 1000 (py_str (dict_get d "file_name" (PyStr "")));
          Phalanx.line := line_no;
          Phalanx.severity := sev;
          Phalanx.code :=
            slice_to 1000 (strip (py_str (dict_get d "snippet" (PyStr ""))));
          Phalanx.metadata :=
            [("type", slice_to 100 (py_str (dict_get d "type" (PyStr ""))));
             ("link", slice_to 500 (py_str (dict_get d "link" (PyStr ""))))] |}.
Proof. reflexivity. Qed.

Lemma Phalanx_parse_finding_dict (d : list (string * pyval)) :
  Phalanx.parse_finding (PyDict d) =
    sev <- Phalanx.normalize_severity (dict_get d "severity" (PyStr "warning")) ;;
    line_no <- py_int (dict_get d "line" (PyInt 0)) ;;
    Ok {| Phalanx.tool := "parse";
          Phalanx.title :=
            slice_to 500 (py_str (first_true d "title" "message" (PyStr "")));
          Phalanx.file := slice_to 1000 (py_str (dict_get d "file" (PyStr "")));
          Phalanx.line := line_no;
          Phalanx.severity := sev;
          Phalanx.code := slice_to 1000 (py_str (dict_get d "code" (PyStr "")));
          Phalanx.metadata :=
            [("rule", slice_to 100 (py_str (dict_get d "rule" (PyStr ""))))] |}.
Proof.
  unfold Phalanx.parse_finding, first_true, py_or. cbn [bind py_get].
  destruct (py_true (dict_get d "title" PyNone));
    destruct (Phalanx.normalize_severity _); reflexivity.
Qed.

Lemma Phalanx_progpilot_finding_dict (d : list (string * pyval)) :
  Phalanx.progpilot_finding (PyDict d) =
    sev <- Phalanx.normalize_severity (dict_get d "severity" (PyStr "medium")) ;;
    line_no <- py_int (dict_get d "line" (PyInt 0)) ;;
    Ok {| Phalanx.tool := "progpilot";
          Phalanx.title :=
            slice_to 500
              (py_str (first_true d "description" "message" (PyStr "")));
          Phalanx.file := slice_to 1000 (py_str (dict_get d "file" (PyStr "")));
          Phalanx.line := line_no;
          Phalanx.severity := sev;
          Phalanx.code := slice_to 1000 (py_str (dict_get d "code" (PyStr "")));
          Phalanx.metadata :=
            [("rule", slice_to 100 (py_str (dict_get d "rule_name" (PyStr ""))))] |}.
Proof.
  unfold Phalanx.progpilot_finding, first_true, py_or. cbn [bind py_get].
  destruct (py_true (dict_get d "description" PyNone));
    destruct (Phalanx.normalize_severity _); reflexivity.
Qed.

Lemma Aegis_psalm_finding_dict (d : list (string * pyval)) :
  Aegis.psalm_finding (PyDict d) =
    sev <- Aegis.normalize_severity (dict_get d "severity" (PyStr "")) ;;
    stripped <- py_strip (dict_get d "snippet" (PyStr "")) ;;
    Ok {| Aegis.tool := "psalm";
          Aegis.title := dict_get d "message" PyNone;
          Aegis.file := dict_get d "file_name" PyNone;
          Aegis.line := dict_get d "line_from" PyNone;
          Aegis.severity := sev;
          Aegis.code := PyStr stripped;
          Aegis.metadata := [("type", dict_get d "type" PyNone);
                             ("link", dict_get d "link" PyNone)] |}.
Proof. reflexivity. Qed.

Lemma Aegis_parse_finding_dict (d : list (string * pyval)) :
  Aegis.parse_finding (PyDict d) =
    sev <- Aegis.normalize_severity (dict_get d "severity" (PyStr "warning")) ;;
    Ok {| Aegis.tool := "parse";
          Aegis.title := first_true d "title" "message" PyNone;
          Aegis.file := dict_get d "file" PyNone;
          Aegis.line := dict_get d "line" PyNone;
          Aegis.severity := sev;
          Aegis.code := dict_get d "code" (PyStr "");
          Aegis.metadata := [("rule", dict_get d "rule" PyNone)] |}.
Proof.
  unfold Aegis.parse_finding, first_true, py_or. cbn [bind py_get].
  destruct (py_true (dict_get d "title" PyNone));
    destruct (Aegis.normalize_severity _); reflexivity.
Qed.

Lemma Aegis_progpilot_finding_dict (d : list (string * pyval)) :
  Aegis.progpilot_finding (PyDict d) =
    sev <- Aegis.normalize_severity (dict_get d "severity" (PyStr "medium")) ;;
    Ok {| Aegis.tool := "progpilot";
          Aegis.title := first_true d "description" "message" PyNone;
          Aegis.file := dict_get d "file" PyNone;
          Aegis.line := dict_get d "line" PyNone;
          Aegis.severity := sev;
          Aegis.code := dict_get d "code" (PyStr "");
          Aegis.metadata := [("rule", dict_get d "rule_name" PyNone)] |}.
Proof.
  unfold Aegis.progpilot_finding, first_true, py_or. cbn [bind py_get].
  destruct (py_true (dict_get d "description" PyNone));
    destruct (Aegis.normalize_severity _); reflexivity.
Qed.

Ltac only_dict :=
  intros issue finding H; destruct issue; try discriminate H; eauto.

Lemma Phalanx_psalm_dict_only : dict_only Phalanx.psalm_finding.
Proof. only_dict. Qed.
Lemma Phalanx_parse_dict_only : dict_only Phalanx.parse_finding.
Proof. only_dict. Qed.
Lemma Phalanx_progpilot_dict_only : dict_only Phalanx.progpilot_finding.
Proof. only_dict. Qed.
Lemma Aegis_psalm_dict_only : dict_only Aegis.psalm_finding.
Proof. only_dict. Qed.
Lemma Aegis_parse_dict_only : dict_only Aegis.parse_finding.
Proof. only_dict. Qed.
Lemma Aegis_progpilot_dict_only : dict_only Aegis.progpilot_finding.
Proof. only_dict. Qed.

(** Splits [body issue = Ok finding] into the dict, the severity and the
    line that made it, and rewrites [finding] to the record built. *)
Ltac open_issue H :=
  lazymatch type of H with
  | _ (PyDict _) = Ok _ => idtac
  | _ ?issue = Ok _ =>
      let d := fresh "d" in
      destruct issue as [| | | | | |d]; try discriminate H
  end.

Ltac invert_finding H :=
  open_issue H;
  first [ rewrite Phalanx_psalm_finding_dict in H
        | rewrite Phalanx_parse_finding_dict in H
        | rewrite Phalanx_progpilot_finding_dict in H
        | rewrite Aegis_psalm_finding_dict in H
        | rewrite Aegis_parse_finding_dict in H
        | rewrite Aegis_progpilot_finding_dict in H ];
  repeat match type of H with
         | bind ?m _ = Ok _ =>
             let E := fresh "E" in
             destruct m eqn:E; cbn [bind] in H; [|discriminate H]
         end;
  injection H as H; subst.

Lemma normalize_severity_ok (raw : pyval) (sev : string) :
  Phalanx.normalize_severity raw = Ok sev ->
  exists text, raw = PyStr text /\ sev = severity_table (lower text).
Proof.
  destruct raw; try discriminate. intros H.
  rewrite normalize_severity_str in H. injection H as <-. eauto.
Qed.

Lemma Phalanx_tool_psalm issue f :
  Phalanx.psalm_finding issue = Ok f -> Phalanx.tool f = "psalm".
Proof. intros H. invert_finding H. reflexivity. Qed.
Lemma Phalanx_tool_parse issue f :
  Phalanx.parse_finding issue = Ok f -> Phalanx.tool f = "parse".
Proof. intros H. invert_finding H. reflexivity. Qed.
Lemma Phalanx_tool_progpilot issue f :
  Phalanx.progpilot_finding issue = Ok f -> Phalanx.tool f = "progpilot".
Proof. intros H. invert_finding H. reflexivity. Qed.
Lemma Aegis_tool_psalm issue f :
  Aegis.psalm_finding issue = Ok f -> Aegis.tool f = "psalm".
Proof. intros H. invert_finding H. reflexivity. Qed.
Lemma Aegis_tool_parse issue f :
  Aegis.parse_finding issue = Ok f -> Aegis.tool f = "parse".
Proof. intros H. invert_finding H. reflexivity. Qed.
Lemma Aegis_tool_progpilot issue f :
  Aegis.progpilot_finding issue = Ok f -> Aegis.tool f = "progpilot".
Proof. intros H. invert_finding H. reflexivity. Qed.


(** ** The summary *)

Lemma Phalanx_count_all (fs : list Phalanx.Finding) (s : Phalanx.Summary) :
  fold_left Phalanx.count_finding fs s =
    {| Phalanx.total_findings := Phalanx.total_findings s;
       Phalanx.by_tool :=
         fold_left Phalanx.count_one (map Phalanx.tool fs) (Phalanx.by_tool s);
       Phalanx.by_severity :=
         fold_left Phalanx.count_one (map Phalanx.severity fs)
                   (Phalanx.by_severity s);
       Phalanx.scan_timestamp := Phalanx.scan_timestamp s;
       Phalanx.phalanx_version := Phalanx.phalanx_version s |}.
Proof.
  revert s. induction fs as [|f fs IH]; intros s; simpl.
  - now destruct s.
  - now rewrite IH.
Qed.

Lemma dict_incr_setdefault (d : list (string * Z)) (k : string) :
  Aegis.dict_incr (dict_setdefault d k 0) k = Ok (Phalanx.count_one d k).
Proof.
  unfold Aegis.dict_incr, dict_setdefault, dict_mem, Phalanx.count_one, dict_get.
  destruct (dict_find d k) as [n|] eqn:E.
  - now rewrite E.
  - rewrite dict_find_set, String.eqb_refl, dict_set_set. reflexivity.
Qed.

Lemma Aegis_count_all (fs : list Aegis.Finding) (s : Aegis.Summary) :
  Aegis.count_all s fs =
    Ok {| Aegis.total_findings := Aegis.total_findings s;
          Aegis.by_tool :=
            fold_left Phalanx.count_one (map Aegis.tool fs) (Aegis.by_tool s) |}.
Proof.
  revert s. induction fs as [|f fs IH]; intros s; simpl.
  - now destruct s.
  - unfold Aegis.count_finding. rewrite dict_incr_setdefault. cbn [bind].
    now rewrite IH.
Qed.

Lemma Aegis_main_ok (p1 p2 p3 : pyval) (r : Aegis.Report) :
  Aegis.main p1 p2 p3 = Ok r ->
  exists a b c,
    Aegis.normalize_psalm p1 = Ok a
    /\ Aegis.normalize_parse p2 = Ok b
    /\ Aegis.normalize_progpilot p3 = Ok c
    /\ r = {| Aegis.summary :=
                {| Aegis.total_findings := Z.of_nat (length (a ++ b ++ c));
                   Aegis.by_tool :=
                     fold_left Phalanx.count_one
                               (map Aegis.tool (a ++ b ++ c)) [] |};
              Aegis.findings := (a ++ b ++ c)%list |}.
Proof.
  unfold Aegis.main. intros H.
  destruct (Aegis.normalize_psalm p1) as [a|]; [|discriminate].
  destruct (Aegis.normalize_parse p2) as [b|]; [|discriminate].
  destruct (Aegis.normalize_progpilot p3) as [c|]; [|discriminate].
  cbn [bind] in H. rewrite Aegis_count_all in H. cbn [bind] in H.
  injection H as <-. exists a, b, c. auto.
Qed.

Lemma sum_ints_counts (d : list (string * Z)) (acc : Z) :
  sum_ints (map snd (map (fun kv => (fst kv, PyInt (snd kv))) d)) acc =
    Ok (fold_left Z.add (map snd d) acc).
Proof.
  revert acc. induction d as [|[k v] d IH]; intros acc; simpl; auto.
Qed.

Lemma sum_values_counts (d : list (string * Z)) :
  sum_values (Phalanx.counts_dict d) = Ok (dict_sum d).
Proof. apply sum_ints_counts. Qed.

Lemma Phalanx_summary_sums (now : string) (p1 p2 p3 : pyval) :
  let r := Phalanx.main now p1 p2 p3 in
  let s := Phalanx.summary r in
  Phalanx.total_findings s = Z.of_nat (length (Phalanx.findings r))
  /\ dict_sum (Phalanx.by_tool s) = Phalanx.total_findings s
  /\ dict_sum (Phalanx.by_severity s) = Phalanx.total_findings s.
Proof.
  unfold Phalanx.main. cbn [Phalanx.summary Phalanx.findings].
  rewrite Phalanx_count_all.
  cbn [Phalanx.total_findings Phalanx.by_tool Phalanx.by_severity].
  rewrite !dict_sum_count_all, !length_map. repeat split; reflexivity.
Qed.

(** ** C1 *)

(** C1, as the claim states it, on [aegisphp.py]: its summary has no
    "by_severity", so the sum the claim compares does not exist. *)
Lemma aegis_counts_disagree :
  exists r,
    Aegis.main
      (PyDict [("issues",
                PyList [PyDict [("message", PyStr "SQL injection");
                                ("file_name", PyStr "a.php");
                                ("line_from", PyInt 10);
                                ("severity", PyStr "error");
                                ("snippet", PyStr "$x");
                                ("type", PyStr "TaintedSql")]])])
      (PyDict []) (PyDict []) = Ok r
    /\ ~ counts_agree (Aegis.report_dict r).
Proof.
  eexists. split; [reflexivity|].
  intros [n (_ & _ & _ & H)]. discriminate H.
Qed.

(** C1, amended: in [phalanx.py] the number of findings, [total_findings],
    the sum of [by_tool] and the sum of [by_severity] are equal for all
    payloads; a report of [aegisphp.py] has no "by_severity", and its number
    of findings, [total_findings] and the sum of [by_tool] are equal. *)
Theorem counts_agree_by_variant (now : string) (p1 p2 p3 : pyval) :
  counts_agree (Phalanx.report_dict (Phalanx.main now p1 p2 p3))
  /\ (forall r, Aegis.main p1 p2 p3 = Ok r ->
        summary_item (Aegis.report_dict r) "by_severity" = Raise KeyError
        /\ exists n : Z,
             (fs <- py_getitem (Aegis.report_dict r) "findings" ;; py_len fs)
               = Ok n
             /\ summary_item (Aegis.report_dict r) "total_findings"
                  = Ok (PyInt n)
             /\ (d <- summary_item (Aegis.report_dict r) "by_tool" ;;
                 sum_values d) = Ok n).
Proof.
  split.
  - destruct (Phalanx_summary_sums now p1 p2 p3) as (Ht & Hb & Hs).
    set (r := Phalanx.main now p1 p2 p3) in *.
    exists (Phalanx.total_findings (Phalanx.summary r)).
    unfold summary_item, Phalanx.report_dict.
    cbn [py_getitem dict_find String.eqb Ascii.eqb Bool.eqb bind py_len].
    rewrite !sum_values_counts, length_map, Hb, Hs, Ht. auto.
  - intros r H. split; [reflexivity|].
    apply Aegis_main_ok in H as (a & b & c & _ & _ & _ & ->).
    exists (Z.of_nat (length (a ++ b ++ c))).
    unfold summary_item, Aegis.report_dict.
    cbn [py_getitem dict_find String.eqb Ascii.eqb Bool.eqb bind py_len
         Aegis.summary Aegis.findings Aegis.total_findings Aegis.by_tool].
    change (sum_values (Aegis.counts_dict ?d)) with
      (sum_values (Phalanx.counts_dict d)).
    rewrite sum_values_counts, dict_sum_count_all, !length_map.
    repeat split.
Qed.

Lemma counts_agree_by_variant_witness :
  exists r,
    Aegis.main (PyDict [("issues", PyList [PyDict []])]) (PyDict []) (PyDict [])
      = Ok r
    /\ counts_agree
         (Phalanx.report_dict
            (Phalanx.main "" (PyDict [("issues", PyList [PyDict []])])
                          (PyDict []) (PyDict [])))
    /\ summary_item (Aegis.report_dict r) "by_severity" = Raise KeyError
    /\ exists n : Z,
         summary_item (Aegis.report_dict r) "total_findings" = Ok (PyInt n)
         /\ (d <- summary_item (Aegis.report_dict r) "by_tool" ;;
             sum_values d) = Ok n.
Proof.
  destruct (counts_agree_by_variant ""
              (PyDict [("issues", PyList [PyDict []])]) (PyDict []) (PyDict []))
    as [HP H].
  eexists. split; [reflexivity|]. split; [exact HP|].
  destruct (H _ eq_refl) as [Hno (n & _ & Ht & Hs)].
  split; [exact Hno|]. exists n. split; [exact Ht | exact Hs].
Defined.


(** ** The adapters, one scanner at a time *)

Lemma phalanx_adapter_spec (t : scanner) (data : pyval) :
  phalanx_adapter t data =
    until_failure (phalanx_body t) (raw_issues (list_key t) data).
Proof. destruct t; apply Phalanx_normalize_spec. Qed.

Lemma aegis_adapter_spec (t : scanner) (data : pyval) :
  aegis_adapter t data =
    issues <- (raw <- py_get data (list_key t) (PyList []) ;; py_iter raw) ;;
    match first_failure (aegis_body t) issues with
    | None => Ok (until_failure (aegis_body t) issues)
    | Some e => Raise e
    end.
Proof. destruct t; apply Aegis_normalize_spec. Qed.

Lemma aegis_adapter_ok (t : scanner) (data : pyval)
    (found : list Aegis.Finding) :
  aegis_adapter t data = Ok found ->
  found = until_failure (aegis_body t) (raw_issues (list_key t) data)
  /\ first_failure (aegis_body t) (raw_issues (list_key t) data) = None.
Proof. destruct t; apply Aegis_normalize_ok. Qed.

Lemma phalanx_body_dict_only (t : scanner) : dict_only (phalanx_body t).
Proof.
  destruct t;
    [ apply Phalanx_psalm_dict_only | apply Phalanx_parse_dict_only
    | apply Phalanx_progpilot_dict_only ].
Qed.

Lemma phalanx_body_tool (t : scanner) issue f :
  phalanx_body t issue = Ok f -> Phalanx.tool f = tool_name t.
Proof.
  destruct t;
    [ apply Phalanx_tool_psalm | apply Phalanx_tool_parse
    | apply Phalanx_tool_progpilot ].
Qed.

Lemma aegis_body_tool (t : scanner) issue f :
  aegis_body t issue = Ok f -> Aegis.tool f = tool_name t.
Proof.
  destruct t;
    [ apply Aegis_tool_psalm | apply Aegis_tool_parse
    | apply Aegis_tool_progpilot ].
Qed.

Lemma phalanx_block (t : scanner) (data : pyval) :
  exists n : nat,
    block_of (phalanx_body t) Phalanx.tool (tool_name t)
             (firstn n (raw_issues (list_key t) data)) (phalanx_adapter t data).
Proof.
  rewrite phalanx_adapter_spec.
  destruct (until_failure_in_order (phalanx_body t)
              (raw_issues (list_key t) data)) as [n H].
  exists n. unfold block_of.
  eapply Forall2_impl; [|exact H].
  intros issue f E. split; [exact E | eapply phalanx_body_tool; exact E].
Qed.

Lemma aegis_block (t : scanner) (data : pyval) (found : list Aegis.Finding) :
  aegis_adapter t data = Ok found ->
  block_of (aegis_body t) Aegis.tool (tool_name t)
           (raw_issues (list_key t) data) found.
Proof.
  intros H. apply aegis_adapter_ok in H as [-> Hnone].
  apply no_failure_all in Hnone as [H _]. unfold block_of.
  eapply Forall2_impl; [|exact H].
  intros issue f E. split; [exact E | eapply aegis_body_tool; exact E].
Qed.

(** ** The scenarios of the specification *)

Example scenario_one_psalm_issue :
  let psalm_json :=
    PyDict [("issues",
             PyList [PyDict [("message", PyStr "SQL injection");
                             ("file_name", PyStr "a.php");
                             ("line_from", PyInt 10);
                             ("severity", PyStr "error");
                             ("snippet", PyStr "$x");
                             ("type", PyStr "TaintedSql")]])] in
  let r := Phalanx.main "2024-05-01T10:00:00" psalm_json (PyDict []) (PyDict []) in
  map Phalanx.tool (Phalanx.findings r) = ["psalm"]
  /\ map Phalanx.severity (Phalanx.findings r) = ["high"]
  /\ Phalanx.total_findings (Phalanx.summary r) = 1
  /\ Phalanx.by_tool (Phalanx.summary r) = [("psalm", 1)]
  /\ Phalanx.by_severity (Phalanx.summary r) =
       [("low", 0); ("medium", 0); ("high", 1); ("critical", 0)].
Proof. cbv zeta. repeat split. Qed.

Example scenario_all_payloads_empty :
  Phalanx.main "2024-05-01T10:00:00" (PyDict []) (PyDict []) (PyDict [])
    = empty_report "2024-05-01T10:00:00"
  /\ Aegis.main (PyDict []) (PyDict []) (PyDict [])
       = Ok {| Aegis.summary := {| Aegis.total_findings := 0;
                                   Aegis.by_tool := [] |};
               Aegis.findings := [] |}.
Proof. split; reflexivity. Qed.

(** ** C2 *)

(** C2: severity normalization is a total function of the raw severity
    string: both variants lower-case it and answer by the fixed table, with
    "medium" for every other text, the empty one included; the answer is one
    of the four levels and no exception is raised. *)
Theorem severity_normalization_total (raw : string) :
  Phalanx.normalize_severity (PyStr raw) = Ok (severity_table (lower raw))
  /\ Aegis.normalize_severity (PyStr raw) = Ok (severity_table (lower raw))
  /\ In (severity_table (lower raw)) levels.
Proof.
  split; [apply normalize_severity_str|].
  split; [|apply severity_table_level].
  rewrite <- normalize_severity_str. apply Aegis_normalize_severity_same.
Qed.

Example severity_any_casing :
  map (fun raw => Phalanx.normalize_severity (PyStr raw))
      ["INFO"; "Notice"; "warning"; "ErRoR"; "CRITICAL"; ""; "fatal"]
  = map Ok ["low"; "low"; "medium"; "high"; "critical"; "medium"; "medium"].
Proof. reflexivity. Qed.

(** ** C7 *)

(** C7: the findings of a report are the psalm block, then the parse block,
    then the progpilot block, whatever the sizes of the blocks; each block
    follows the order of the issues of its tool's raw list ([phalanx.py]: of
    the issues up to the first one that raises; [aegisphp.py]: of all of
    them, when it returns a report). *)
Theorem findings_grouped_in_raw_order (now : string) (p1 p2 p3 : pyval) :
  (exists n1 n2 n3 : nat,
     Phalanx.findings (Phalanx.main now p1 p2 p3) =
       (phalanx_adapter Psalm p1 ++ phalanx_adapter Parse p2
          ++ phalanx_adapter Progpilot p3)%list
     /\ block_of Phalanx.psalm_finding Phalanx.tool "psalm"
                 (firstn n1 (raw_issues "issues" p1)) (phalanx_adapter Psalm p1)
     /\ block_of Phalanx.parse_finding Phalanx.tool "parse"
                 (firstn n2 (raw_issues "findings" p2)) (phalanx_adapter Parse p2)
     /\ block_of Phalanx.progpilot_finding Phalanx.tool "progpilot"
                 (firstn n3 (raw_issues "results" p3))
                 (phalanx_adapter Progpilot p3))
  /\ (forall r, Aegis.main p1 p2 p3 = Ok r ->
        exists a b c,
          Aegis.findings r = (a ++ b ++ c)%list
          /\ block_of Aegis.psalm_finding Aegis.tool "psalm"
                      (raw_issues "issues" p1) a
          /\ block_of Aegis.parse_finding Aegis.tool "parse"
                      (raw_issues "findings" p2) b
          /\ block_of Aegis.progpilot_finding Aegis.tool "progpilot"
                      (raw_issues "results" p3) c).
Proof.
  split.
  - destruct (phalanx_block Psalm p1) as [n1 H1].
    destruct (phalanx_block Parse p2) as [n2 H2].
    destruct (phalanx_block Progpilot p3) as [n3 H3].
    exists n1, n2, n3. auto.
  - intros r H.
    apply Aegis_main_ok in H as (a & b & c & Ha & Hb & Hc & ->).
    exists a, b, c. split; [reflexivity|].
    split; [exact (aegis_block Psalm p1 a Ha)|].
    split; [exact (aegis_block Parse p2 b Hb)|].
    exact (aegis_block Progpilot p3 c Hc).
Qed.

Lemma findings_grouped_in_raw_order_witness :
  exists r a b c,
    Aegis.main (PyDict [("issues", PyList [PyDict []; PyDict []])])
               (PyDict [])
               (PyDict [("results", PyList [PyDict []])]) = Ok r
    /\ Aegis.findings r = (a ++ b ++ c)%list
    /\ block_of Aegis.psalm_finding Aegis.tool "psalm"
                [PyDict []; PyDict []] a
    /\ block_of Aegis.parse_finding Aegis.tool "parse" [] b
    /\ block_of Aegis.progpilot_finding Aegis.tool "progpilot" [PyDict []] c.
Proof.
  destruct (findings_grouped_in_raw_order ""
              (PyDict [("issues", PyList [PyDict []; PyDict []])])
              (PyDict [])
              (PyDict [("results", PyList [PyDict []])])) as [_ H].
  destruct (H _ eq_refl) as (a & b & c & E & Ha & Hb & Hc).
  eexists. exists a, b, c. split; [reflexivity|].
  split; [exact E|]. split; [exact Ha|]. split; [exact Hb | exact Hc].
Defined.

(** ** C10 *)

Lemma count_all_keys (ks : list string) (k : string) :
  (dict_mem (fold_left Phalanx.count_one ks []) k = true <-> In k ks)
  /\ (forall c, dict_find (fold_left Phalanx.count_one ks []) k = Some c ->
        0 < c).
Proof.
  unfold dict_mem. rewrite dict_find_count_all.
  pose proof (occurrences_pos k ks) as Hpos.
  pose proof (occurrences_nonneg k ks) as Hnn.
  destruct (Z.eqb_spec (occurrences k ks) 0) as [E|E]; simpl.
  - split; [|discriminate]. split; [discriminate|].
    intros I. apply Hpos in I. lia.
  - split.
    + split; [|reflexivity]. intros _. apply Hpos. lia.
    + intros c [= <-]. unfold dict_get. simpl. lia.
Qed.

(** C10: [by_tool] has a key exactly for the tools with at least one finding
    in the report, and a count under a key is at least 1: no key starts at
    zero.  Both variants. *)
Theorem by_tool_keys_are_reporting_tools (now : string) (p1 p2 p3 : pyval)
    (k : string) :
  (let r := Phalanx.main now p1 p2 p3 in
   (dict_mem (Phalanx.by_tool (Phalanx.summary r)) k = true <->
      exists f, In f (Phalanx.findings r) /\ Phalanx.tool f = k)
   /\ (forall c, dict_find (Phalanx.by_tool (Phalanx.summary r)) k = Some c ->
         0 < c))
  /\ (forall r, Aegis.main p1 p2 p3 = Ok r ->
        (dict_mem (Aegis.by_tool (Aegis.summary r)) k = true <->
           exists f, In f (Aegis.findings r) /\ Aegis.tool f = k)
        /\ (forall c, dict_find (Aegis.by_tool (Aegis.summary r)) k = Some c ->
              0 < c)).
Proof.
  split.
  - unfold Phalanx.main. cbn [Phalanx.summary Phalanx.findings].
    rewrite Phalanx_count_all. cbn [Phalanx.by_tool].
    destruct (count_all_keys
                (map Phalanx.tool
                     (Phalanx.normalize_psalm p1 ++ Phalanx.normalize_parse p2
                        ++ Phalanx.normalize_progpilot p3)) k) as [Hmem Hpos].
    split; [|exact Hpos].
    rewrite Hmem, in_map_iff. split; intros (f & A & B); exists f; auto.
  - intros r H.
    apply Aegis_main_ok in H as (a & b & c & _ & _ & _ & ->).
    cbn [Aegis.summary Aegis.findings Aegis.by_tool].
    destruct (count_all_keys (map Aegis.tool (a ++ b ++ c)) k) as [Hmem Hpos].
    split; [|exact Hpos].
    rewrite Hmem, in_map_iff. split; intros (f & A & B); exists f; auto.
Qed.

Lemma by_tool_keys_are_reporting_tools_witness :
  exists r,
    Aegis.main (PyDict []) (PyDict [("findings", PyList [PyDict []])])
               (PyDict []) = Ok r
    /\ dict_mem (Aegis.by_tool (Aegis.summary r)) "parse" = true
    /\ dict_mem (Aegis.by_tool (Aegis.summary r)) "psalm" = false.
Proof.
  eexists. split; [reflexivity|].
  destruct (by_tool_keys_are_reporting_tools ""
              (PyDict []) (PyDict [("findings", PyList [PyDict []])])
              (PyDict []) "parse") as [_ H].
  destruct (H _ eq_refl) as [[_ Hmem] _].
  split; [|reflexivity].
  apply Hmem. eexists. split; [left; reflexivity | reflexivity].
Defined.


(** ** C3 *)

(** C3, as the claim states it, on an adapter of [aegisphp.py]: a message of
    501 characters is the title, all 501 of them. *)
Lemma aegis_title_not_bounded :
  exists g,
    Aegis.psalm_finding (PyDict [("message", PyStr (replicate 501 "a"))]) = Ok g
    /\ Aegis.title g = PyStr (replicate 501 "a")
    /\ ~ truncation_law 500 (replicate 501 "a") (replicate 501 "a").
Proof.
  eexists. split; [reflexivity|]. split; [reflexivity|].
  intros (Hlen & _). vm_compute in Hlen.
  apply Nat.leb_le in Hlen. vm_compute in Hlen. discriminate Hlen.
Qed.

(** C3, amended: in every adapter of [phalanx.py] the title is the source
    text cut to 500 characters, the file and the code are cut to 1000, and a
    longer text leaves a field of exactly the bound that is a prefix of it;
    the adapters of [aegisphp.py] copy the raw title and file, whatever their
    length. *)
Theorem phalanx_fields_truncated (t : scanner) (issue : pyval) :
  (forall f, phalanx_body t issue = Ok f ->
     exists d, issue = PyDict d
       /\ truncation_law 500 (py_str (title_source t d (PyStr "")))
                         (Phalanx.title f)
       /\ truncation_law 1000 (py_str (dict_get d (file_key t) (PyStr "")))
                         (Phalanx.file f)
       /\ truncation_law 1000 (code_text t d) (Phalanx.code f))
  /\ (forall g, aegis_body t issue = Ok g ->
        exists d, issue = PyDict d
          /\ Aegis.title g = title_source t d PyNone
          /\ Aegis.file g = dict_get d (file_key t) PyNone).
Proof.
  split.
  - intros f H. destruct t; cbn [phalanx_body] in H; invert_finding H;
      eexists; (split; [reflexivity|]);
      cbn [Phalanx.title Phalanx.file Phalanx.code title_source file_key
           code_text];
      auto using slice_to_law.
  - intros g H. destruct t; cbn [aegis_body] in H; invert_finding H;
      eexists; (split; [reflexivity|]); split; reflexivity.
Qed.

Lemma phalanx_fields_truncated_witness :
  exists f,
    Phalanx.psalm_finding (PyDict [("message", PyStr (replicate 501 "a"))])
      = Ok f
    /\ String.length (Phalanx.title f) = 500%nat
    /\ prefix (Phalanx.title f) (replicate 501 "a") = true.
Proof.
  destruct (phalanx_fields_truncated Psalm
              (PyDict [("message", PyStr (replicate 501 "a"))])) as [H _].
  eexists. split; [reflexivity|].
  destruct (H _ eq_refl) as (d & Ed & (_ & Hprefix & Hlong & _) & _).
  injection Ed as <-. split; [|exact Hprefix].
  apply Hlong. vm_compute. apply Nat.le_refl.
Defined.


(** ** C4 *)

(** C4, as the claim states it, on [normalize_psalm] of [phalanx.py]: the
    first issue has an int for severity, the second is a good one; skipping
    the first alone would leave the finding of the second, and the adapter
    returns nothing. *)
Lemma phalanx_drops_the_issues_after_a_failure :
  let bad := PyDict [("severity", PyInt 3)] in
  let good := PyDict [("message", PyStr "eval of user input")] in
  let data := PyDict [("issues", PyList [bad; good])] in
  Phalanx.psalm_finding bad = Raise AttributeError
  /\ (exists f, Phalanx.psalm_finding good = Ok f
        /\ skip_failed Phalanx.psalm_finding (raw_issues "issues" data) = [f])
  /\ Phalanx.normalize_psalm data = []
  /\ Phalanx.normalize_psalm data
       <> skip_failed Phalanx.psalm_finding (raw_issues "issues" data).
Proof.
  cbv zeta. split; [reflexivity|]. split; [eexists; split; reflexivity|].
  split; [reflexivity|]. vm_compute. discriminate.
Qed.

(** C4, amended: when processing one raw issue raises, an adapter of
    [phalanx.py] stops there and returns the findings of the issues before
    it: that issue and all the issues after it give no finding; an adapter
    of [aegisphp.py] raises. *)
Theorem failing_issue_ends_the_adapter (t : scanner) (data : pyval)
    (before after : list pyval) (bad : pyval) :
  raw_issues (list_key t) data = (before ++ bad :: after)%list ->
  (forall found e,
     Forall2 (fun issue f => phalanx_body t issue = Ok f) before found ->
     phalanx_body t bad = Raise e ->
     phalanx_adapter t data = found)
  /\ (forall found e,
        Forall2 (fun issue g => aegis_body t issue = Ok g) before found ->
        aegis_body t bad = Raise e ->
        aegis_adapter t data = Raise e).
Proof.
  intros Hraw. split; intros found e Hok Hbad.
  - rewrite phalanx_adapter_spec, Hraw.
    eapply until_failure_stops; eassumption.
  - rewrite aegis_adapter_spec. unfold raw_issues in Hraw.
    destruct (raw <- py_get data (list_key t) (PyList []) ;; py_iter raw)
      as [issues|e0]; cbn [bind].
    + subst issues.
      destruct (until_failure_stops (aegis_body t) before after bad found e
                  Hok Hbad) as [_ ->].
      reflexivity.
    + destruct before; discriminate Hraw.
Qed.

Lemma failing_issue_ends_the_adapter_witness :
  let good := PyDict [("message", PyStr "eval of user input")] in
  let bad := PyDict [("severity", PyInt 3)] in
  let data := PyDict [("issues", PyList [good; bad; good])] in
  exists f,
    Phalanx.psalm_finding good = Ok f
    /\ Phalanx.normalize_psalm data = [f]
    /\ Aegis.normalize_psalm data = Raise AttributeError.
Proof.
  cbv zeta. eexists. split; [reflexivity|].
  destruct (failing_issue_ends_the_adapter Psalm
              (PyDict [("issues",
                        PyList [PyDict [("message", PyStr "eval of user input")];
                                PyDict [("severity", PyInt 3)];
                                PyDict [("message", PyStr "eval of user input")]])])
              [PyDict [("message", PyStr "eval of user input")]]
              [PyDict [("message", PyStr "eval of user input")]]
              (PyDict [("severity", PyInt 3)]) eq_refl) as [HP HA].
  split.
  - apply (HP _ AttributeError).
    + constructor; [reflexivity | constructor].
    + reflexivity.
  - eapply HA.
    + constructor; [reflexivity | constructor].
    + reflexivity.
Defined.

(** ** C5 *)

(** C5, as the claim states it, on [aegisphp.py]: psalm's payload holds null
    where the list should be; the adapter raises, and so does the pipeline,
    though parse has a finding to report. *)
Lemma aegis_fails_on_a_payload_without_list :
  let psalm_json := PyDict [("issues", PyNone)] in
  let parse_json := PyDict [("findings", PyList [PyDict [("title", PyStr "x")]])] in
  has_list "issues" psalm_json = false
  /\ Aegis.normalize_psalm psalm_json = Raise TypeError
  /\ ~ (exists r, Aegis.main psalm_json parse_json (PyDict []) = Ok r).
Proof.
  cbv zeta. split; [reflexivity|]. split; [reflexivity|].
  intros [r H]. discriminate H.
Qed.

Lemma phalanx_no_list (t : scanner) (data : pyval) :
  has_list (list_key t) data = false -> phalanx_adapter t data = [].
Proof.
  intros H. rewrite phalanx_adapter_spec.
  apply no_list_until_failure; [apply phalanx_body_dict_only | exact H].
Qed.

(** C5, amended: an adapter of [phalanx.py] returns no finding when its
    payload is not a dict with a list under the tool's key, [main] builds
    the report from the three adapters whatever the payloads are, and three
    such payloads give the report with no finding and all counts zero; an
    adapter of [aegisphp.py] returns no finding when its payload is a dict
    without the key, and raises when the value under the key is not
    iterable, which makes [main] raise: with the exception of the first of
    the adapters psalm, parse, progpilot that raises, whichever it is. *)
Theorem no_list_no_findings (now : string) (p1 p2 p3 : pyval) :
  (forall t data, has_list (list_key t) data = false ->
                  phalanx_adapter t data = [])
  /\ Phalanx.findings (Phalanx.main now p1 p2 p3) =
       (phalanx_adapter Psalm p1 ++ phalanx_adapter Parse p2
          ++ phalanx_adapter Progpilot p3)%list
  /\ (has_list "issues" p1 = false -> has_list "findings" p2 = false ->
      has_list "results" p3 = false ->
      Phalanx.main now p1 p2 p3 = empty_report now)
  /\ (forall t data, lacks_key (list_key t) data = true ->
                     aegis_adapter t data = Ok [])
  /\ (forall t d v e, dict_find d (list_key t) = Some v ->
                      py_iter v = Raise e ->
                      aegis_adapter t (PyDict d) = Raise e)
  /\ (forall e, aegis_adapter Psalm p1 = Raise e ->
                Aegis.main p1 p2 p3 = Raise e)
  /\ (forall a e, aegis_adapter Psalm p1 = Ok a ->
                  aegis_adapter Parse p2 = Raise e ->
                  Aegis.main p1 p2 p3 = Raise e)
  /\ (forall a b e, aegis_adapter Psalm p1 = Ok a ->
                    aegis_adapter Parse p2 = Ok b ->
                    aegis_adapter Progpilot p3 = Raise e ->
                    Aegis.main p1 p2 p3 = Raise e)
  /\ (forall t e, aegis_adapter t (payload_of t p1 p2 p3) = Raise e ->
                  exists e', Aegis.main p1 p2 p3 = Raise e').
Proof.
  split; [exact phalanx_no_list|]. split; [reflexivity|].
  split; [|split; [|split; [|split; [|split; [|split]]]]].
  - intros H1 H2 H3. unfold Phalanx.main.
    change Phalanx.normalize_psalm with (phalanx_adapter Psalm).
    change Phalanx.normalize_parse with (phalanx_adapter Parse).
    change Phalanx.normalize_progpilot with (phalanx_adapter Progpilot).
    rewrite (phalanx_no_list Psalm), (phalanx_no_list Parse),
      (phalanx_no_list Progpilot) by assumption.
    reflexivity.
  - intros t data H. rewrite aegis_adapter_spec.
    destruct data as [| | | | | |d]; try discriminate H.
    cbn [lacks_key] in H. apply negb_true_iff in H.
    cbn [py_get bind]. rewrite (dict_get_absent d _ _ H). reflexivity.
  - intros t d v e Hfind Hiter. rewrite aegis_adapter_spec.
    cbn [py_get bind]. unfold dict_get. rewrite Hfind, Hiter. reflexivity.
  - intros e H. unfold Aegis.main.
    change Aegis.normalize_psalm with (aegis_adapter Psalm).
    rewrite H. reflexivity.
  - intros a e H1 H2. unfold Aegis.main.
    change Aegis.normalize_psalm with (aegis_adapter Psalm).
    change Aegis.normalize_parse with (aegis_adapter Parse).
    rewrite H1, H2. reflexivity.
  - intros a b e H1 H2 H3. unfold Aegis.main.
    change Aegis.normalize_psalm with (aegis_adapter Psalm).
    change Aegis.normalize_parse with (aegis_adapter Parse).
    change Aegis.normalize_progpilot with (aegis_adapter Progpilot).
    rewrite H1, H2, H3. reflexivity.
  - intros t e H. unfold Aegis.main.
    change Aegis.normalize_psalm with (aegis_adapter Psalm).
    change Aegis.normalize_parse with (aegis_adapter Parse).
    change Aegis.normalize_progpilot with (aegis_adapter Progpilot).
    destruct (aegis_adapter Psalm p1) as [a|e1] eqn:H1;
      [|eexists; reflexivity].
    destruct (aegis_adapter Parse p2) as [b|e2] eqn:H2;
      [|eexists; reflexivity].
    destruct (aegis_adapter Progpilot p3) as [c|e3] eqn:H3;
      [|eexists; reflexivity].
    destruct t; cbn [payload_of] in H; congruence.
Qed.

Lemma no_list_no_findings_witness :
  Phalanx.main "2024" (PyDict []) (PyList []) (PyDict [("results", PyInt 7)])
    = empty_report "2024"
  /\ Aegis.normalize_parse (PyDict []) = Ok []
  /\ Aegis.normalize_progpilot (PyDict [("results", PyInt 7)]) = Raise TypeError
  /\ Aegis.main (PyDict []) (PyList []) (PyDict [("results", PyInt 7)])
      = Raise AttributeError
  /\ Aegis.main (PyDict []) (PyDict []) (PyDict [("results", PyInt 7)])
      = Raise TypeError.
Proof.
  destruct (no_list_no_findings "2024" (PyDict []) (PyList [])
              (PyDict [("results", PyInt 7)]))
    as (_ & _ & Hmain & Hnokey & Hraise & _ & Hparse & _).
  destruct (no_list_no_findings "2024" (PyDict []) (PyDict [])
              (PyDict [("results", PyInt 7)]))
    as (_ & _ & _ & _ & _ & _ & _ & Hprog & _).
  split; [|split; [|split; [|split]]].
  - apply Hmain; reflexivity.
  - apply (Hnokey Parse). reflexivity.
  - apply (Hraise Progpilot _ (PyInt 7)); reflexivity.
  - apply (Hparse []); reflexivity.
  - apply (Hprog [] []); reflexivity.
Defined.


(** ** C6 *)

(** C6, as the claim states it, on [normalize_psalm] of [phalanx.py]: the
    one issue has "abc" for line; [int] raises, and the adapter returns no
    finding at all, so none with line 0. *)
Lemma phalanx_drops_the_issue_with_a_bad_line :
  let data := PyDict [("issues", PyList [PyDict [("line_from", PyStr "abc")]])] in
  py_int (PyStr "abc") = Raise ValueError
  /\ Phalanx.normalize_psalm data = []
  /\ ~ (exists f, In f (Phalanx.normalize_psalm data) /\ Phalanx.line f = 0).
Proof.
  cbv zeta. split; [reflexivity|]. split; [reflexivity|].
  intros (f & [] & _).
Qed.

(** [int] skips the blanks of C and the two of Latin-1, and refuses the
    separators U+001C to U+001F, which [str.strip] removes: psalm's issue
    with such a line is dropped, and the one after it. *)
Lemma int_refuses_a_separator :
  let raw := String (ascii_of_nat 28) "42" in
  strip raw = "42"
  /\ py_int (PyStr raw) = Raise ValueError
  /\ py_int (PyStr (String (ascii_of_nat 133) "42")) = Ok 42
  /\ Phalanx.normalize_psalm
       (PyDict [("issues", PyList [PyDict [("line_from", PyStr raw)];
                                   PyDict [("line_from", PyInt 7)]])]) = [].
Proof. cbv zeta. repeat split; reflexivity. Qed.

(** C6, amended: in [phalanx.py] the line of a finding is [int] of the raw
    line, 0 when the issue has none; when [int] raises, processing the issue
    raises and no finding is made of it; in [aegisphp.py] the line is the
    raw value, unconverted. *)
Theorem line_is_int_of_raw_line (t : scanner) (d : list (string * pyval)) :
  (forall f, phalanx_body t (PyDict d) = Ok f ->
     py_int (dict_get d (line_key t) (PyInt 0)) = Ok (Phalanx.line f)
     /\ (dict_mem d (line_key t) = false -> Phalanx.line f = 0))
  /\ (forall e, py_int (dict_get d (line_key t) (PyInt 0)) = Raise e ->
        exists e', phalanx_body t (PyDict d) = Raise e')
  /\ (forall g, aegis_body t (PyDict d) = Ok g ->
        Aegis.line g = dict_get d (line_key t) PyNone).
Proof.
  split; [|split].
  - intros f H.
    assert (E : py_int (dict_get d (line_key t) (PyInt 0)) = Ok (Phalanx.line f)).
    { destruct t; cbn [phalanx_body] in H; invert_finding H; assumption. }
    split; [exact E|].
    intros Hno. rewrite (dict_get_absent d _ _ Hno) in E.
    injection E as <-. reflexivity.
  - intros e H.
    destruct t; cbn [phalanx_body line_key] in *;
      first [ rewrite Phalanx_psalm_finding_dict
            | rewrite Phalanx_parse_finding_dict
            | rewrite Phalanx_progpilot_finding_dict ];
      rewrite H;
      destruct (Phalanx.normalize_severity _); cbn [bind]; eauto.
  - intros g H.
    destruct t; cbn [aegis_body] in H; invert_finding H; reflexivity.
Qed.

Lemma line_is_int_of_raw_line_witness :
  exists f,
    Phalanx.parse_finding (PyDict [("line", PyStr " 42 ")]) = Ok f
    /\ Ok (Phalanx.line f) = Ok 42.
Proof.
  destruct (line_is_int_of_raw_line Parse [("line", PyStr " 42 ")]) as [H _].
  eexists. split; [reflexivity|].
  destruct (H _ eq_refl) as [E _].
  rewrite <- E. reflexivity.
Defined.

(** ** C8 *)

Lemma dict_get_severity_first (d : list (string * pyval)) (v default : pyval) :
  dict_get (("severity", v) :: d) "severity" default = v.
Proof. reflexivity. Qed.

Ltac other_keys :=
  unfold first_true;
  repeat (rewrite (dict_get_cons_other _ _ "severity") by reflexivity).

(** C8: an issue without a severity key is processed as if it had the
    default of its adapter under that key: "" for psalm, "warning" for
    parse, "medium" for progpilot; the severity of its finding is "medium".
    Both variants. *)
Theorem missing_severity_takes_the_default (t : scanner)
    (d : list (string * pyval)) :
  dict_mem d "severity" = false ->
  Phalanx.normalize_severity (PyStr (default_severity t)) = Ok "medium"
  /\ phalanx_body t (PyDict d) =
       phalanx_body t (PyDict (("severity", PyStr (default_severity t)) :: d))
  /\ aegis_body t (PyDict d) =
       aegis_body t (PyDict (("severity", PyStr (default_severity t)) :: d))
  /\ (forall f, phalanx_body t (PyDict d) = Ok f -> Phalanx.severity f = "medium")
  /\ (forall g, aegis_body t (PyDict d) = Ok g -> Aegis.severity g = "medium").
Proof.
  intros Hno.
  split; [destruct t; reflexivity|].
  split; [|split; [|split]].
  - destruct t; cbn [phalanx_body default_severity];
      first [ rewrite !Phalanx_psalm_finding_dict
            | rewrite !Phalanx_parse_finding_dict
            | rewrite !Phalanx_progpilot_finding_dict ];
      rewrite dict_get_severity_first, (dict_get_absent d _ _ Hno);
      other_keys; reflexivity.
  - destruct t; cbn [aegis_body default_severity];
      first [ rewrite !Aegis_psalm_finding_dict
            | rewrite !Aegis_parse_finding_dict
            | rewrite !Aegis_progpilot_finding_dict ];
      rewrite dict_get_severity_first, (dict_get_absent d _ _ Hno);
      other_keys; reflexivity.
  - intros f H.
    destruct t; cbn [phalanx_body] in H; invert_finding H;
      rewrite (dict_get_absent _ _ _ Hno) in E; injection E as <-; reflexivity.
  - intros g H.
    destruct t; cbn [aegis_body] in H; invert_finding H;
      rewrite (dict_get_absent _ _ _ Hno) in E; injection E as <-; reflexivity.
Qed.

Lemma missing_severity_takes_the_default_witness :
  exists f,
    Phalanx.parse_finding (PyDict [("title", PyStr "eval")]) = Ok f
    /\ Phalanx.severity f = "medium".
Proof.
  eexists. split; [reflexivity|].
  destruct (missing_severity_takes_the_default Parse [("title", PyStr "eval")]
              eq_refl) as (_ & _ & _ & H & _).
  apply H. reflexivity.
Defined.

(** ** C9 *)

(** C9, as the claim states it, on [normalize_parse] of [phalanx.py]: the
    code keeps the blanks around it. *)
Lemma phalanx_parse_code_not_stripped :
  exists f,
    Phalanx.parse_finding (PyDict [("code", PyStr "  eval($x);  ")]) = Ok f
    /\ Phalanx.code f = "  eval($x);  "
    /\ Phalanx.code f <> slice_to 1000 (strip "  eval($x);  ").
Proof.
  eexists. split; [reflexivity|]. split; [reflexivity|].
  vm_compute. discriminate.
Qed.

(** C9, amended: the code of a finding is the empty string when the raw field
    is missing; [phalanx.py] cuts it to 1000 characters and strips white
    space for psalm only, parse and progpilot keeping the text as it is;
    [aegisphp.py] strips psalm's snippet, which must be a str, and copies
    the raw code for parse and progpilot, without a bound. *)
Theorem code_field_by_adapter (t : scanner) (d : list (string * pyval)) :
  (forall f, phalanx_body t (PyDict d) = Ok f ->
     Phalanx.code f = slice_to 1000 (code_text t d)
     /\ (dict_mem d (code_key t) = false -> Phalanx.code f = ""))
  /\ (forall g, aegis_body t (PyDict d) = Ok g ->
        match t with
        | Psalm => exists s, dict_get d "snippet" (PyStr "") = PyStr s
                             /\ Aegis.code g = PyStr (strip s)
        | Parse | Progpilot => Aegis.code g = dict_get d "code" (PyStr "")
        end
        /\ (dict_mem d (code_key t) = false -> Aegis.code g = PyStr "")).
Proof.
  split.
  - intros f H.
    assert (E : Phalanx.code f = slice_to 1000 (code_text t d)).
    { destruct t; cbn [phalanx_body] in H; invert_finding H; reflexivity. }
    split; [exact E|].
    intros Hno. rewrite E.
    destruct t; cbn [code_text code_key] in *;
      rewrite (dict_get_absent d _ _ Hno); reflexivity.
  - intros g H.
    destruct t; cbn [aegis_body code_key] in *; invert_finding H;
      cbn [Aegis.code].
    + destruct (dict_get d "snippet" (PyStr "")) as [| | | |s| |] eqn:Es;
        try discriminate E0.
      injection E0 as <-. split; [eauto|].
      intros Hno. rewrite (dict_get_absent d _ _ Hno) in Es.
      injection Es as <-. reflexivity.
    + split; [reflexivity|]. intros Hno. now apply dict_get_absent.
    + split; [reflexivity|]. intros Hno. now apply dict_get_absent.
Qed.

Lemma code_field_by_adapter_witness :
  exists f,
    Phalanx.psalm_finding (PyDict [("snippet", PyStr "  eval($x);  ")]) = Ok f
    /\ Phalanx.code f = "eval($x);".
Proof.
  eexists. split; [reflexivity|].
  destruct (code_field_by_adapter Psalm [("snippet", PyStr "  eval($x);  ")])
    as [H _].
  destruct (H _ eq_refl) as [E _].
  rewrite E. reflexivity.
Defined.

(** ** Severity levels of a report *)

Lemma phalanx_body_severity (t : scanner) issue f :
  phalanx_body t issue = Ok f -> In (Phalanx.severity f) levels.
Proof.
  intros H. destruct t; cbn [phalanx_body] in H; invert_finding H;
    apply normalize_severity_ok in E as (text & _ & ->);
    apply severity_table_level.
Qed.

Lemma aegis_body_severity (t : scanner) issue g :
  aegis_body t issue = Ok g -> In (Aegis.severity g) levels.
Proof.
  intros H. destruct t; cbn [aegis_body] in H; invert_finding H;
    apply normalize_severity_ok in E as (text & _ & ->);
    apply severity_table_level.
Qed.

Lemma phalanx_adapter_severity (t : scanner) (data : pyval) :
  Forall (fun f => In (Phalanx.severity f) levels) (phalanx_adapter t data).
Proof.
  rewrite phalanx_adapter_spec. apply until_failure_all.
  apply phalanx_body_severity.
Qed.

Lemma phalanx_findings_levels (p1 p2 p3 : pyval) :
  Forall (fun f => In (Phalanx.severity f) levels)
         (Phalanx.normalize_psalm p1 ++ Phalanx.normalize_parse p2
            ++ Phalanx.normalize_progpilot p3).
Proof.
  repeat (apply Forall_app; split).
  - apply (phalanx_adapter_severity Psalm).
  - apply (phalanx_adapter_severity Parse).
  - apply (phalanx_adapter_severity Progpilot).
Qed.

(** X1: the severity of every finding of a report is one of the four
    levels, never the raw text of the tool.  Both variants. *)
Theorem finding_severity_is_a_level (now : string) (p1 p2 p3 : pyval) :
  Forall (fun f => In (Phalanx.severity f) levels)
         (Phalanx.findings (Phalanx.main now p1 p2 p3))
  /\ (forall r, Aegis.main p1 p2 p3 = Ok r ->
        Forall (fun g => In (Aegis.severity g) levels) (Aegis.findings r)).
Proof.
  split.
  - apply phalanx_findings_levels.
  - intros r H.
    apply Aegis_main_ok in H as (a & b & c & Ha & Hb & Hc & ->).
    cbn [Aegis.findings].
    apply (aegis_adapter_ok Psalm) in Ha as [-> _].
    apply (aegis_adapter_ok Parse) in Hb as [-> _].
    apply (aegis_adapter_ok Progpilot) in Hc as [-> _].
    repeat (apply Forall_app; split);
      apply until_failure_all; apply aegis_body_severity.
Qed.

Lemma finding_severity_is_a_level_witness :
  exists r,
    Aegis.main (PyDict [("issues", PyList [PyDict [("severity", PyStr "Error")]])])
               (PyDict []) (PyDict []) = Ok r
    /\ Forall (fun g => In (Aegis.severity g) levels) (Aegis.findings r).
Proof.
  destruct (finding_severity_is_a_level ""
              (PyDict [("issues", PyList [PyDict [("severity", PyStr "Error")]])])
              (PyDict []) (PyDict [])) as [_ H].
  eexists. split; [reflexivity|]. apply H. reflexivity.
Defined.

(** X2: [by_severity] of a [phalanx.py] report has exactly the four levels
    as keys, whatever the findings are. *)
Theorem by_severity_has_the_four_levels (now : string) (p1 p2 p3 : pyval)
    (k : string) :
  dict_mem (Phalanx.by_severity (Phalanx.summary (Phalanx.main now p1 p2 p3))) k
    = true
  <-> In k levels.
Proof.
  pose proof (phalanx_findings_levels p1 p2 p3) as Hall.
  unfold Phalanx.main. cbn [Phalanx.summary Phalanx.findings].
  rewrite Phalanx_count_all. cbn [Phalanx.by_severity].
  unfold dict_mem. rewrite dict_find_count_all.
  set (fs := (Phalanx.normalize_psalm p1 ++ Phalanx.normalize_parse p2
                ++ Phalanx.normalize_progpilot p3)%list) in *.
  pose proof (occurrences_pos k (map Phalanx.severity fs)) as Hpos.
  pose proof (occurrences_nonneg k (map Phalanx.severity fs)) as Hnn.
  split.
  - destruct (Z.eqb_spec (occurrences k (map Phalanx.severity fs)) 0) as [E|E].
    + unfold levels. cbn [dict_find In].
      repeat match goal with
             | |- context [String.eqb ?a k] =>
                 destruct (String.eqb_spec a k); [auto 6|]
             end.
      discriminate.
    + intros _. assert (I : In k (map Phalanx.severity fs)) by (apply Hpos; lia).
      apply in_map_iff in I as (f & <- & If).
      rewrite Forall_forall in Hall. now apply Hall.
  - intros I.
    destruct (occurrences k (map Phalanx.severity fs) =? 0); [|reflexivity].
    unfold levels in I. simpl in I.
    destruct I as [<-|[<-|[<-|[<-|[]]]]]; reflexivity.
Qed.

(** ** Counts, key by key *)

Lemma dict_get_set_same {V : Type} (d : list (string * V)) (k : string)
    (v default : V) :
  dict_get (dict_set d k v) k default = v.
Proof. unfold dict_get. now rewrite dict_find_set, String.eqb_refl. Qed.

Lemma count_one_repeat (n : nat) (d : list (string * Z)) (k : string) :
  fold_left Phalanx.count_one (repeat k (S n)) d =
    dict_set d k (dict_get d k 0 + Z.of_nat (S n)).
Proof.
  revert d. induction n as [|n IH]; intros d.
  - reflexivity.
  - change (repeat k (S (S n))) with (k :: repeat k (S n)).
    cbn [fold_left]. rewrite IH. unfold Phalanx.count_one.
    rewrite dict_get_set_same, dict_set_set. f_equal. lia.
Qed.

Lemma count_block (n : nat) (d : list (string * Z)) (k : string) :
  fold_left Phalanx.count_one (repeat k n) d =
    match n with
    | O => d
    | S _ => dict_set d k (dict_get d k 0 + Z.of_nat n)
    end.
Proof. destruct n; [reflexivity | apply count_one_repeat]. Qed.

Lemma tools_of_block {F : Type} (tool_of : F -> string) (name : string)
    (block : list F) :
  Forall (fun f => tool_of f = name) block ->
  map tool_of block = repeat name (length block).
Proof.
  induction 1 as [|f block E _ IH]; simpl; [reflexivity|]. now rewrite E, IH.
Qed.

Lemma count_three_blocks (n1 n2 n3 : nat) :
  fold_left Phalanx.count_one
            (repeat "psalm" n1 ++ repeat "parse" n2 ++ repeat "progpilot" n3) []
  = tool_counts [("psalm", n1); ("parse", n2); ("progpilot", n3)].
Proof.
  rewrite !fold_left_app, !count_block.
  destruct n1, n2, n3; reflexivity.
Qed.

Lemma phalanx_adapter_tools (t : scanner) (data : pyval) :
  map Phalanx.tool (phalanx_adapter t data) =
    repeat (tool_name t) (length (phalanx_adapter t data)).
Proof.
  apply tools_of_block. rewrite phalanx_adapter_spec.
  apply until_failure_all. apply phalanx_body_tool.
Qed.

Lemma aegis_adapter_tools (t : scanner) (data : pyval) (found : list Aegis.Finding) :
  aegis_adapter t data = Ok found ->
  map Aegis.tool found = repeat (tool_name t) (length found).
Proof.
  intros H. apply tools_of_block.
  apply aegis_adapter_ok in H as [-> _].
  apply until_failure_all. apply aegis_body_tool.
Qed.

(** X3: [by_tool] of a report is the number of findings of each tool that
    has some, under the keys psalm, parse, progpilot in that order. *)
Theorem by_tool_is_the_size_of_each_block (now : string) (p1 p2 p3 : pyval) :
  Phalanx.by_tool (Phalanx.summary (Phalanx.main now p1 p2 p3)) =
    tool_counts [("psalm", length (Phalanx.normalize_psalm p1));
                 ("parse", length (Phalanx.normalize_parse p2));
                 ("progpilot", length (Phalanx.normalize_progpilot p3))]
  /\ (forall r, Aegis.main p1 p2 p3 = Ok r ->
        exists a b c,
          Aegis.normalize_psalm p1 = Ok a
          /\ Aegis.normalize_parse p2 = Ok b
          /\ Aegis.normalize_progpilot p3 = Ok c
          /\ Aegis.by_tool (Aegis.summary r) =
               tool_counts [("psalm", length a); ("parse", length b);
                            ("progpilot", length c)]).
Proof.
  split.
  - unfold Phalanx.main. cbn [Phalanx.summary]. rewrite Phalanx_count_all.
    cbn [Phalanx.by_tool]. rewrite !map_app.
    rewrite (phalanx_adapter_tools Psalm), (phalanx_adapter_tools Parse),
      (phalanx_adapter_tools Progpilot).
    apply count_three_blocks.
  - intros r H.
    apply Aegis_main_ok in H as (a & b & c & Ha & Hb & Hc & ->).
    exists a, b, c. repeat (split; [assumption|]).
    cbn [Aegis.summary Aegis.by_tool]. rewrite !map_app.
    rewrite (aegis_adapter_tools Psalm p1 a Ha),
      (aegis_adapter_tools Parse p2 b Hb),
      (aegis_adapter_tools Progpilot p3 c Hc).
    apply count_three_blocks.
Qed.

Lemma by_tool_is_the_size_of_each_block_witness :
  exists r,
    Aegis.main (PyDict [])
               (PyDict [("findings", PyList [PyDict []; PyDict []])])
               (PyDict [("results", PyList [PyDict []])]) = Ok r
    /\ Aegis.by_tool (Aegis.summary r) = [("parse", 2); ("progpilot", 1)].
Proof.
  destruct (by_tool_is_the_size_of_each_block ""
              (PyDict [])
              (PyDict [("findings", PyList [PyDict []; PyDict []])])
              (PyDict [("results", PyList [PyDict []])])) as [_ H].
  eexists. split; [reflexivity|].
  destruct (H _ eq_refl) as (a & b & c & Ha & Hb & Hc & E).
  injection Ha as <-. injection Hb as <-. injection Hc as <-.
  exact E.
Defined.

(** ** Counting into keys that are there *)

Lemma count_one_present (d : list (string * Z)) (k : string) :
  NoDup (map fst d) -> In k (map fst d) ->
  Phalanx.count_one d k =
    map (fun kv => (fst kv, snd kv + if String.eqb (fst kv) k then 1 else 0)) d.
Proof.
  unfold Phalanx.count_one, dict_get.
  induction d as [|[k0 v0] d IH]; intros Hnd Hin; [destruct Hin|].
  cbn [map fst] in Hnd. apply NoDup_cons_iff in Hnd as [Hfresh Hnd].
  cbn [dict_find dict_set map fst snd].
  destruct (String.eqb_spec k0 k) as [->|Hne].
  - f_equal. rewrite <- (map_id d) at 1. apply map_ext_in.
    intros [k1 v1] I. cbn [fst snd].
    destruct (String.eqb_spec k1 k) as [->|_].
    + exfalso. apply Hfresh. apply in_map_iff. now exists (k, v1).
    + f_equal. lia.
  - destruct Hin as [E|Hin]; [contradiction|].
    f_equal; [f_equal; lia|]. now apply IH.
Qed.

Lemma count_all_present (ks : list string) (d : list (string * Z)) :
  NoDup (map fst d) -> Forall (fun k => In k (map fst d)) ks ->
  fold_left Phalanx.count_one ks d =
    map (fun kv => (fst kv, snd kv + occurrences (fst kv) ks)) d.
Proof.
  revert d. induction ks as [|k ks IH]; intros d Hnd Hall.
  - cbn [fold_left]. rewrite <- (map_id d) at 1. apply map_ext.
    intros [k v]. cbn [fst snd]. unfold occurrences. simpl. f_equal. lia.
  - apply Forall_cons_iff in Hall as [Hk Hall].
    cbn [fold_left]. rewrite (count_one_present d k Hnd Hk).
    rewrite IH.
    + rewrite map_map. apply map_ext. intros [k1 v1]. cbn [fst snd].
      rewrite occurrences_cons, (String.eqb_sym k1 k).
      f_equal. destruct (String.eqb k k1); lia.
    + rewrite map_map. cbn [fst]. exact Hnd.
    + rewrite map_map. cbn [fst]. exact Hall.
Qed.

(** X4: [by_severity] of a [phalanx.py] report is, for each of the four
    levels in the order low, medium, high, critical, the number of findings
    of that severity. *)
Theorem by_severity_is_the_count_per_level (now : string) (p1 p2 p3 : pyval) :
  let r := Phalanx.main now p1 p2 p3 in
  Phalanx.by_severity (Phalanx.summary r) =
    map (fun level =>
           (level, occurrences level (map Phalanx.severity (Phalanx.findings r))))
        levels.
Proof.
  cbv zeta. unfold Phalanx.main. cbn [Phalanx.summary Phalanx.findings].
  rewrite Phalanx_count_all. cbn [Phalanx.by_severity].
  rewrite count_all_present.
  - reflexivity.
  - cbn [map fst]. repeat constructor; simpl; intuition discriminate.
  - rewrite Forall_map. exact (phalanx_findings_levels p1 p2 p3).
Qed.

(** ** What gives each level *)

Ltac table_cases text :=
  unfold severity_table;
  destruct (String.eqb_spec (lower text) "info") as [->|?];
  [|destruct (String.eqb_spec (lower text) "notice") as [->|?];
    [|destruct (String.eqb_spec (lower text) "warning") as [->|?];
      [|destruct (String.eqb_spec (lower text) "error") as [->|?];
        [|destruct (String.eqb_spec (lower text) "critical") as [->|?]]]]].

(** X5: only the casings of "error" give high, only those of "critical" give
    critical, only those of "info" and "notice" give low; every other text,
    "high" and "low" included, gives medium, and a severity that is not a
    str raises AttributeError.  Both variants. *)
Theorem severity_levels_have_fixed_sources (text : string) (raw : pyval) :
  (Phalanx.normalize_severity (PyStr text) = Ok "high" <-> lower text = "error")
  /\ (Phalanx.normalize_severity (PyStr text) = Ok "critical"
      <-> lower text = "critical")
  /\ (Phalanx.normalize_severity (PyStr text) = Ok "low"
      <-> lower text = "info" \/ lower text = "notice")
  /\ (Phalanx.normalize_severity (PyStr text) = Ok "medium"
      <-> ~ In (lower text) ["info"; "notice"; "error"; "critical"])
  /\ Aegis.normalize_severity raw = Phalanx.normalize_severity raw
  /\ match raw with
     | PyStr _ => True
     | _ => Phalanx.normalize_severity raw = Raise AttributeError
     end.
Proof.
  rewrite normalize_severity_str.
  repeat split; try (destruct raw; reflexivity);
    table_cases text; cbn [In];
    try (intros [= ]); try reflexivity; try congruence;
    try (intros [?|?]; congruence); try (intros; intuition congruence);
    intuition (try discriminate; try congruence).
Qed.

Example tool_levels_are_not_in_the_table :
  map (fun raw => Phalanx.normalize_severity (PyStr raw)) ["high"; "low"; "HIGH"]
  = map Ok ["medium"; "medium"; "medium"].
Proof. reflexivity. Qed.

(** ** Bounds of a report *)

Lemma slice_to_bound (n : nat) (s : string) :
  (String.length (slice_to n s) <= n)%nat.
Proof. rewrite slice_to_length. lia. Qed.

Lemma phalanx_body_bounded (t : scanner) issue f :
  phalanx_body t issue = Ok f ->
  bounded_finding f /\ map fst (Phalanx.metadata f) = metadata_keys t.
Proof.
  intros H. destruct t; cbn [phalanx_body] in H; invert_finding H;
    (split; [|reflexivity]); unfold bounded_finding;
    cbn [Phalanx.title Phalanx.file Phalanx.code Phalanx.metadata];
    (repeat split; try apply slice_to_bound);
    repeat (apply Forall_cons;
            [ cbn [fst snd]; unfold metadata_bound;
              cbn [String.eqb Ascii.eqb Bool.eqb]; apply slice_to_bound |]);
    apply Forall_nil.
Qed.

(** X6: in a [phalanx.py] report every finding is of bounded size: title at
    most 500 characters, file and code at most 1000, each metadata value at
    most 100, or 500 for "link". *)
Theorem report_findings_are_bounded (now : string) (p1 p2 p3 : pyval) :
  Forall bounded_finding (Phalanx.findings (Phalanx.main now p1 p2 p3)).
Proof.
  cbn [Phalanx.main Phalanx.findings].
  change Phalanx.normalize_psalm with (phalanx_adapter Psalm).
  change Phalanx.normalize_parse with (phalanx_adapter Parse).
  change Phalanx.normalize_progpilot with (phalanx_adapter Progpilot).
  rewrite !phalanx_adapter_spec.
  repeat (apply Forall_app; split);
    apply until_failure_all; intros issue f H;
    eapply phalanx_body_bounded; exact H.
Qed.

(** ** Sizes and concatenation *)
Section LoopSizes.
Context {F : Type} (body : pyval -> result F).

Lemma until_failure_length (issues : list pyval) :
  (length (until_failure body issues) <= length issues)%nat
  /\ (length (until_failure body issues) = length issues
      <-> first_failure body issues = None).
Proof.
  induction issues as [|issue rest [IHle IHeq]]; simpl.
  - split; [lia | tauto].
  - destruct (body issue) as [f|e]; simpl.
    + split; [lia|]. rewrite <- IHeq. split; lia.
    + split; [lia|]. split; [lia | discriminate].
Qed.

Lemma until_failure_app (l1 l2 : list pyval) :
  until_failure body (l1 ++ l2) =
    match first_failure body l1 with
    | None => (until_failure body l1 ++ until_failure body l2)%list
    | Some _ => until_failure body l1
    end.
Proof.
  induction l1 as [|issue rest IH]; simpl; [reflexivity|].
  destruct (body issue); [|reflexivity].
  rewrite IH. now destruct (first_failure body rest).
Qed.

Lemma first_failure_app (l1 l2 : list pyval) :
  first_failure body (l1 ++ l2) =
    match first_failure body l1 with
    | None => first_failure body l2
    | Some e => Some e
    end.
Proof.
  induction l1 as [|issue rest IH]; simpl; [reflexivity|].
  now destruct (body issue).
Qed.
End LoopSizes.

Lemma raw_issues_with_issues (t : scanner) (issues : list pyval) :
  raw_issues (list_key t) (with_issues t issues) = issues.
Proof. destruct t; reflexivity. Qed.

(** X7: an adapter returns at most one finding per raw issue, and as many
    findings as issues exactly when no issue raises; an adapter of
    [aegisphp.py] that returns has one finding per issue. *)
Theorem adapter_makes_one_finding_per_issue (t : scanner) (data : pyval) :
  (length (phalanx_adapter t data) <= length (raw_issues (list_key t) data))%nat
  /\ (length (phalanx_adapter t data) = length (raw_issues (list_key t) data)
      <-> first_failure (phalanx_body t) (raw_issues (list_key t) data) = None)
  /\ (forall found, aegis_adapter t data = Ok found ->
                    length found = length (raw_issues (list_key t) data)).
Proof.
  rewrite phalanx_adapter_spec.
  destruct (until_failure_length (phalanx_body t)
              (raw_issues (list_key t) data)) as [Hle Heq].
  split; [exact Hle|]. split; [exact Heq|].
  intros found H. apply aegis_adapter_ok in H as [-> Hnone].
  now apply (until_failure_length (aegis_body t)).
Qed.

Lemma adapter_makes_one_finding_per_issue_witness :
  exists found,
    Aegis.normalize_parse (PyDict [("findings", PyList [PyDict []; PyDict []])])
      = Ok found
    /\ length found = 2%nat.
Proof.
  destruct (adapter_makes_one_finding_per_issue Parse
              (PyDict [("findings", PyList [PyDict []; PyDict []])]))
    as (_ & _ & H).
  eexists. split; [reflexivity|]. exact (H _ eq_refl).
Defined.

(** X8: the findings of two runs of raw issues, one after the other: an
    adapter of [phalanx.py] gives those of the first run followed by those
    of the second, or those of the first run alone when one of its issues
    raises; an adapter of [aegisphp.py] gives the two lists joined, or
    raises with the first run that raises. *)
Theorem adapter_of_joined_issues (t : scanner) (l1 l2 : list pyval) :
  phalanx_adapter t (with_issues t (l1 ++ l2)) =
    match first_failure (phalanx_body t) l1 with
    | None => (phalanx_adapter t (with_issues t l1)
                 ++ phalanx_adapter t (with_issues t l2))%list
    | Some _ => phalanx_adapter t (with_issues t l1)
    end
  /\ aegis_adapter t (with_issues t (l1 ++ l2)) =
       (a1 <- aegis_adapter t (with_issues t l1) ;;
        a2 <- aegis_adapter t (with_issues t l2) ;;
        Ok (a1 ++ a2)%list).
Proof.
  split.
  - rewrite !phalanx_adapter_spec, !raw_issues_with_issues.
    apply until_failure_app.
  - rewrite !aegis_adapter_spec.
    assert (E : forall l,
               (raw <- py_get (with_issues t l) (list_key t) (PyList []) ;;
                py_iter raw) = Ok l)
      by (intros l; destruct t; reflexivity).
    rewrite !E. cbn [bind].
    rewrite first_failure_app, until_failure_app.
    destruct (first_failure (aegis_body t) l1); [reflexivity|].
    cbn [bind]. now destruct (first_failure (aegis_body t) l2).
Qed.

(** ** The whole of aegisphp's pipeline *)

(** X9: [main] of [aegisphp.py] raises exactly when an adapter does, with
    the exception of the first adapter that raises in the order psalm,
    parse, progpilot; counting the findings never raises. *)
Theorem aegis_main_raises_only_with_an_adapter (p1 p2 p3 : pyval) :
  match Aegis.normalize_psalm p1, Aegis.normalize_parse p2,
        Aegis.normalize_progpilot p3 with
  | Ok a, Ok b, Ok c =>
      exists r, Aegis.main p1 p2 p3 = Ok r
                /\ Aegis.findings r = (a ++ b ++ c)%list
                /\ Aegis.total_findings (Aegis.summary r)
                   = Z.of_nat (length a + length b + length c)
  | Raise e, _, _ => Aegis.main p1 p2 p3 = Raise e
  | Ok _, Raise e, _ => Aegis.main p1 p2 p3 = Raise e
  | Ok _, Ok _, Raise e => Aegis.main p1 p2 p3 = Raise e
  end.
Proof.
  unfold Aegis.main.
  destruct (Aegis.normalize_psalm p1) as [a|e]; [|reflexivity].
  destruct (Aegis.normalize_parse p2) as [b|e]; [|reflexivity].
  destruct (Aegis.normalize_progpilot p3) as [c|e]; [|reflexivity].
  cbn [bind]. rewrite Aegis_count_all. cbn [bind].
  eexists. split; [reflexivity|]. split; [reflexivity|].
  cbn [Aegis.summary Aegis.total_findings]. rewrite !length_app. lia.
Qed.

(** ** The two variants on one issue *)

(** X10: when [phalanx.py] makes a finding of an issue, the issue is a dict
    and [aegisphp.py] makes a finding of it too, of the same tool and
    severity, unless the issue is psalm's and its snippet is not a str: then,
    and only then, [strip] raises AttributeError in [aegisphp.py]. *)
Theorem variants_agree_on_an_issue (t : scanner) (issue : pyval)
    (f : Phalanx.Finding) :
  phalanx_body t issue = Ok f ->
  exists d,
    issue = PyDict d
    /\ ((t <> Psalm \/ exists s, dict_get d "snippet" (PyStr "") = PyStr s) ->
        exists g, aegis_body t issue = Ok g
                  /\ Aegis.tool g = Phalanx.tool f
                  /\ Aegis.severity g = Phalanx.severity f)
    /\ (t = Psalm ->
        (forall s, dict_get d "snippet" (PyStr "") <> PyStr s) ->
        aegis_body t issue = Raise AttributeError).
Proof.
  intros H. destruct t; cbn [phalanx_body aegis_body] in *; invert_finding H;
    exists d; (split; [reflexivity|]);
    first [ rewrite Aegis_psalm_finding_dict
          | rewrite Aegis_parse_finding_dict
          | rewrite Aegis_progpilot_finding_dict ];
    rewrite Aegis_normalize_severity_same, E; cbn [bind];
    try (split; [intros _; eexists; repeat split; reflexivity
                | discriminate ]).
  split.
  - intros [Hne|(s & Hs)]; [now elim Hne|].
    rewrite Hs. cbn [py_strip bind].
    eexists. repeat split; reflexivity.
  - intros _ Hs.
    destruct (dict_get d "snippet" (PyStr "")) as [| | | |s| |];
      cbn [py_strip bind]; try reflexivity.
    now elim (Hs s).
Qed.

Lemma variants_agree_on_an_issue_witness :
  (exists f g,
     Phalanx.psalm_finding
       (PyDict [("severity", PyStr "ERROR"); ("snippet", PyStr " eval($x); ")])
       = Ok f
     /\ Aegis.psalm_finding
          (PyDict [("severity", PyStr "ERROR"); ("snippet", PyStr " eval($x); ")])
          = Ok g
     /\ Aegis.severity g = Phalanx.severity f)
  /\ (exists f,
        Phalanx.psalm_finding (PyDict [("snippet", PyNone)]) = Ok f
        /\ Aegis.psalm_finding (PyDict [("snippet", PyNone)])
           = Raise AttributeError).
Proof.
  split.
  - destruct (variants_agree_on_an_issue Psalm
                (PyDict [("severity", PyStr "ERROR");
                         ("snippet", PyStr " eval($x); ")]) _ eq_refl)
      as (d & [= <-] & Hok & _).
    destruct Hok as (g & Hg & _ & Hsev);
      [right; eexists; reflexivity|].
    eexists. exists g. split; [reflexivity|]. split; [exact Hg | exact Hsev].
  - destruct (variants_agree_on_an_issue Psalm
                (PyDict [("snippet", PyNone)]) _ eq_refl)
      as (d & [= <-] & _ & Hraise).
    eexists. split; [reflexivity|].
    apply Hraise; [reflexivity|]. intros s. discriminate.
Defined.

(** ** Suffixes *)

Lemma length_append (a b : string) :
  String.length (a ++ b) = (String.length a + String.length b)%nat.
Proof. induction a as [|c a IH]; simpl; [reflexivity | now rewrite IH]. Qed.

Lemma substring_all (s : string) : substring 0 (String.length s) s = s.
Proof. induction s as [|c s IH]; simpl; [reflexivity | now rewrite IH]. Qed.

Lemma substring_after (a b : string) (m : nat) :
  substring (String.length a) m (a ++ b) = substring 0 m b.
Proof. induction a as [|c a IH]; simpl; [reflexivity | exact IH]. Qed.

Lemma substring_split (n : nat) (s : string) :
  (n <= String.length s)%nat ->
  s = substring 0 n s ++ substring n (String.length s - n) s.
Proof.
  revert n. induction s as [|c s IH]; intros [|n] H; simpl in *;
    try reflexivity; try lia.
  - now rewrite substring_all.
  - f_equal. apply IH. lia.
Qed.

Lemma ends_with_iff (suffix s : string) :
  ends_with suffix s = true <-> exists p, s = p ++ suffix.
Proof.
  unfold ends_with. rewrite andb_true_iff, Nat.leb_le, String.eqb_eq. split.
  - intros [Hle E].
    exists (substring 0 (String.length s - String.length suffix) s).
    pose proof (substring_split (String.length s - String.length suffix) s
                  ltac:(lia)) as Hsplit.
    replace (String.length s - (String.length s - String.length suffix))%nat
      with (String.length suffix) in Hsplit by lia.
    rewrite E in Hsplit. exact Hsplit.
  - intros [p ->]. rewrite length_append. split; [lia|].
    replace (String.length p + String.length suffix - String.length suffix)%nat
      with (String.length p) by lia.
    rewrite substring_after. apply substring_all.
Qed.

Lemma append_assoc (a b c : string) : (a ++ b) ++ c = a ++ (b ++ c).
Proof. induction a as [|x a IH]; simpl; [reflexivity | now rewrite IH]. Qed.

Lemma ends_with_append (suffix a b : string) :
  ends_with suffix b = true -> ends_with suffix (a ++ b) = true.
Proof.
  rewrite !ends_with_iff. intros [p ->]. exists (a ++ p).
  now rewrite append_assoc.
Qed.

Lemma ends_with_path_join (suffix a b : string) :
  ends_with suffix b = true -> ends_with suffix (path_join a b) = true.
Proof.
  intros H. unfold path_join.
  destruct (starts_with "/" b); [exact H|].
  destruct (String.eqb a "" || ends_with "/" a);
    repeat apply ends_with_append; exact H.
Qed.

Lemma or_empty_object_not_empty (text : string) : or_empty_object text <> "".
Proof.
  unfold or_empty_object.
  destruct (String.eqb_spec text ""); [discriminate | assumption].
Qed.

(** ** The output path *)

(** X11: [sanitize_output_path] accepts a path only if the directory of its
    absolute form exists and is writable, and then returns that absolute
    form, with ".json" added unless it already ends so: an accepted path
    always ends with ".json"; a refused one comes with the empty text. *)
Theorem sanitized_path_ends_with_json (w : world) (output_path : string) :
  match PhalanxScript.sanitize_output_path w output_path with
  | (true, out_path) =>
      ends_with ".json" out_path = true
      /\ exists abs_path,
           abspath w output_path = Some abs_path
           /\ path_exists w (dirname w abs_path) = true
           /\ access_w w (dirname w abs_path) = true
           /\ out_path = (if ends_with ".json" abs_path then abs_path
                          else abs_path ++ ".json")
  | (false, out_path) =>
      out_path = ""
      /\ match abspath w output_path with
         | Some abs_path => path_exists w (dirname w abs_path) = false
                            \/ access_w w (dirname w abs_path) = false
         | None => True
         end
  end.
Proof.
  unfold PhalanxScript.sanitize_output_path.
  destruct (abspath w output_path) as [abs_path|]; [|auto].
  destruct (path_exists w (dirname w abs_path)) eqn:Hex; cbn [negb]; [|auto].
  destruct (access_w w (dirname w abs_path)) eqn:Hw; cbn [negb]; [|auto].
  split.
  - destruct (ends_with ".json" abs_path) eqn:E; cbn [negb]; [exact E|].
    apply ends_with_iff. now exists abs_path.
  - exists abs_path. repeat split; try assumption.
    now destruct (ends_with ".json" abs_path).
Qed.

(** ** Running a tool *)

(** X12: [run_tool] of [phalanx.py] starts the command once, never raises
    and never returns the empty text: it returns what the process printed,
    whatever its status, and "{}" when it printed nothing, timed out or
    could not be started. *)
Theorem phalanx_run_tool_gives_text (w : world) (cmd : list string)
    (t : list event) :
  exists out,
    PhalanxScript.run_tool w cmd t = (inl out, (t ++ [Spawned cmd])%list)
    /\ out <> ""
    /\ match spawn w cmd with
       | Exited _ stdout _ => out = (if String.eqb stdout "" then "{}" else stdout)
       | _ => out = "{}"
       end.
Proof.
  unfold PhalanxScript.run_tool, run_process, pbind, emit, ret.
  destruct (spawn w cmd) as [status stdout stderr| | |];
    eexists; (split; [reflexivity|]); split;
    try discriminate; try reflexivity.
  apply or_empty_object_not_empty.
Qed.

Lemma aegis_run_tool_step (w : world) (cmd : list string) (t : list event) :
  AegisScript.run_tool w cmd t =
    (match spawn w cmd with
     | Exited status stdout _ =>
         inl (if status =? 0 then stdout else or_empty_object stdout)
     | _ => inr Uncaught
     end, (t ++ [Spawned cmd])%list).
Proof.
  unfold AegisScript.run_tool, run_process, pbind, emit, ret, stop.
  destruct (spawn w cmd) as [status stdout stderr| | |]; reflexivity.
Qed.

(** ** Steps of the scripts *)

Lemma pbind_run {A B : Type} (m : prog A) (k : A -> prog B) (t : list event) :
  pbind m k t =
    match m t with
    | (inl a, t') => k a t'
    | (inr o, t') => (inr o, t')
    end.
Proof. reflexivity. Qed.

Lemma or_empty_object_twice (text : string) :
  or_empty_object (or_empty_object text) = or_empty_object text.
Proof.
  unfold or_empty_object at 1.
  destruct (String.eqb_spec (or_empty_object text) "") as [E|]; [|reflexivity].
  now apply or_empty_object_not_empty in E.
Qed.

Lemma phalanx_run_tool_step (w : world) (cmd : list string) (t : list event) :
  PhalanxScript.run_tool w cmd t =
    (inl (phalanx_text w cmd), (t ++ [Spawned cmd])%list).
Proof.
  unfold PhalanxScript.run_tool, run_process, pbind, emit, ret, phalanx_text.
  now destruct (spawn w cmd).
Qed.

Lemma phalanx_load_step (w : world) (cmd : list string) (t : list event) :
  PhalanxScript.load_json w (phalanx_text w cmd) t =
    (match phalanx_payload w cmd with
     | Some v => inl v
     | None => inr Uncaught
     end, t).
Proof.
  unfold PhalanxScript.load_json, phalanx_payload, ret, stop.
  now destruct (loads w (phalanx_text w cmd)).
Qed.

Lemma phalanx_docker_step (w : world) (t : list event) :
  exists r,
    PhalanxScript.validate_docker_installed w t =
      (r, (t ++ [Spawned PhalanxScript.version_cmd])%list)
    /\ (r = inl true -> docker_answers w).
Proof.
  unfold PhalanxScript.validate_docker_installed, run_process, pbind, emit,
    ret, stop, docker_answers.
  destruct (spawn w PhalanxScript.version_cmd) as [status out err| | |];
    eexists; (split; [reflexivity|]); try discriminate.
  intros [= E]. apply Z.eqb_eq in E. subst. eauto.
Qed.

Lemma phalanx_image_step (w : world) (dir : string) (t : list event) :
  exists r new,
    PhalanxScript.ensure_image w dir t = (r, (t ++ new)%list)
    /\ (new = [Spawned PhalanxScript.images_cmd]
        \/ new = [Spawned PhalanxScript.images_cmd;
                  Spawned (PhalanxScript.build_cmd dir)])
    /\ (In (Spawned (PhalanxScript.build_cmd dir)) new <->
          exists out err,
            spawn w PhalanxScript.images_cmd = Exited 0 out err
            /\ strip out = "")
    /\ (r = inl true ->
          image_ready w PhalanxScript.images_cmd (PhalanxScript.build_cmd dir)).
Proof.
  assert (Hne : ~ In (Spawned (PhalanxScript.build_cmd dir))
                     [Spawned PhalanxScript.images_cmd]).
  { intros [H|[]].
    unfold PhalanxScript.images_cmd, PhalanxScript.build_cmd in H.
    discriminate H. }
  unfold PhalanxScript.ensure_image, run_process, pbind, emit, ret, stop,
    image_ready.
  destruct (spawn w PhalanxScript.images_cmd) as [status out err| | |] eqn:L;
    try (eexists; exists [Spawned PhalanxScript.images_cmd];
         split; [reflexivity|]; split; [auto|]; split;
         [split; [intros I; destruct (Hne I) | intros (? & ? & [=] & _)]
         | discriminate]).
  destruct (Z.eqb_spec status 0) as [->|Hs];
    [|eexists; exists [Spawned PhalanxScript.images_cmd];
      split; [reflexivity|]; split; [auto|]; split;
      [split; [intros I; destruct (Hne I)
              | intros (? & ? & [= ] & _); congruence]
      | discriminate]].
  destruct (String.eqb_spec (strip out) "") as [Hblank|Hshown].
  - rewrite <- app_assoc. cbn [app].
    destruct (spawn w (PhalanxScript.build_cmd dir)) as [built o e| | |] eqn:B;
      eexists; eexists; (split; [reflexivity|]); (split; [auto|]);
      (split; [split; [eauto | intros _; right; left; reflexivity]|]);
      try discriminate.
    intros [= E]. apply Z.eqb_eq in E. subst. eauto 8.
  - eexists; exists [Spawned PhalanxScript.images_cmd].
    split; [reflexivity|]. split; [auto|]. split.
    + split; [intros I; destruct (Hne I)
             | intros (? & ? & [= <- <-] & ?); contradiction].
    + eauto 8.
Qed.

Lemma phalanx_docker_iff (w : world) (t : list event) :
  exists r,
    PhalanxScript.validate_docker_installed w t =
      (r, (t ++ [Spawned PhalanxScript.version_cmd])%list)
    /\ (r = inl true \/ r = inl false \/ r = inr Uncaught)
    /\ (r = inl true <-> docker_answers w).
Proof.
  unfold PhalanxScript.validate_docker_installed, run_process, pbind, emit,
    ret, stop, docker_answers.
  destruct (spawn w PhalanxScript.version_cmd) as [status out err| | |];
    eexists; (split; [reflexivity|]);
    try (split; [auto|split; [discriminate | intros (? & ? & [=])]]).
  split; [destruct (status =? 0); auto|]. split.
  - intros [= E]. apply Z.eqb_eq in E. subst. eauto.
  - intros (? & ? & [= -> _ _]). reflexivity.
Qed.

Lemma phalanx_image_iff (w : world) (dir : string) (t : list event) :
  exists r new,
    PhalanxScript.ensure_image w dir t = (r, (t ++ new)%list)
    /\ (new = [Spawned PhalanxScript.images_cmd]
        \/ new = [Spawned PhalanxScript.images_cmd;
                  Spawned (PhalanxScript.build_cmd dir)])
    /\ (r = inl true \/ r = inl false \/ r = inr Uncaught)
    /\ (r = inl true <->
          image_ready w PhalanxScript.images_cmd (PhalanxScript.build_cmd dir)).
Proof.
  destruct (phalanx_image_step w dir t) as (r & new & E & Hnew & Hb & Hr).
  exists r, new. split; [exact E|]. split; [exact Hnew|].
  split.
  { revert E. unfold PhalanxScript.ensure_image, run_process, pbind, emit,
      ret, stop.
    destruct (spawn w PhalanxScript.images_cmd) as [status out err| | |];
      try (intros [= <- _]; auto).
    destruct (status =? 0); [|intros [= <- _]; auto].
    destruct (String.eqb (strip out) ""); [|intros [= <- _]; auto].
    destruct (spawn w (PhalanxScript.build_cmd dir)) as [built o e| | |];
      intros [= <- _]; auto.
    destruct (built =? 0); auto. }
  split; [exact Hr|].
  intros (out & err & L & Hready).
  revert E. unfold PhalanxScript.ensure_image, run_process, pbind, emit, ret.
  rewrite L. cbn [Z.eqb].
  destruct (String.eqb_spec (strip out) "") as [Hblank|Hshown].
  - destruct Hready as [Hs|(o & e & B)]; [contradiction|].
    rewrite B. cbn [Z.eqb]. now intros [= <- _].
  - now intros [= <- _].
Qed.

Ltac scan_step w cmd :=
  rewrite pbind_run, phalanx_run_tool_step, pbind_run, phalanx_load_step;
  let p := fresh "p" in
  let P := fresh "P" in
  destruct (phalanx_payload w cmd) as [p|] eqn:P.

(** How a run of [phalanx.py] ends is one of the ways of [phalanx_ends]. *)
Lemma phalanx_run_ends (w : world) (a : Args) :
  phalanx_ends w a (fst (run (PhalanxScript.main w a)))
               (snd (run (PhalanxScript.main w a))).
Proof.
  unfold run, PhalanxScript.main. rewrite pbind_run.
  destruct (phalanx_docker_iff w []) as (r & -> & Hr & Hd). cbn [app].
  destruct Hr as [-> | [-> | ->]]; cbn [negb fst snd];
    try (unfold stop; cbn [fst snd]; apply stops_in_checks;
         [ auto
         | intros dir (D & _); apply Hd in D; discriminate
         | left; reflexivity ]).
  destruct (PhalanxScript.validate_path w (target a)) as [[|] dir] eqn:V;
    cbn [negb];
    [|unfold stop; cbn [fst snd]; apply stops_in_checks;
      [ auto | intros dir' (_ & V' & _); congruence
      | left; reflexivity ]].
  rewrite pbind_run.
  destruct (phalanx_image_iff w (script_dir w)
              [Spawned PhalanxScript.version_cmd])
    as (r & new & -> & Hnew & Hr & Hi).
  destruct Hr as [-> | [-> | ->]]; cbn [negb];
    try (unfold stop; cbn [fst snd]; apply stops_in_checks;
         [ auto
         | intros dir' (_ & _ & I); apply Hi in I; discriminate
         | destruct Hnew as [-> | ->]; cbn; auto ]).
  assert (Pre : phalanx_preflight w a dir).
  { split; [now apply Hd|]. split; [exact V | now apply Hi]. }
  assert (Hchecks : In ([Spawned PhalanxScript.version_cmd] ++ new)%list
                       (tl (phalanx_checks w))).
  { destruct Hnew as [-> | ->]; cbn; auto. }
  set (checks := ([Spawned PhalanxScript.version_cmd] ++ new)%list) in *.
  clearbody checks. clear Hnew Hi Hd.
  scan_step w (PhalanxScript.psalm_cmd dir);
    [|unfold stop; cbn [fst snd];
      apply (stops_in_scans w a dir checks 0 _ Pre Hchecks eq_refl P)].
  scan_step w (PhalanxScript.parse_cmd dir);
    [|unfold stop; cbn [fst snd]; rewrite <- app_assoc;
      apply (stops_in_scans w a dir checks 1 _ Pre Hchecks eq_refl P0)].
  scan_step w (PhalanxScript.prog_cmd dir);
    [|unfold stop; cbn [fst snd]; rewrite <- !app_assoc;
      apply (stops_in_scans w a dir checks 2 _ Pre Hchecks eq_refl P1)].
  rewrite <- !app_assoc. cbn [app].
  change [Spawned (PhalanxScript.psalm_cmd dir);
          Spawned (PhalanxScript.parse_cmd dir);
          Spawned (PhalanxScript.prog_cmd dir)] with (phalanx_scans dir).
  rewrite pbind_run.
  assert (Hpath :
    match given_output a with
    | Some o =>
        let (is_valid, out_path) := PhalanxScript.sanitize_output_path w o in
        if negb is_valid then stop (Returned 1) else ret out_path
    | None => ret (PhalanxScript.default_path w)
    end (checks ++ phalanx_scans dir)%list
    = (match phalanx_out_path w a with
       | Some path => inl path
       | None => inr (Returned 1)
       end, (checks ++ phalanx_scans dir)%list)).
  { unfold phalanx_out_path. destruct (given_output a) as [o|]; [|reflexivity].
    now destruct (PhalanxScript.sanitize_output_path w o) as [[|] out]. }
  rewrite Hpath. clear Hpath.
  destruct (phalanx_out_path w a) as [path|] eqn:O;
    [|cbn [fst snd]; eapply stops_on_output; eauto].
  rewrite pbind_run. unfold write_report.
  destruct (dump_report w path
              (Phalanx.report_dict (Phalanx.main (utcnow w) p p0 p1)))
    as [|os_error|os_error] eqn:W.
  - rewrite !pbind_run. unfold emit, ret, say, stop.
    rewrite <- app_assoc.
    destruct (prints w _) eqn:S; cbn [fst snd];
      pose proof (writes_report w a dir checks p p0 p1 path
                    Pre Hchecks P P0 P1 O W) as Hend;
      rewrite S in Hend; exact Hend.
  - unfold ret, stop.
    pose proof (cannot_open w a dir checks p p0 p1 path os_error
                  Pre Hchecks P P0 P1 O W) as Hend.
    destruct os_error; exact Hend.
  - rewrite pbind_run. unfold emit, ret, stop.
    rewrite <- app_assoc.
    pose proof (spoils_report w a dir checks p p0 p1 path os_error
                  Pre Hchecks P P0 P1 O W) as Hend.
    destruct os_error; exact Hend.
Qed.

(** ** Runs of phalanx.py *)

Lemma sanitize_accepts_json (w : world) (o out_path : string) :
  PhalanxScript.sanitize_output_path w o = (true, out_path) ->
  ends_with ".json" out_path = true.
Proof.
  unfold PhalanxScript.sanitize_output_path.
  destruct (abspath w o) as [abs_path|]; [|discriminate].
  destruct (path_exists w (dirname w abs_path)); cbn [negb]; [|discriminate].
  destruct (access_w w (dirname w abs_path)); cbn [negb]; [|discriminate].
  intros [= <-].
  destruct (ends_with ".json" abs_path) eqn:E; cbn [negb]; [exact E|].
  apply ends_with_iff. now exists abs_path.
Qed.

Lemma phalanx_out_path_json (w : world) (a : Args) (path : string) :
  phalanx_out_path w a = Some path -> ends_with ".json" path = true.
Proof.
  unfold phalanx_out_path. destruct (given_output a) as [o|].
  - destruct (PhalanxScript.sanitize_output_path w o) as [[|] out] eqn:S;
      [|discriminate].
    intros [= <-]. exact (sanitize_accepts_json w o out S).
  - intros [= <-]. unfold PhalanxScript.default_path.
    apply ends_with_path_join. now repeat apply ends_with_append.
Qed.

Lemma validate_path_true (w : world) (path dir : string) :
  PhalanxScript.validate_path w path = (true, dir) <->
  abspath w path = Some dir /\ readable_dir w dir.
Proof.
  unfold PhalanxScript.validate_path, readable_dir.
  destruct (abspath w path) as [abs_path|];
    [|split; [discriminate | intros [[=] _]]].
  destruct (path_exists w abs_path) eqn:E1; cbn [negb];
    [|split; [discriminate | intros [[= ->] (? & _)]; congruence]].
  destruct (isdir w abs_path) eqn:E2; cbn [negb];
    [|split; [discriminate | intros [[= ->] (_ & ? & _)]; congruence]].
  destruct (access_r w abs_path) eqn:E3; cbn [negb];
    [|split; [discriminate | intros [[= ->] (_ & _ & ?)]; congruence]].
  split.
  - intros [= <-]. auto.
  - intros [[= ->] _]. reflexivity.
Qed.

Lemma checks_are_spawns (w : world) (checks : list event) (e : event) :
  In checks (phalanx_checks w) -> In e checks ->
  exists cmd, e = Spawned cmd /\ is_docker_run cmd = false.
Proof.
  unfold phalanx_checks. cbn [In].
  intros [<-|[<-|[<-|[]]]]; cbn [In];
    intros H; repeat (destruct H as [<-|H]; [eexists; split; reflexivity|]);
    destruct H.
Qed.

Lemma scans_are_spawns (dir : string) (e : event) :
  In e (phalanx_scans dir) ->
  exists cmd, e = Spawned cmd
              /\ In cmd [PhalanxScript.psalm_cmd dir; PhalanxScript.parse_cmd dir;
                         PhalanxScript.prog_cmd dir].
Proof.
  unfold phalanx_scans. cbn [In].
  intros [<-|[<-|[<-|[]]]]; eexists; (split; [reflexivity|]); auto.
Qed.

Lemma in_firstn {A : Type} (n : nat) (l : list A) (x : A) :
  In x (firstn n l) -> In x l.
Proof.
  revert l. induction n as [|n IH]; intros [|y l]; cbn; try tauto.
  intros [E|H]; auto.
Qed.

Lemma in_tl {A : Type} (l : list A) (x : A) : In x (tl l) -> In x l.
Proof. destruct l; cbn; auto. Qed.

Lemma only_processes_app (t u : list event) :
  only_processes t -> only_processes u -> only_processes (t ++ u).
Proof.
  intros Ht Hu e Hin. apply in_app_or in Hin as [Hin|Hin]; auto.
Qed.

Lemma only_processes_spawned (cmd : list string) :
  only_processes [Spawned cmd].
Proof. intros e [<-|[]]. eauto. Qed.

Lemma only_processes_written (t : list event) :
  only_processes t ->
  nothing_written t /\ forall path, ~ In (Spoiled path) t.
Proof.
  intros H. split; [intros path doc Hin | intros path Hin];
    destruct (H _ Hin) as (cmd & [=]).
Qed.

Lemma phalanx_checks_only_processes (w : world) (checks : list event) :
  In checks (phalanx_checks w) -> only_processes checks.
Proof.
  intros Hc e Hin.
  destruct (checks_are_spawns w checks e Hc Hin) as (cmd & -> & _). eauto.
Qed.

Lemma phalanx_scans_only_processes (dir : string) (n : nat) :
  only_processes (firstn n (phalanx_scans dir)).
Proof.
  intros e Hin. apply in_firstn in Hin.
  destruct (scans_are_spawns dir e Hin) as (cmd & -> & _). eauto.
Qed.

Lemma phalanx_before_the_write (w : world) (dir : string)
    (checks : list event) :
  In checks (tl (phalanx_checks w)) ->
  only_processes (checks ++ phalanx_scans dir).
Proof.
  intros Hc. apply only_processes_app.
  - apply (phalanx_checks_only_processes w). now apply in_tl.
  - exact (phalanx_scans_only_processes dir 3).
Qed.

Lemma last_event_unique (before before' : list event) (e e' : event) :
  (before ++ [e])%list = (before' ++ [e'])%list -> before = before' /\ e = e'.
Proof. intros H. now apply app_inj_tail in H. Qed.

Lemma in_before_or_last (before : list event) (e last : event) :
  In e (before ++ [last]) -> In e before \/ e = last.
Proof.
  intros Hin. apply in_app_or in Hin as [Hin|[<-|[]]]; auto.
Qed.

(** X13: [phalanx.py] leaves a whole report only in a run in which docker
    answered, the target passed [validate_path], the image was ready and the
    three payloads were loaded: the path is the one [main] settled on and
    ends with ".json", the document is the report the pipeline makes of the
    three payloads, and the writing went through.  The run then returns 0
    if the summary prints, and ends with the exception of [print] if it
    does not: the report stays. *)
Theorem phalanx_writes_the_report_of_the_scans (w : world) (a : Args)
    (path : string) (doc : pyval) :
  In (Wrote path doc) (snd (run (PhalanxScript.main w a))) ->
  ends_with ".json" path = true
  /\ phalanx_out_path w a = Some path
  /\ dump_report w path doc = Complete
  /\ fst (run (PhalanxScript.main w a))
     = (if prints w (ScanComplete doc path) then Returned 0 else Uncaught)
  /\ exists dir p1 p2 p3,
       phalanx_preflight w a dir
       /\ phalanx_payload w (PhalanxScript.psalm_cmd dir) = Some p1
       /\ phalanx_payload w (PhalanxScript.parse_cmd dir) = Some p2
       /\ phalanx_payload w (PhalanxScript.prog_cmd dir) = Some p3
       /\ doc = Phalanx.report_dict (Phalanx.main (utcnow w) p1 p2 p3).
Proof.
  intros Hin.
  destruct (phalanx_run_ends w a)
    as [o t _ _ Hc | dir checks n cmd _ Hc _ _
        | dir checks p1 p2 p3 _ Hc _ _ _ _
        | dir checks p1 p2 p3 path' e _ Hc _ _ _ _ _
        | dir checks p1 p2 p3 path' e _ Hc _ _ _ _ _
        | dir checks p1 p2 p3 path' Pre Hc P1 P2 P3 O W].
  - now apply (only_processes_written t
                 (phalanx_checks_only_processes w t Hc)) in Hin.
  - exfalso. revert Hin. apply only_processes_written, only_processes_app.
    + apply (phalanx_checks_only_processes w). now apply in_tl.
    + apply phalanx_scans_only_processes.
  - now apply (only_processes_written _
                 (phalanx_before_the_write w dir checks Hc)) in Hin.
  - now apply (only_processes_written _
                 (phalanx_before_the_write w dir checks Hc)) in Hin.
  - rewrite app_assoc in Hin. apply in_before_or_last in Hin as [Hin|[=]].
    now apply (only_processes_written _
                 (phalanx_before_the_write w dir checks Hc)) in Hin.
  - rewrite app_assoc in Hin. apply in_before_or_last in Hin as [Hin|E].
    { now apply (only_processes_written _
                   (phalanx_before_the_write w dir checks Hc)) in Hin. }
    injection E as -> ->.
    split; [exact (phalanx_out_path_json w a _ O)|].
    split; [exact O|]. split; [exact W|]. split; [reflexivity|].
    exists dir, p1, p2, p3. auto.
Qed.

Lemma phalanx_writes_the_report_of_the_scans_witness :
  fst (run (PhalanxScript.main demo_world {| target := "app"; output := None |}))
    = Returned 0
  /\ ends_with ".json" "/home/dev/PHALANX_output-20240501_100000.json" = true
  /\ fst (run (PhalanxScript.main demo_world_no_stdout
                 {| target := "app"; output := None |}))
     = Uncaught.
Proof.
  destruct (phalanx_writes_the_report_of_the_scans demo_world
              {| target := "app"; output := None |}
              "/home/dev/PHALANX_output-20240501_100000.json"
              (Phalanx.report_dict
                 (Phalanx.main "2024-05-01T10:00:00"
                    (PyDict [("issues",
                              PyList [PyDict [("message", PyStr "SQL injection");
                                              ("severity", PyStr "error")]])])
                    (PyDict []) (PyDict []))))
    as (Hjson & _ & _ & Hstatus & _).
  { vm_compute. do 5 right. left. reflexivity. }
  destruct (phalanx_writes_the_report_of_the_scans demo_world_no_stdout
              {| target := "app"; output := None |}
              "/home/dev/PHALANX_output-20240501_100000.json"
              (Phalanx.report_dict
                 (Phalanx.main "2024-05-01T10:00:00"
                    (PyDict [("issues",
                              PyList [PyDict [("message", PyStr "SQL injection");
                                              ("severity", PyStr "error")]])])
                    (PyDict []) (PyDict []))))
    as (_ & _ & _ & Hraised & _).
  { vm_compute. do 5 right. left. reflexivity. }
  split; [exact Hstatus|]. split; [exact Hjson | exact Hraised].
Defined.


Lemma scan_command_is_hardened (dir : string) (cmd : list string) :
  In cmd [PhalanxScript.psalm_cmd dir; PhalanxScript.parse_cmd dir;
          PhalanxScript.prog_cmd dir] ->
  is_docker_run cmd = true
  /\ mounts_read_only dir cmd = true
  /\ In "--cap-drop=ALL" cmd
  /\ In "--security-opt=no-new-privileges" cmd
  /\ In "--rm" cmd.
Proof.
  cbn [In]. intros [<-|[<-|[<-|[]]]];
    (split; [reflexivity|]);
    (split; [cbn; rewrite String.eqb_refl;
             rewrite ?orb_true_r; reflexivity|]);
    cbn; auto 8.
Qed.

(** X15: every container a run of [phalanx.py] starts is one of the three
    scans, started after docker answered and the image was ready, on the
    absolute form of the target, which exists, is a directory and is
    readable; it sees that directory read-only, with all capabilities
    dropped and no new privileges. *)
Theorem phalanx_scans_only_a_checked_target (w : world) (a : Args)
    (cmd : list string) :
  In (Spawned cmd) (snd (run (PhalanxScript.main w a))) ->
  is_docker_run cmd = true ->
  exists dir,
    phalanx_preflight w a dir
    /\ abspath w (target a) = Some dir
    /\ readable_dir w dir
    /\ In cmd [PhalanxScript.psalm_cmd dir; PhalanxScript.parse_cmd dir;
               PhalanxScript.prog_cmd dir]
    /\ mounts_read_only dir cmd = true
    /\ In "--cap-drop=ALL" cmd
    /\ In "--security-opt=no-new-privileges" cmd.
Proof.
  intros Hin Hrun.
  assert (Hchecks : forall checks,
            In checks (phalanx_checks w) -> ~ In (Spawned cmd) checks).
  { intros checks Hc Hin'.
    destruct (checks_are_spawns w checks _ Hc Hin') as (c & [= <-] & E).
    congruence. }
  assert (Hscan : forall dir,
            phalanx_preflight w a dir -> In (Spawned cmd) (phalanx_scans dir) ->
            exists dir,
              phalanx_preflight w a dir
              /\ abspath w (target a) = Some dir
              /\ readable_dir w dir
              /\ In cmd [PhalanxScript.psalm_cmd dir; PhalanxScript.parse_cmd dir;
                         PhalanxScript.prog_cmd dir]
              /\ mounts_read_only dir cmd = true
              /\ In "--cap-drop=ALL" cmd
              /\ In "--security-opt=no-new-privileges" cmd).
  { intros dir Pre Hin'.
    destruct (scans_are_spawns dir _ Hin') as (c & [= <-] & Hc).
    destruct (scan_command_is_hardened dir cmd Hc) as (_ & Hm & Hcap & Hsec & _).
    pose proof Pre as (_ & V & _). apply validate_path_true in V as [Habs Hdir].
    exists dir. auto 10. }
  destruct (phalanx_run_ends w a)
    as [o t _ _ Hc | dir checks n c Pre Hc _ _
        | dir checks p1 p2 p3 Pre Hc _ _ _ _
        | dir checks p1 p2 p3 path e Pre Hc _ _ _ _ _
        | dir checks p1 p2 p3 path e Pre Hc _ _ _ _ _
        | dir checks p1 p2 p3 path Pre Hc P1 P2 P3 O W].
  - now apply Hchecks in Hin.
  - apply in_app_or in Hin as [Hin|Hin];
      [now apply (Hchecks checks (in_tl _ _ Hc)) in Hin|].
    apply in_firstn in Hin. eauto.
  - apply in_app_or in Hin as [Hin|Hin];
      [now apply (Hchecks checks (in_tl _ _ Hc)) in Hin | eauto].
  - apply in_app_or in Hin as [Hin|Hin];
      [now apply (Hchecks checks (in_tl _ _ Hc)) in Hin | eauto].
  - apply in_app_or in Hin as [Hin|Hin];
      [now apply (Hchecks checks (in_tl _ _ Hc)) in Hin|].
    apply in_app_or in Hin as [Hin|Hin]; [eauto|].
    destruct Hin as [[=]|[]].
  - apply in_app_or in Hin as [Hin|Hin];
      [now apply (Hchecks checks (in_tl _ _ Hc)) in Hin|].
    apply in_app_or in Hin as [Hin|Hin]; [eauto|].
    destruct Hin as [[=]|[]].
Qed.

Lemma phalanx_scans_only_a_checked_target_witness :
  exists dir,
    abspath demo_world "app" = Some dir
    /\ mounts_read_only dir (PhalanxScript.parse_cmd "/srv/app") = true.
Proof.
  destruct (phalanx_scans_only_a_checked_target demo_world
              {| target := "app"; output := None |}
              (PhalanxScript.parse_cmd "/srv/app"))
    as (dir & _ & Habs & _ & _ & Hm & _).
  - vm_compute. do 3 right. left. reflexivity.
  - reflexivity.
  - exists dir. split; [exact Habs | exact Hm].
Defined.

Lemma preflight_dir_unique (w : world) (a : Args) (d1 d2 : string) :
  phalanx_preflight w a d1 -> phalanx_preflight w a d2 -> d1 = d2.
Proof. intros (_ & V1 & _) (_ & V2 & _). congruence. Qed.

(** X16: the path given by [--output] is looked at only after the scans:
    when the checks pass and the three payloads load, a path whose
    directory is missing or not writable makes the run return 1 after the
    three scanners were started, in the order psalm, parse, progpilot, and
    nothing is written. *)
Theorem phalanx_checks_the_output_after_the_scans (w : world) (a : Args)
    (dir o : string) (p1 p2 p3 : pyval) :
  phalanx_preflight w a dir ->
  phalanx_payload w (PhalanxScript.psalm_cmd dir) = Some p1 ->
  phalanx_payload w (PhalanxScript.parse_cmd dir) = Some p2 ->
  phalanx_payload w (PhalanxScript.prog_cmd dir) = Some p3 ->
  given_output a = Some o ->
  fst (PhalanxScript.sanitize_output_path w o) = false ->
  fst (run (PhalanxScript.main w a)) = Returned 1
  /\ (exists checks,
        snd (run (PhalanxScript.main w a)) = (checks ++ phalanx_scans dir)%list
        /\ In checks (phalanx_checks w))
  /\ nothing_written (snd (run (PhalanxScript.main w a))).
Proof.
  intros Pre P1 P2 P3 G S.
  assert (O : phalanx_out_path w a = None).
  { unfold phalanx_out_path. rewrite G.
    destruct (PhalanxScript.sanitize_output_path w o) as [[|] out];
      [discriminate S | reflexivity]. }
  destruct (phalanx_run_ends w a)
    as [o' t _ Hno _ | dir' checks n c Pre' Hc Hn Pc
        | dir' checks q1 q2 q3 Pre' Hc _ _ _ _
        | dir' checks q1 q2 q3 path e Pre' Hc _ _ _ O' W
        | dir' checks q1 q2 q3 path e Pre' Hc _ _ _ O' W
        | dir' checks q1 q2 q3 path Pre' Hc _ _ _ O' W].
  - elim (Hno dir Pre).
  - exfalso. rewrite (preflight_dir_unique w a dir' dir Pre' Pre) in Hn.
    unfold phalanx_scans in Hn.
    destruct n as [|[|[|[|n]]]]; cbn [nth_error] in Hn;
      try discriminate Hn; injection Hn as <-; congruence.
  - rewrite (preflight_dir_unique w a dir' dir Pre' Pre) in *.
    split; [reflexivity|]. split; [exists checks; split; [reflexivity|]|].
    + now apply in_tl.
    + apply only_processes_written.
      exact (phalanx_before_the_write w dir checks Hc).
  - congruence.
  - congruence.
  - congruence.
Qed.

(** ** Runs of aegisphp.py *)

Lemma aegis_scan_step {B : Type} (w : world) (cmd : list string)
    (k : pyval -> prog B) (t : list event) :
  pbind (AegisScript.run_tool w cmd)
        (fun out => pbind (AegisScript.load_json w out) k) t =
    match aegis_payload w cmd with
    | Some v => k v (t ++ [Spawned cmd])%list
    | None => (inr Uncaught, (t ++ [Spawned cmd])%list)
    end.
Proof.
  rewrite pbind_run, aegis_run_tool_step. unfold aegis_payload.
  destruct (spawn w cmd) as [status stdout stderr| | |]; try reflexivity.
  rewrite pbind_run. unfold AegisScript.load_json.
  assert (E : or_empty_object
                (if status =? 0 then stdout else or_empty_object stdout)
              = or_empty_object stdout).
  { destruct (status =? 0); [reflexivity | apply or_empty_object_twice]. }
  rewrite E.
  now destruct (loads w (or_empty_object stdout)).
Qed.

Lemma aegis_image_step (w : world) (dir : string) (t : list event) :
  exists r new,
    AegisScript.ensure_image w dir t = (r, (t ++ new)%list)
    /\ (new = [Spawned AegisScript.images_cmd]
        \/ new = [Spawned AegisScript.images_cmd;
                  Spawned (AegisScript.build_cmd dir)])
    /\ (r = inl tt \/ r = inr Uncaught)
    /\ (In (Spawned (AegisScript.build_cmd dir)) new <->
          exists status out err,
            spawn w AegisScript.images_cmd = Exited status out err
            /\ (status <> 0 \/ strip out = ""))
    /\ (r = inl tt <-> aegis_image_ready w dir).
Proof.
  assert (Hne : ~ In (Spawned (AegisScript.build_cmd dir))
                     [Spawned AegisScript.images_cmd]).
  { intros [H|[]].
    unfold AegisScript.images_cmd, AegisScript.build_cmd in H.
    discriminate H. }
  unfold AegisScript.ensure_image, aegis_image_ready.
  rewrite pbind_run. unfold run_process at 1. rewrite pbind_run.
  unfold emit, ret. rewrite pbind_run.
  destruct (spawn w AegisScript.images_cmd) as [status out err| | |] eqn:L;
    try (unfold stop; eexists; exists [Spawned AegisScript.images_cmd];
         split; [reflexivity|]; split; [auto|]; split; [auto|]; split;
         [ split; [intros I; destruct (Hne I) | intros (? & ? & ? & [=] & _)]
         | split; [discriminate | intros (? & ? & ? & [=] & _)] ]).
  assert (Hshown : (if status =? 0 then strip out else "") <> "" <->
                   status = 0 /\ strip out <> "").
  { destruct (Z.eqb_spec status 0); intuition congruence. }
  destruct (String.eqb_spec (if status =? 0 then strip out else "") "")
    as [Hblank|Hs].
  - assert (Hb : status <> 0 \/ strip out = "").
    { destruct (Z.eqb_spec status 0); auto. }
    unfold run_process. rewrite !pbind_run. unfold emit, ret, stop.
    rewrite <- app_assoc. cbn [app].
    destruct (spawn w (AegisScript.build_cmd dir)) as [built o e| | |] eqn:B;
      try (eexists; eexists; split; [reflexivity|]; split; [auto|];
           split; [auto|]; split;
           [ split; [eauto 8 | intros _; right; left; reflexivity]
           | split; [discriminate
                    | intros (s & o' & e' & [= <- <- <-] & [[? ?]|(? & ? & [=])]);
                      tauto] ]).
    destruct (Z.eqb_spec built 0) as [->|Hbuilt];
      eexists; eexists; (split; [reflexivity|]); (split; [auto|]);
      (split; [auto|]); split;
      try (split; [eauto 8 | intros _; right; left; reflexivity]).
    + split; [eauto 10 | reflexivity].
    + split; [discriminate|].
      intros (s & o' & e' & [= <- <- <-] & [[? ?]|(? & ? & [= ? _ _])]);
        [tauto | congruence].
  - apply Hshown in Hs as Hs'. destruct Hs' as [-> Hs'].
    eexists; exists [Spawned AegisScript.images_cmd].
    split; [reflexivity|]. split; [auto|]. split; [auto|]. split.
    + split; [intros I; destruct (Hne I)|].
      intros (s & o' & e' & [= <- <- <-] & [?|?]); [congruence | contradiction].
    + split; [eauto 10 | reflexivity].
Qed.

Lemma say_step {B : Type} (w : world) (line : shown) (k : unit -> prog B)
    (t : list event) :
  pbind (say w line) k t =
    if prints w line then k tt t else (inr Uncaught, t).
Proof.
  rewrite pbind_run. unfold say. now destruct (prints w line).
Qed.

Lemma write_report_step {B : Type} (w : world) (path : string) (doc : pyval)
    (k : written -> prog B) (t : list event) :
  pbind (write_report w path doc) k t =
    match dump_report w path doc with
    | Complete => k Complete (t ++ [Wrote path doc])%list
    | NotOpened os_error => k (NotOpened os_error) t
    | Broken os_error => k (Broken os_error) (t ++ [Spoiled path])%list
    end.
Proof.
  rewrite pbind_run. unfold write_report.
  now destruct (dump_report w path doc).
Qed.

Lemma only_processes_add (t : list event) (cmd : list string) :
  only_processes t -> only_processes (t ++ [Spawned cmd]).
Proof.
  intros H. apply only_processes_app; [exact H|].
  apply only_processes_spawned.
Qed.

Lemma aegis_checks_only_processes (w : world) (checks : list event) :
  In checks (aegis_checks w) -> only_processes checks.
Proof.
  unfold aegis_checks. cbn [In].
  intros [<-|[<-|[]]] e; cbn [In];
    intros H; repeat (destruct H as [<-|H]; [eauto|]); destruct H.
Qed.

Lemma aegis_before_the_write (w : world) (dir : string)
    (checks : list event) :
  In checks (aegis_checks w) -> only_processes (checks ++ aegis_scans dir).
Proof.
  intros Hc. apply only_processes_app.
  - now apply (aegis_checks_only_processes w).
  - intros e. unfold aegis_scans. cbn [In].
    intros [<-|[<-|[<-|[]]]]; eauto.
Qed.

(** How a run of [aegisphp.py] ends is one of the ways of [aegis_ends]. *)
Lemma aegis_run_ends (w : world) (a : Args) :
  aegis_ends w a (fst (run (AegisScript.main w a)))
             (snd (run (AegisScript.main w a))).
Proof.
  unfold run, AegisScript.main. rewrite pbind_run.
  destruct (abspath w (target a)) as [dir|] eqn:Habs;
    [|unfold stop; cbn [fst snd]; now apply no_absolute_path].
  change (ret dir []) with (@inl string outcome dir, @nil event).
  cbv beta iota.
  destruct (isdir w dir) eqn:Hdir; cbn [negb].
  2: { rewrite say_step. unfold stop.
       pose proof (not_a_directory w a dir Habs Hdir) as Hend.
       destruct (prints w (NotADirectory dir)); exact Hend. }
  rewrite pbind_run.
  destruct (aegis_image_step w (script_dir w) [])
    as (r & new & -> & Hnew & Hr & _ & Hi).
  cbn [app].
  assert (Hchecks : In new (aegis_checks w)).
  { destruct Hnew as [-> | ->]; cbn; auto. }
  pose proof (aegis_checks_only_processes w new Hchecks) as Hn0.
  destruct Hr as [-> | ->];
    [|cbn [fst snd]; apply (fails_on_the_way w a dir); auto;
      intros r (I & _); apply Hi in I; discriminate].
  assert (Img : aegis_image_ready w (script_dir w)) by now apply Hi.
  clear Hi Hnew.
  rewrite say_step.
  destruct (prints w (Running "Psalm")) eqn:S1;
    [|cbn [fst snd]; apply (fails_on_the_way w a dir); auto;
      intros r (_ & S & _); congruence].
  rewrite aegis_scan_step.
  destruct (aegis_payload w (AegisScript.psalm_cmd dir)) as [p1|] eqn:P1;
    [|cbn [fst snd]; apply (fails_on_the_way w a dir); auto;
      [ intros r (_ & _ & _ & _ & (q1 & q2 & q3 & Q1 & _)); congruence
      | now apply only_processes_add ]].
  rewrite say_step.
  destruct (prints w (Running "parse")) eqn:S2;
    [|cbn [fst snd]; apply (fails_on_the_way w a dir); auto;
      [ intros r (_ & _ & S & _); congruence
      | now apply only_processes_add ]].
  rewrite aegis_scan_step.
  destruct (aegis_payload w (AegisScript.parse_cmd dir)) as [p2|] eqn:P2;
    [|cbn [fst snd]; apply (fails_on_the_way w a dir); auto;
      [ intros r (_ & _ & _ & _ & (q1 & q2 & q3 & _ & Q2 & _)); congruence
      | now repeat apply only_processes_add ]].
  rewrite say_step.
  destruct (prints w (Running "ProgPilot")) eqn:S3;
    [|cbn [fst snd]; apply (fails_on_the_way w a dir); auto;
      [ intros r (_ & _ & _ & S & _); congruence
      | now repeat apply only_processes_add ]].
  rewrite aegis_scan_step.
  destruct (aegis_payload w (AegisScript.prog_cmd dir)) as [p3|] eqn:P3;
    [|cbn [fst snd]; apply (fails_on_the_way w a dir); auto;
      [ intros r (_ & _ & _ & _ & (q1 & q2 & q3 & _ & _ & Q3 & _)); congruence
      | now repeat apply only_processes_add ]].
  assert (Hn : only_processes
                 (((new ++ [Spawned (AegisScript.psalm_cmd dir)])
                     ++ [Spawned (AegisScript.parse_cmd dir)])
                    ++ [Spawned (AegisScript.prog_cmd dir)]))
    by now repeat apply only_processes_add.
  destruct (Aegis.main p1 p2 p3) as [r|e] eqn:M;
    [|unfold stop; cbn [fst snd]; apply (fails_on_the_way w a dir); auto;
      intros r (_ & _ & _ & _ & (q1 & q2 & q3 & Q1 & Q2 & Q3 & Q));
      congruence].
  assert (R : aegis_reaches_report w dir r).
  { repeat (split; [assumption|]). exists p1, p2, p3. auto. }
  clear Hn.
  rewrite <- !app_assoc. cbn [app].
  change [Spawned (AegisScript.psalm_cmd dir);
          Spawned (AegisScript.parse_cmd dir);
          Spawned (AegisScript.prog_cmd dir)] with (aegis_scans dir).
  change (match given_output a with
          | Some o => o
          | None => AegisScript.default_path w
          end) with (aegis_out_path w a).
  rewrite write_report_step.
  destruct (dump_report w (aegis_out_path w a) (Aegis.report_dict r))
    as [|os_error|os_error] eqn:W.
  - rewrite !say_step. rewrite <- app_assoc.
    pose proof (writes_all w a dir r new Habs Hdir R Hchecks W) as Hend.
    unfold aegis_echoes in Hend.
    destruct (prints w (Echo _)); cbn [andb] in Hend; [|exact Hend].
    destruct (prints w (WrittenTo _)); exact Hend.
  - unfold stop. cbn [fst snd].
    exact (aegis_cannot_open w a dir r new os_error Habs Hdir R Hchecks W).
  - unfold stop. cbn [fst snd]. rewrite <- app_assoc.
    exact (aegis_spoils_report w a dir r new os_error Habs Hdir R Hchecks W).
Qed.

Lemma phalanx_checks_the_output_after_the_scans_witness :
  fst (run (PhalanxScript.main demo_world_no_parent
              {| target := "app"; output := Some "out/r" |})) = Returned 1.
Proof.
  refine (proj1 (phalanx_checks_the_output_after_the_scans
                   demo_world_no_parent
                   {| target := "app"; output := Some "out/r" |}
                   "/srv/app" "out/r" _ _ _ _ _ _ _ eq_refl eq_refl)).
  - split; [do 2 eexists; reflexivity|]. split; [reflexivity|].
    do 2 eexists. split; [reflexivity|]. left. vm_compute. discriminate.
  - reflexivity.
  - reflexivity.
  - reflexivity.
Defined.




Lemma aegis_run_file_is_last (w : world) (a : Args) (dir : string)
    (checks : list event) (last : event) (e : event) :
  In checks (aegis_checks w) ->
  In e (checks ++ aegis_scans dir ++ [last]) ->
  (exists cmd, e = Spawned cmd) \/ e = last.
Proof.
  intros Hc Hin. rewrite app_assoc in Hin.
  apply in_before_or_last in Hin as [Hin|Hin]; [left|now right].
  exact (aegis_before_the_write w dir checks Hc e Hin).
Qed.

(** X18: [aegisphp.py] leaves a whole report only in a run in which the
    target is a directory, the image is there, each scanner was started and
    printed JSON, and no adapter raised; the path is [--output] as given,
    with no check and no ".json" added, or the default name, and the report
    is the last thing the run leaves.  The run ends with status 0 only if
    the two prints that follow go through; if one raises, the run ends with
    that exception and the report stays. *)
Theorem aegis_writes_only_a_complete_report (w : world) (a : Args)
    (path : string) (doc : pyval) :
  In (Wrote path doc) (snd (run (AegisScript.main w a))) ->
  path = aegis_out_path w a
  /\ dump_report w path doc = Complete
  /\ fst (run (AegisScript.main w a))
     = (if prints w (Echo doc) && prints w (WrittenTo path)
        then Returned 0 else Uncaught)
  /\ exists dir r checks,
       abspath w (target a) = Some dir
       /\ isdir w dir = true
       /\ aegis_reaches_report w dir r
       /\ doc = Aegis.report_dict r
       /\ In checks (aegis_checks w)
       /\ snd (run (AegisScript.main w a))
          = (checks ++ aegis_scans dir ++ [Wrote path doc])%list.
Proof.
  intros Hin.
  destruct (aegis_run_ends w a)
    as [_ | dir _ _ | dir t _ _ _ Hn
        | dir r checks e _ _ _ Hc _
        | dir r checks e _ _ _ Hc _
        | dir r checks Habs Hdir R Hc W].
  - destruct Hin.
  - destruct Hin.
  - destruct (Hn _ Hin) as (cmd & [=]).
  - destruct (aegis_before_the_write w dir checks Hc _ Hin) as (cmd & [=]).
  - destruct (aegis_run_file_is_last w a dir checks _ _ Hc Hin)
      as [(cmd & [=])|[=]].
  - destruct (aegis_run_file_is_last w a dir checks _ _ Hc Hin)
      as [(cmd & [=])|[= -> ->]].
    split; [reflexivity|]. split; [exact W|]. split; [reflexivity|].
    exists dir, r, checks. auto 7.
Qed.

Lemma aegis_writes_only_a_complete_report_witness :
  fst (run (AegisScript.main demo_world
              {| target := "app"; output := Some "r.txt" |})) = Returned 0
  /\ "r.txt" = aegis_out_path demo_world
                 {| target := "app"; output := Some "r.txt" |}
  /\ fst (run (AegisScript.main demo_world_no_stdout
                 {| target := "app"; output := Some "r.txt" |})) = Uncaught.
Proof.
  destruct (aegis_writes_only_a_complete_report demo_world
              {| target := "app"; output := Some "r.txt" |} "r.txt"
              (Aegis.report_dict
                 {| Aegis.summary :=
                      {| Aegis.total_findings := 1;
                         Aegis.by_tool := [("psalm", 1)] |};
                    Aegis.findings :=
                      [{| Aegis.tool := "psalm";
                          Aegis.title := PyStr "SQL injection";
                          Aegis.file := PyNone;
                          Aegis.line := PyNone;
                          Aegis.severity := "high";
                          Aegis.code := PyStr "";
                          Aegis.metadata := [("type", PyNone);
                                             ("link", PyNone)] |}] |}))
    as (Hpath & _ & Hstatus & _).
  { vm_compute. do 4 right. left. reflexivity. }
  split; [exact Hstatus|]. split; [exact Hpath|].
  reflexivity.
Defined.


